(** * Regional house-price index dashboard: change rate, geo join, colour scale

    A shallow embedding of the two Streamlit programs of the repository,

    - [main.py]                                (module [Main]) and
    - [houseprice_visualization_streamlit.py]  (module [Viz]),

    together with the properties their specification states about them.
    Pandas data frames are lists of row records in row order, Python
    exceptions are an error monad, the Streamlit calls and the HTTP requests
    of a script run are a log of events, and [st.cache_data] is an explicit
    cache threaded through the run. *)

From stdpp Require Import base option list strings sorting.
From Stdlib Require Import ZArith Floats Lia.

Local Open Scope Z_scope.

(** ** Python values, exceptions and the few built-ins the programs use *)

Module Py.

Inductive exn :=
  | ValueError | IndexError | KeyError | TypeError | AttributeError
  | JSONDecodeError | ConnectionError | Timeout | HTTPError.

Inductive result (A : Type) :=
  | Ok (a : A)
  | Raise (e : exn).
Arguments Ok {A} a.
Arguments Raise {A} e.

#[export] Instance result_ret : MRet result := fun _ a => Ok a.
#[export] Instance result_bind : MBind result := fun _ _ f m =>
  match m with Ok a => f a | Raise e => Raise e end.

(** What [json.loads] (behind [resp.json()]) builds. *)
#[local] Unset Elimination Schemes.
Inductive json :=
  | JNull
  | JBool (b : bool)
  | JNum (x : float)
  | JStr (s : string)
  | JArr (items : list json)
  | JObj (members : list (string * json)).
#[local] Set Elimination Schemes.

(** Truth value of an object in [if x:] and [if not x:]. *)
Definition truthy (j : json) : bool :=
  match j with
  | JNull => false
  | JBool b => b
  | JNum x => negb (PrimFloat.eqb x 0%float)
  | JStr s => negb (String.eqb s "")
  | JArr l => match l with [] => false | _ => true end
  | JObj l => match l with [] => false | _ => true end
  end.

Fixpoint assoc (k : string) (l : list (string * json)) : option json :=
  match l with
  | [] => None
  | (k', v) :: l' => if String.eqb k k' then Some v else assoc k l'
  end.

(** [j.get(k, default)]: only a dict has the method. *)
Definition get (j : json) (k : string) (default : json) : result json :=
  match j with
  | JObj l => Ok (match assoc k l with Some v => v | None => default end)
  | _ => Raise AttributeError
  end.

(** [j[i]] for a non-negative literal index [i]. *)
Definition item (j : json) (i : nat) : result json :=
  match j with
  | JArr l => match nth_error l i with Some v => Ok v | None => Raise IndexError end
  | JStr s => match String.get i s with
              | Some c => Ok (JStr (String c EmptyString))
              | None => Raise IndexError
              end
  | JObj _ => Raise KeyError
  | _ => Raise TypeError
  end.

(** [j[k]] for a string key [k]. *)
Definition key (j : json) (k : string) : result json :=
  match j with
  | JObj l => match assoc k l with Some v => Ok v | None => Raise KeyError end
  | _ => Raise TypeError
  end.

(** Objects that can be hashed: everything but lists and dicts. *)
Definition hashable (j : json) : bool :=
  match j with JArr _ | JObj _ => false | _ => true end.

Definition num_of_bool (b : bool) : float := if b then 1%float else 0%float.

(** Equality of two hashable objects as a dict, [Series.map] and
    [Series.unique] see it: by value, [True] and [1] alike, one NaN like
    another. *)
Definition same_key (a b : json) : bool :=
  let num_eq x y := PrimFloat.eqb x y || (PrimFloat.is_nan x && PrimFloat.is_nan y) in
  match a, b with
  | JNull, JNull => true
  | JBool x, JBool y => Bool.eqb x y
  | JBool x, JNum y => num_eq (num_of_bool x) y
  | JNum x, JBool y => num_eq x (num_of_bool y)
  | JNum x, JNum y => num_eq x y
  | JStr s, JStr t => String.eqb s t
  | _, _ => false
  end.

(** A dict in insertion order, its keys pairwise different. *)
Definition dict (V : Type) := list (json * V).

Fixpoint dict_lookup {V} (d : dict V) (k : json) : option V :=
  match d with
  | [] => None
  | (k', v) :: d' => if same_key k' k then Some v else dict_lookup d' k
  end.

(** [min(xs, key=f)]: the first element whose key is smallest. *)
Fixpoint min_from {A} (f : A → Z) (best : A) (xs : list A) : A :=
  match xs with
  | [] => best
  | x :: xs' => min_from f (if f x <? f best then x else best) xs'
  end.

Definition min_key {A} (f : A → Z) (xs : list A) : result A :=
  match xs with
  | [] => Raise ValueError
  | x :: xs' => Ok (min_from f x xs')
  end.

(** [s.endswith(suffix)] and [s.strip()]. A string is the UTF-8 bytes of
    its characters; a suffix of characters is a suffix of bytes. *)
Definition endswith (s suffix : string) : bool :=
  let n := String.length s in
  let m := String.length suffix in
  (m <=? n)%nat && String.eqb (String.substring (n - m)%nat m s) suffix.

(** The white space of [str.strip()]. In one byte: the characters 9 to
    13, 28 to 31 and 32. In two bytes: U+0085 and U+00A0. In three bytes:
    U+1680, U+2000 to U+200A, U+2028, U+2029, U+202F, U+205F and U+3000. *)
Definition is_space (c : Ascii.ascii) : bool :=
  let n := Ascii.nat_of_ascii c in
  (n =? 32)%nat || ((9 <=? n)%nat && (n <=? 13)%nat) || ((28 <=? n)%nat && (n <=? 31)%nat).

Definition is_space2 (c1 c2 : Ascii.ascii) : bool :=
  let n1 := Ascii.nat_of_ascii c1 in
  let n2 := Ascii.nat_of_ascii c2 in
  (n1 =? 194)%nat && ((n2 =? 133)%nat || (n2 =? 160)%nat).

Definition is_space3 (c1 c2 c3 : Ascii.ascii) : bool :=
  let n1 := Ascii.nat_of_ascii c1 in
  let n2 := Ascii.nat_of_ascii c2 in
  let n3 := Ascii.nat_of_ascii c3 in
  ((n1 =? 225)%nat && (n2 =? 154)%nat && (n3 =? 128)%nat)
  || ((n1 =? 226)%nat && (n2 =? 128)%nat
      && (((128 <=? n3)%nat && (n3 <=? 138)%nat)
          || (n3 =? 168)%nat || (n3 =? 169)%nat || (n3 =? 175)%nat))
  || ((n1 =? 226)%nat && (n2 =? 129)%nat && (n3 =? 159)%nat)
  || ((n1 =? 227)%nat && (n2 =? 128)%nat && (n3 =? 128)%nat).

(** The string after its first character, when that is white space. *)
Definition after_space (s : string) : option string :=
  match s with
  | String c1 s1 =>
      if is_space c1 then Some s1 else
      match s1 with
      | String c2 s2 =>
          if is_space2 c1 c2 then Some s2 else
          match s2 with
          | String c3 s3 => if is_space3 c1 c2 c3 then Some s3 else None
          | EmptyString => None
          end
      | EmptyString => None
      end
  | EmptyString => None
  end.

Fixpoint lstrip_upto (n : nat) (s : string) : string :=
  match n with
  | O => s
  | S n' => match after_space s with Some s' => lstrip_upto n' s' | None => s end
  end.

Definition lstrip (s : string) : string := lstrip_upto (String.length s) s.

Fixpoint rstrip (s : string) : string :=
  match s with
  | String c s' =>
      match lstrip s with
      | EmptyString => EmptyString
      | _ => String c (rstrip s')
      end
  | EmptyString => EmptyString
  end.

Definition strip (s : string) : string := rstrip (lstrip s).

End Py.
Export Py.

(** ** A script run: state, a log of events, and exceptions

    [S] is what outlives one run (the [st.cache_data] store), [E] the
    events a run leaves behind in order: Streamlit calls and HTTP requests.
    An exception ends the run and keeps the state and the log so far. *)

Module Run.

Definition run (S E A : Type) : Type := S → S * list E * result A.

Section ops.
Context {S E : Type}.

Definition ret {A} (a : A) : run S E A := fun s => (s, [], Ok a).

Definition bind {A B} (m : run S E A) (f : A → run S E B) : run S E B :=
  fun s =>
    match m s with
    | (s1, log1, Ok a) =>
        match f a s1 with (s2, log2, r) => (s2, log1 ++ log2, r) end
    | (s1, log1, Raise e) => (s1, log1, Raise e)
    end.

Definition emit (e : E) : run S E unit := fun s => (s, [e], Ok tt).

Definition lift {A} (r : result A) : run S E A := fun s => (s, [], r).

Definition get_state : run S E S := fun s => (s, [], Ok s).

Definition put_state (s' : S) : run S E unit := fun _ => (s', [], Ok tt).

(** [for x in xs: body(x)], collecting what the bodies return. *)
Fixpoint for_each {A B} (body : A → run S E B) (xs : list A) : run S E (list B) :=
  match xs with
  | [] => ret []
  | x :: xs' => bind (body x) (fun y => bind (for_each body xs') (fun ys => ret (y :: ys)))
  end.

End ops.

Definition log_of {S E A} (out : S * list E * result A) : list E := out.1.2.
Definition value_of {S E A} (out : S * list E * result A) : result A := out.2.
Definition state_of {S E A} (out : S * list E * result A) : S := out.1.1.

End Run.
Export Run.

Notation "x <- m ;; k" := (Run.bind m (fun x => k))
  (at level 100, m at next level, right associativity, only parsing).
Notation "m ;;; k" := (Run.bind m (fun _ => k))
  (at level 100, right associativity, only parsing).
Notation "'try!' x <- m ; k" := (match m with Ok x => k | Raise e => Raise e end)
  (at level 100, x name, m at next level, right associativity, only parsing).

(** ** Library behaviour the programs rely on *)

Module Numpy.

Local Open Scope float_scope.

Definition two52 : float := 0x1p52.

(** [np.rint]: the nearest integer, ties to even, with the sign of [x]
    (a zero stays the zero it is, and -0.3 gives -0.0). *)
Definition rint (x : float) : float :=
  if abs x <? two52
  then if x =? 0 then x
       else if x <? 0 then - ((two52 - x) - two52) else (x + two52) - two52
  else x.

(** [round(x, 2)] of a [numpy.float64]: scale, [rint], scale back. *)
Definition round2 (x : float) : float := rint (x * 100) / 100.

(** [float != 0]: true for NaN, false for both zeros. *)
Definition nonzero (x : float) : bool := negb (x =? 0).

(** The integer part of a finite float ([astype(int)], [int(x)]). *)
Definition trunc (x : float) : Z :=
  match Prim2SF x with
  | S754_finite s m e =>
      let n := if (0 <=? e)%Z then (Z.pos m * 2 ^ e)%Z else (Z.pos m / 2 ^ (- e))%Z in
      if s then (- n)%Z else n
  | _ => 0%Z
  end.

End Numpy.

Module Pandas.

(** [Series.iloc[0]]. *)
Definition iloc0 {A} (col : list A) : result A :=
  match col with
  | x :: _ => Ok x
  | [] => Raise IndexError
  end.

(** [column == b], row by row: by value, and never true of a missing
    value, [None] or NaN, on either side. *)
Definition eq (a b : json) : bool :=
  match a, b with
  | JBool x, JBool y => Bool.eqb x y
  | JBool x, JNum y => PrimFloat.eqb (num_of_bool x) y
  | JNum x, JBool y => PrimFloat.eqb x (num_of_bool y)
  | JNum x, JNum y => PrimFloat.eqb x y
  | JStr s, JStr t => String.eqb s t
  | _, _ => false
  end.

Fixpoint first_occurrences (col : list json) : list json :=
  match col with
  | [] => []
  | x :: col' => x :: List.filter (fun y => negb (same_key x y)) (first_occurrences col')
  end.

(** [Series.unique()]: the distinct values in order of first appearance;
    hashing a list or a dict raises. *)
Definition unique (col : list json) : result (list json) :=
  if forallb hashable col then Ok (first_occurrences col) else Raise TypeError.

(** [Series.map(d)] for a dict [d]: [None] where the key is absent. *)
Fixpoint map_dict {V} (d : dict V) (col : list json) : result (list (option V)) :=
  match col with
  | [] => Ok []
  | k :: col' =>
      if hashable k
      then try! vs <- map_dict d col'; Ok (dict_lookup d k :: vs)
      else Raise TypeError
  end.

(** [Series.min()] and [Series.max()]: NaN entries are skipped, and a
    column with nothing else gives NaN. *)
Definition defined (col : list float) : list float :=
  List.filter (fun x => negb (PrimFloat.is_nan x)) col.

Definition col_min (col : list float) : float :=
  match defined col with
  | [] => nan
  | x :: xs => fold_left (fun m y => if PrimFloat.ltb y m then y else m) xs x
  end.

Definition col_max (col : list float) : float :=
  match defined col with
  | [] => nan
  | x :: xs => fold_left (fun m y => if PrimFloat.ltb m y then y else m) xs x
  end.

(** [pd.period_range(start, end, freq="M")]: the months from [start] to
    [end], both included, in ascending order. A month is counted from year
    0: [12 * year + (month - 1)]. *)
Definition period_range (start stop : Z) : list Z := seqZ start (stop - start + 1).

(** [pd.to_datetime(yyyymm + "01")]: the first day of a month, as a day
    number (days since 1970-01-01). *)
Definition month_start (k : Z) : Z :=
  let y := (k - 2) / 12 in
  let mp := (k - 2) mod 12 in
  365 * y + y / 4 - y / 100 + y / 400 + (153 * mp + 2) / 5 - 719468.

End Pandas.

(** [matplotlib.colors.Normalize], a colormap call and [to_hex], on
    binary64 floats. *)

Module Matplotlib.

Local Open Scope float_scope.

(** An [int] among floats. *)
Definition of_Z (z : Z) : float := PrimFloat.of_uint63 (Uint63.of_Z z).

(** What a fill colour is: an entry of the colormap's table (entry 0 is
    the red end of RdYlGn, the last entry the green end), the colormap's
    colour for a NaN, or a colour the program writes out itself. *)
Inductive color :=
  | Entry (i : Z)
  | Bad
  | Hex (code : string).

(** Where a colour lies on the red-to-green scale. *)
Definition position (c : color) : option Z :=
  match c with Entry i => Some i | _ => None end.

(** Entries in the table of a colormap from [cm.get_cmap] (its [N]). *)
Definition table_size : Z := 256.

(** [Normalize(vmin, vmax)(value)], without clipping. *)
Definition normalize (vmin vmax value : float) : result float :=
  if vmin =? vmax then Ok (of_Z 0)
  else if vmax <? vmin then Raise ValueError
  else Ok ((value - vmin) / (vmax - vmin)).

(** [to_hex(cmap(x))] for a float [x]: below 0 the table's first entry,
    from 1 on its last, and the colour for bad values for a NaN. *)
Definition cmap (x : float) : color :=
  let xa := x * of_Z table_size in
  let xa := if xa =? of_Z table_size then of_Z (table_size - 1) else xa in
  if is_nan xa then Bad
  else if of_Z table_size <=? xa then Entry (table_size - 1)
  else if xa <? of_Z 0 then Entry 0
  else Entry (Numpy.trunc xa).

End Matplotlib.
Export Matplotlib.

(** ** houseprice_visualization_streamlit.py *)

Module Viz.
Import Numpy Pandas Matplotlib.

(** What [fetch_index] returns: the keys 날짜, CLS_ID and 매매지수. *)
Record record := {
  rec_date : Z;
  rec_cls_id : json;
  rec_index : float
}.

(** A row of [df_full]: the three columns and CLS_NM. *)
Record row := {
  date : Z;
  CLS_ID : json;
  index : float;
  CLS_NM : string
}.

(** A row of [calc_change]'s frame: 지역코드, 지역명, 시작지수, 종료지수
    and 증감률(%). *)
Record change := {
  region_code : json;
  region_name : string;
  start_index : float;
  end_index : float;
  change_pct : float
}.

(** A row of the geometry frame: the name property and the shape. Every
    feature of the file is taken to have the property SIG_KOR_NM. *)
Record feature := {
  SIG_KOR_NM : string;
  geometry : string
}.

(** A row of the merged frame: the columns of [result_df] are empty where
    nothing matched. *)
Record merged := {
  feat : feature;
  joined : option change
}.

(** What [requests.get] then [resp.json()] can come to: an exception of
    the request (no connection, a timeout), or a status code and a body,
    which is [None] when it is no JSON. *)
Inductive reply :=
  | NoReply (e : exn)
  | Reply (status_code : Z) (body : option json).

(** What a run leaves behind: the requests sent and the Streamlit calls. *)
Inductive event :=
  | HttpGet (cls_id : string) (yyyymm : Z)
  | StWrite (s e : Z)
  | StError (msg : string)
  | StWarning (msg : string)
  | StSubheader (msg : string)
  | StDataframe (rows : list change)  (* shown sorted by 증감률(%), largest first *)
  | StFolium (fills : list (string * color))
  | StChart (rows : list row).

(** The [st.cache_data] store of [cached_fetch]. The region codes and the
    name table come from the cached [load_csv] and are the same in every
    run, so an entry is told by its two months. *)
Definition cache := list (Z * Z * list row).

Fixpoint cached (c : cache) (k : Z * Z) : option (list row) :=
  match c with
  | [] => None
  | (k', df) :: c' => if (k'.1 =? k.1) && (k'.2 =? k.2) then Some df else cached c' k
  end.

Definition script := run cache event.

Section program.

(** The statistics service, and [float] on a string. *)
Variable service : string → Z → reply.
Variable float_of_string : string → option float.

(** [float(v)]. *)
Definition to_float (v : json) : result float :=
  match v with
  | JNum x => Ok x
  | JBool b => Ok (num_of_bool b)
  | JStr s => match float_of_string s with Some x => Ok x | None => Raise ValueError end
  | _ => Raise TypeError
  end.

(** [j.get("SttsApiTblData", [None, {}])[1].get("row", [])]. *)
Definition rows_of (j : json) : result json :=
  try! tbl <- get j "SttsApiTblData" (JArr [JNull; JObj []]);
  try! second <- item tbl 1;
  get second "row" (JArr []).

(** [row = rows[0]] and the dict that is returned. *)
Definition record_of (yyyymm : Z) (rows : json) : result record :=
  try! r <- item rows 0;
  try! cls <- key r "CLS_ID";
  try! v <- key r "DTA_VAL";
  try! x <- to_float v;
  Ok {| rec_date := month_start yyyymm; rec_cls_id := cls; rec_index := x |}.

(** The body of [fetch_index]'s [try]. *)
Definition fetch_index_body (yyyymm : Z) (resp : reply) : result (option record) :=
  match resp with
  | NoReply e => Raise e
  | Reply status_code body =>
      if negb (status_code =? 200) then Ok None else
      try! j <- match body with Some j => Ok j | None => Raise JSONDecodeError end;
      try! rows <- rows_of j;
      if negb (truthy rows) then Ok None else
      try! r <- record_of yyyymm rows;
      Ok (Some r)
  end.

(** [except: return None]. *)
Definition parse_reply (yyyymm : Z) (resp : reply) : option record :=
  match fetch_index_body yyyymm resp with
  | Ok r => r
  | Raise _ => None
  end.

Definition fetch_index (cls_id : string) (yyyymm : Z) : script (option record) :=
  emit (HttpGet cls_id yyyymm);;;
  ret (parse_reply yyyymm (service cls_id yyyymm)).

Definition tasks (cls_ids : list string) (periods : list Z) : list (string * Z) :=
  flat_map (fun y => map (fun cid => (cid, y)) cls_ids) periods.

(** [executor.map] hands the results back in the order of the tasks,
    whichever call finishes first; the loop keeps the ones that are not
    [None]. *)
Definition collect (ts : list (string * Z)) : script (list record) :=
  fetched <- for_each (fun t => fetch_index t.1 t.2) ts;;
  ret (omap id fetched).

(** The CLS_NM column and [dropna(subset=["CLS_NM"])]. A name of the
    table may itself be missing (NaN). *)
Definition with_name (r : record) (name : option (option string)) : option row :=
  match name with
  | Some (Some nm) =>
      Some {| date := rec_date r; CLS_ID := rec_cls_id r; index := rec_index r; CLS_NM := nm |}
  | _ => None
  end.

Definition name_rows (results : list record) (names : list (option (option string)))
    : list row :=
  omap (fun p => with_name p.1 p.2) (zip results names).

Definition batch_fetch (cls_ids : list string) (start_yyyymm end_yyyymm : Z)
    (cls_id_to_name_map : dict (option string)) : script (list row) :=
  let periods := period_range start_yyyymm end_yyyymm in
  results <- collect (tasks cls_ids periods);;
  match results with
  | [] => ret []
  | _ =>
      names <- lift (map_dict cls_id_to_name_map (map rec_cls_id results));;
      ret (name_rows results names)
  end.

Definition cached_fetch (cls_ids : list string) (start_yyyymm end_yyyymm : Z)
    (cls_id_to_name_map : dict (option string)) : script (list row) :=
  c <- get_state;;
  match cached c (start_yyyymm, end_yyyymm) with
  | Some df => ret df
  | None =>
      df <- batch_fetch cls_ids start_yyyymm end_yyyymm cls_id_to_name_map;;
      put_state ((start_yyyymm, end_yyyymm, df) :: c);;;
      ret df
  end.

(** [df[df["CLS_ID"] == cls_id_str]]. *)
Definition of_region (cls_id_str : json) (df : list row) : list row :=
  List.filter (fun r => eq (CLS_ID r) cls_id_str) df.

(** One turn of [calc_change]'s loop. *)
Definition change_of (df_s df_e : list row) (cls_id_str : json) : result change :=
  try! loc_name <- iloc0 (map CLS_NM (of_region cls_id_str df_s));
  try! a <- iloc0 (map index (of_region cls_id_str df_s));
  try! b <- iloc0 (map index (of_region cls_id_str df_e));
  Ok {| region_code := cls_id_str;
        region_name := loc_name;
        start_index := round2 a;
        end_index := round2 b;
        change_pct := round2 ((b - a) / a * 100)%float |}.

Fixpoint changes (df_s df_e : list row) (codes : list json) : result (list change) :=
  match codes with
  | [] => Ok []
  | c :: codes' =>
      try! one <- change_of df_s df_e c;
      try! rest <- changes df_s df_e codes';
      Ok (one :: rest)
  end.

Definition nearest (target : Z) (df : list row) : result Z :=
  min_key (fun x => Z.abs (x - target)) (map date df).

(** [calc_change] on a frame that has the four columns. The script calls
    it on a frame with rows only; on a frame without rows [min] raises
    ValueError. (The frame without rows that [batch_fetch] makes from no
    result at all has no columns either, and would raise KeyError at its
    date column first.) *)

Definition calc_change (df : list row) (start_date end_date : Z) : script (list change) :=
  s <- lift (nearest start_date df);;
  e <- lift (nearest end_date df);;
  emit (StWrite s e);;;
  let df_s := List.filter (fun r => date r =? s) df in
  let df_e := List.filter (fun r => date r =? e) df in
  codes <- lift (unique (map CLS_ID df_s));;
  lift (changes df_s df_e codes).

(** A left merge on SIG_KOR_NM = 지역명: every geometry row once per
    matching result row, in their order, and once with empty columns when
    none matches. A result frame without rows has no 지역명 column. *)
Definition matches (f : feature) (result_df : list change) : list change :=
  List.filter (fun r => String.eqb (SIG_KOR_NM f) (region_name r)) result_df.

Definition merge_geo_data (geo_df : list feature) (result_df : list change)
    : result (list merged) :=
  match result_df with
  | [] => Raise KeyError
  | _ =>
      Ok (flat_map (fun f =>
            match matches f result_df with
            | [] => [{| feat := f; joined := None |}]
            | ms => map (fun r => {| feat := f; joined := Some r |}) ms
            end) geo_df)
  end.

Definition create_colormap (min_val max_val : float) : float → result color :=
  fun val =>
    try! x <- normalize min_val max_val val;
    Ok (cmap x).

(** The 증감률(%) property of a merged row as the style function reads
    it: an empty or NaN cell is [None]. *)
Definition change_property (m : merged) : option float :=
  match joined m with
  | Some r => if PrimFloat.is_nan (change_pct r) then None else Some (change_pct r)
  | None => None
  end.

Definition fill_color (get_color : float → result color) (m : merged) : result color :=
  match change_property m with
  | Some v => get_color v
  | None => Ok (Hex "#8c8c8c")
  end.

Fixpoint fills (get_color : float → result color) (ms : list merged)
    : result (list (string * color)) :=
  match ms with
  | [] => Ok []
  | m :: ms' =>
      try! c <- fill_color get_color m;
      try! rest <- fills get_color ms';
      Ok ((SIG_KOR_NM (feat m), c) :: rest)
  end.

(** The map is drawn with one fill per row, and the user's click, if any,
    comes back: [clicked] is the SIG_KOR_NM of the last active drawing. *)
Definition plot_colormap_with_geojson (merged_gdf : list merged) (clicked : option string)
    : script (option string) :=
  let col := omap change_property merged_gdf in
  let min_val := col_min col in
  let max_val := col_max col in
  let get_color := create_colormap min_val max_val in
  drawn <- lift (fills get_color merged_gdf);;
  emit (StFolium drawn);;;
  ret clicked.

(** The loop over [cls_id_to_name_map.items()]: the first code whose name
    ends with the clicked name. A missing name is a float and has no
    [endswith]. *)
Fixpoint matched_code (items : dict (option string)) (clicked_name : string)
    : result (option json) :=
  match items with
  | [] => Ok None
  | (code, name) :: items' =>
      match name with
      | None => Raise AttributeError
      | Some nm =>
          if endswith nm (strip clicked_name) then Ok (Some code)
          else matched_code items' clicked_name
      end
  end.

(** [sort_values("날짜")]. *)
Fixpoint insert_by_date (r : row) (df : list row) : list row :=
  match df with
  | [] => [r]
  | r' :: df' => if date r <=? date r' then r :: df else r' :: insert_by_date r df'
  end.

Definition sort_by_date (df : list row) : list row :=
  fold_right insert_by_date [] df.

Definition drill_down (df_full : list row) (cls_id_to_name_map : dict (option string))
    (clicked_name : option string) : script unit :=
  match clicked_name with
  | Some name =>
      if negb (String.eqb name "") then
        code <- lift (matched_code cls_id_to_name_map name);;
        match code with
        | Some c =>
            if truthy c then
              let region_data := sort_by_date (of_region c df_full) in
              match region_data with
              | [] => emit (StWarning "❗ 해당 지역 데이터 없음")
              | _ =>
                  emit (StSubheader ("📉 " +:+ name +:+ " 지수 추이"));;;
                  emit (StChart region_data)
              end
            else ret tt
        | None => ret tt
        end
      else ret tt
  | None => ret tt
  end.

(** A date picked in the sidebar: its month and its day of the month. *)
Record picked := {
  yyyymm_of : Z;
  day_of : Z
}.

Definition to_datetime (d : picked) : Z := month_start (yyyymm_of d) + day_of d - 1.

(** The script from [if __name__ == "__main__":] on, given what its two
    loaders return: [cls_ids] and [cls_id_to_name_map] are the result of
    [load_csv], and [geo_df] is the result of [load_geojson], which the
    script calls after it has shown the data frame. A file that is missing
    or cannot be read raises in the loader and ends the run there; such
    runs are not runs of [main]. [latest_yyyymm] is the month of today. *)
Definition main (cls_ids : list string) (cls_id_to_name_map : dict (option string))
    (geo_df : list feature) (start_date_input end_date_input : picked)
    (latest_yyyymm : Z) (clicked : option string) : script unit :=
  df_full <- cached_fetch cls_ids (yyyymm_of start_date_input) latest_yyyymm
               cls_id_to_name_map;;
  match df_full with
  | [] => emit (StError "❌ 데이터 없음")
  | _ =>
      result_df <- calc_change df_full (to_datetime start_date_input)
                     (to_datetime end_date_input);;
      emit (StSubheader "📈 증감률 데이터");;;
      emit (StDataframe result_df);;;
      merged_gdf <- lift (merge_geo_data geo_df result_df);;
      emit (StSubheader "🗺️ 지역별 증감률 지도");;;
      clicked_name <- plot_colormap_with_geojson merged_gdf clicked;;
      drill_down df_full cls_id_to_name_map clicked_name
  end.

End program.

End Viz.

(** ** main.py *)

Module Main.
Import Numpy Pandas.

(** A row of [df_full]: the columns 날짜, CLS_ID and 매매지수. Dates are
    day numbers; a date that is missing in the data is NaT, [None]. *)
Record row := {
  date : option Z;
  CLS_ID : json;
  index : float
}.

(** A row of [calc_change]'s frame: CLS_ID and 증감률. *)
Record change := {
  region : json;
  change_rate : float
}.

Inductive reply :=
  | NoReply (e : exn)
  | Reply (status_code : Z) (body : option json).

(** What reading SIG.geojson comes to: what [json.load] makes of its text
    ([JNull] is Python's [None], which the text [null] gives), no such
    file, or a text that is no JSON. *)
Inductive geo_file :=
  | GeoData (data : json)
  | GeoNotFound
  | GeoNotJson.

(** The layers the map is given, as the calls that add them. *)
Inductive layer :=
  | Choropleth (geo_data : json) (data : list change) (key_on fill_color : string)
  | Tooltip (fields : list string)
  | StyledGeoJson (geo_data : json) (data : list change).

Record folium_map := {
  tiles : string;
  children : list layer
}.

(** What a run leaves behind. The text of [st.error] is [msg], followed by
    the text of the exception where the program appends one. *)
Inductive event :=
  | HttpGet (url : string)
  | StError (msg : string) (detail : option exn)
  | StInfo (msg : string)
  | StHtml (m : folium_map)  (* the HTML of a figure that holds the map *).

(** The [st.cache_data] store of [load_and_process_data], whose one key is
    the API key: the frame it returned and the messages it showed, which a
    later run shows again without calling the function. *)
Definition cache := option (list row * list event).

Definition script := run cache event.

Definition url : string :=
  "https://api.odcloud.kr/api/15096561/v1/uddi:731e21b8-7a13-40e8-8b77-d31e98d9e4a3".

Section program.

(** What the open-data service answers, and pandas' part of the loader:
    [pd.DataFrame(data['data'])] cut down to the columns 조사기준일, CLS_ID
    and 매매지수, the first read by [pd.to_datetime] ([None] is NaT) and the
    last by [pd.to_numeric(errors='coerce')] ([None] is NaN). *)
Variable service : reply.
Variable frame : json → result (list (option Z * json * option float)).

(** [dropna(subset=['매매지수'])]. *)
Definition dropna (cs : list (option Z * json * option float)) : list row :=
  omap (fun c => match c.2 with
                 | Some x => if PrimFloat.is_nan x then None
                             else Some {| date := c.1.1; CLS_ID := c.1.2; index := x |}
                 | None => None
                 end) cs.

(** The body of [load_and_process_data]'s [try]. *)
Definition load_body (resp : reply) : result (list row) :=
  match resp with
  | NoReply e => Raise e
  | Reply status_code body =>
      if (400 <=? status_code) && (status_code <? 600) then Raise HTTPError else
      try! data <- match body with Some j => Ok j | None => Raise JSONDecodeError end;
      try! items <- key data "data";
      try! cs <- frame items;
      Ok (dropna cs)
  end.

(** The exceptions of [requests.exceptions.RequestException], the one of
    [response.json()] among them. *)
Definition request_exception (e : exn) : bool :=
  match e with
  | ConnectionError | Timeout | HTTPError | JSONDecodeError => true
  | _ => false
  end.

Definition load_uncached : list row * list event :=
  match load_body service with
  | Ok df => (df, [])
  | Raise e =>
      if request_exception e
      then ([], [StError "API 요청 중 오류가 발생했습니다" (Some e)])
      else ([], [StError "데이터 처리 중 오류가 발생했습니다" (Some e)])
  end.

Fixpoint emit_all (es : list event) : script unit :=
  match es with
  | [] => ret tt
  | e :: es' => emit e;;; emit_all es'
  end.

Definition load_and_process_data : script (list row) :=
  c <- get_state;;
  match c with
  | Some (df, shown) => emit_all shown;;; ret df
  | None =>
      emit (HttpGet url);;;
      let '(df, shown) := load_uncached in
      emit_all shown;;;
      put_state (Some (df, shown));;;
      ret df
  end.

(** [load_geojson]: the loaded object, and [None] after a message. *)
Definition load_geojson (file : geo_file) : script json :=
  match file with
  | GeoData data => ret data
  | GeoNotFound =>
      emit (StError
              "SIG.geojson 파일을 찾을 수 없습니다. 파일이 프로젝트 루트 디렉토리에 있는지 확인해주세요."
              None);;;
      ret JNull
  | GeoNotJson =>
      emit (StError "SIG.geojson 파일이 올바른 JSON 형식이 아닙니다." None);;;
      ret JNull
  end.

End program.

(** [df_full['날짜'] >= lo] and [<= hi]: never true of NaT. *)
Definition between (lo hi : Z) (r : row) : bool :=
  match date r with
  | Some d => (lo <=? d) && (d <=? hi)
  | None => false
  end.

(** The first 매매지수 of a region in a frame, and 0 where it has none. *)
Definition first_or_zero (df : list row) (cls_id_str : json) : float :=
  match map index (List.filter (fun r => eq (CLS_ID r) cls_id_str) df) with
  | x :: _ => x
  | [] => 0%float
  end.

Definition rate (a b : float) : float :=
  if nonzero a then ((b - a) / a * 100)%float else 0%float.

Definition change_of (df_s df_e : list row) (cls_id_str : json) : change :=
  let b := first_or_zero df_e cls_id_str in
  let a := first_or_zero df_s cls_id_str in
  {| region := cls_id_str; change_rate := rate a b |}.

Definition calc_change (df_full : list row) (start_date end_date : Z)
    : result (list change) :=
  let df_e := List.filter (between start_date end_date) df_full in
  let df_s := List.filter (between start_date start_date) df_full in
  match df_e, df_s with
  | [], _ | _, [] => Ok []
  | _, _ =>
      try! codes <- unique (map CLS_ID df_full);
      Ok (map (change_of df_s df_e) codes)
  end.

Definition base_map : folium_map := {| tiles := "cartodbpositron"; children := [] |}.

Section folium.

(** folium's part in the branch of different rates. [add_layers] is the
    building of the three layers from the frame and the geometry. It can
    raise: the GeoJson layer tries its style function on a feature, and the
    function calls [choropleth.colormap], which a Choropleth has not, when
    the feature's name is among the region codes. [render_layers] is the
    exception that the rendering of a map with these layers ends with: that
    of the style function on one of the features, or else that of the
    tooltip's [get_html], a function among options that are written out as
    JSON. *)
Variable add_layers : list change → json → result unit.
Variable render_layers : list layer → exn.

Definition create_choropleth_map (df : list change) (geojson_data : json)
    : result (option folium_map) :=
  match df, geojson_data with
  | [], _ | _, JNull => Ok None
  | _, _ =>
      let m := base_map in
      let min_val := col_min (map change_rate df) in
      let max_val := col_max (map change_rate df) in
      if PrimFloat.eqb min_val max_val then
        let color_scale := ["#FFFFFF"] in
        Ok (Some m)
      else
        try! added <- add_layers df geojson_data;
        Ok (Some {| tiles := tiles m;
                    children :=
                      [Choropleth geojson_data df "feature.properties.SIG_KOR_NM" "RdYlGn";
                       Tooltip ["SIG_KOR_NM"];
                       StyledGeoJson geojson_data df] |})
  end.

(** [folium.Figure().add_child(map_object).render()]. *)
Definition render (map_object : folium_map) : result folium_map :=
  match children map_object with
  | [] => Ok map_object
  | layers => Raise (render_layers layers)
  end.

End folium.

(** [df_full['날짜'].min()] and [.max()]: NaT where no row has a date. *)
Definition dates (df : list row) : list Z := omap date df.

Definition min_date (df : list row) : option Z :=
  match dates df with
  | [] => None
  | d :: ds => Some (fold_left Z.min ds d)
  end.

Definition max_date (df : list row) : option Z :=
  match dates df with
  | [] => None
  | d :: ds => Some (fold_left Z.max ds d)
  end.

(** The script below the function definitions, from the loading of the
    data on; the API key has been read from the secrets at the top of the
    file. The two dates are what the user has picked in the date inputs of
    this run. *)
Definition main (service : reply)
    (frame : json → result (list (option Z * json * option float)))
    (add_layers : list change → json → result unit) (render_layers : list layer → exn)
    (file : geo_file) (start_date_input end_date_input : Z) : script unit :=
  df_full <- load_and_process_data service frame;;
  geojson_data <- load_geojson file;;
  match df_full with
  | [] =>
      emit (StInfo "데이터 로드에 실패했습니다. API 키 또는 네트워크 연결을 확인해주세요.")
  | _ =>
      match min_date df_full, max_date df_full with
      | Some _, Some _ =>
          if end_date_input <? start_date_input then
            emit (StError "시작 날짜는 종료 날짜보다 빠르거나 같아야 합니다." None)
          else
            result_df <- lift (calc_change df_full start_date_input end_date_input);;
            match result_df with
            | [] =>
                emit (StInfo
                        "선택된 기간에 대한 증감률 데이터를 계산할 수 없습니다. 날짜 범위를 다시 확인해주세요.")
            | _ =>
                map_object <- lift (create_choropleth_map add_layers result_df geojson_data);;
                match map_object with
                | Some m =>
                    html <- lift (render render_layers m);;
                    emit (StHtml html)
                | None =>
                    emit (StInfo
                            "지도를 생성할 수 없습니다. 데이터 또는 GeoJSON 파일을 확인해주세요.")
                end
            end
      | _, _ => emit (StError "데이터에 유효한 날짜 범위가 없습니다." None)
      end
  end.

End Main.

(** ** What the specification asks for *)

(** [d] is the first of the dates closest to [target]: the dates before it
    are strictly farther, the dates after it are not nearer. *)
Definition first_nearest (target : Z) (dates : list Z) (d : Z) : Prop :=
  ∃ before after,
    dates = before ++ d :: after
    ∧ Forall (fun x => Z.abs (d - target) < Z.abs (x - target)) before
    ∧ Forall (fun x => Z.abs (d - target) ≤ Z.abs (x - target)) after.

(** A fetch that fails: the request itself (no connection, a timeout), a
    status other than 200, a body that is no JSON or has not the expected
    shape, no row in it, or a first row without the two fields. *)
Inductive fetch_fails (float_of_string : string → option float) : Viz.reply → Prop :=
  | request_raises e : fetch_fails float_of_string (Viz.NoReply e)
  | status_not_200 code body :
      code ≠ 200 → fetch_fails float_of_string (Viz.Reply code body)
  | body_not_json code : fetch_fails float_of_string (Viz.Reply code None)
  | shape_unexpected code j e :
      Viz.rows_of j = Raise e → fetch_fails float_of_string (Viz.Reply code (Some j))
  | no_rows code j rows :
      Viz.rows_of j = Ok rows → truthy rows = false →
      fetch_fails float_of_string (Viz.Reply code (Some j))
  | row_unreadable code j rows e :
      Viz.rows_of j = Ok rows →
      (∀ yyyymm, Viz.record_of float_of_string yyyymm rows = Raise e) →
      fetch_fails float_of_string (Viz.Reply code (Some j)).

(** A reply that carries an observation, told on the JSON: status 200
    and a body that is an object whose "SttsApiTblData" is a list with an
    object in second place, whose "row" is a list that starts with an
    object, which has a "CLS_ID", [cls], and a "DTA_VAL" that [float] reads
    as [x]: a number, a truth value, or a string that spells a number. *)
Definition readable (float_of_string : string → option float) (v : json) (x : float) : Prop :=
  v = JNum x
  ∨ (∃ b, v = JBool b ∧ x = num_of_bool b)
  ∨ (∃ s, v = JStr s ∧ float_of_string s = Some x).

Definition carries (float_of_string : string → option float) (resp : Viz.reply)
    (cls : json) (x : float) : Prop :=
  ∃ members head second rest row more v,
    resp = Viz.Reply 200 (Some (JObj members))
    ∧ assoc "SttsApiTblData" members = Some (JArr (head :: JObj second :: rest))
    ∧ assoc "row" second = Some (JArr (JObj row :: more))
    ∧ assoc "CLS_ID" row = Some cls
    ∧ assoc "DTA_VAL" row = Some v
    ∧ readable float_of_string v x.

(** ** Names for parts of the programs *)


(** What the fetch of one task comes to, the request aside. *)
Definition fetched (service : string → Z → Viz.reply)
    (float_of_string : string → option float) (t : string * Z) : option Viz.record :=
  Viz.parse_reply float_of_string t.2 (service t.1 t.2).

(** A fetched observation with the name of its region, if the table has
    one. *)
Definition named (tbl : dict (option string)) (r : Viz.record) : option Viz.row :=
  Viz.with_name r (dict_lookup tbl (Viz.rec_cls_id r)).

(** ** Scenarios *)

(** Rows of the two frames. *)
Definition observed (d : Z) (cls_id name : string) (v : float) : Viz.row :=
  {| Viz.date := d; Viz.CLS_ID := JStr cls_id; Viz.index := v; Viz.CLS_NM := name |}.

Definition surveyed (d : Z) (cls_id : string) (v : float) : Main.row :=
  {| Main.date := Some d; Main.CLS_ID := JStr cls_id; Main.index := v |}.

(** January and February 2022 as months. *)
Definition jan22 : Z := 12 * 2022.
Definition feb22 : Z := 12 * 2022 + 1.

(** A well-formed answer of the statistics service with one row. *)
Definition answer (cls_id : string) (v : float) : json :=
  JObj [("SttsApiTblData",
         JArr [JObj [("head", JArr [])];
               JObj [("row", JArr [JObj [("CLS_ID", JStr cls_id); ("DTA_VAL", JNum v)]])]])].

(** Region 11 goes from 100 to 110, region 26 has 100 in January and its
    February request times out; no other region is known. *)
Definition two_regions (cls_id : string) (yyyymm : Z) : Viz.reply :=
  if String.eqb cls_id "11" then
    Viz.Reply 200 (Some (answer "11" (if yyyymm =? jan22 then 100%float else 110%float)))
  else if String.eqb cls_id "26" then
    if yyyymm =? jan22 then Viz.Reply 200 (Some (answer "26" 100%float))
    else Viz.NoReply Timeout
  else Viz.Reply 404 None.

Definition no_float (s : string) : option float := None.

Definition two_names : dict (option string) :=
  [(JStr "11", Some "서울"); (JStr "26", Some "부산")].

(** The frame that [batch_fetch] hands on in that scenario. *)
Definition frame_with_gap : list Viz.row :=
  [ observed (Pandas.month_start jan22) "11" "서울" 100;
    observed (Pandas.month_start jan22) "26" "부산" 100;
    observed (Pandas.month_start feb22) "11" "서울" 110 ].

Definition jung_gu : Viz.feature :=
  {| Viz.SIG_KOR_NM := "중구"; Viz.geometry := "POLYGON A" |}.
Definition gangnam_gu : Viz.feature :=
  {| Viz.SIG_KOR_NM := "강남구"; Viz.geometry := "POLYGON B" |}.

Definition result_of (code name : string) (a b pct : float) : Viz.change :=
  {| Viz.region_code := JStr code; Viz.region_name := name;
     Viz.start_index := a; Viz.end_index := b; Viz.change_pct := pct |}.

(** One change result, of 강남구, joined to the two features. *)
Definition gangnam_up : Viz.change := result_of "11680" "강남구" 100 110 10.

Definition gangnam_joined : list Viz.merged :=
  [ {| Viz.feat := jung_gu; Viz.joined := None |};
    {| Viz.feat := gangnam_gu; Viz.joined := Some gangnam_up |} ].

(** The scenario of the specification: over the twelve months of 2022
    region 11 rises evenly from 100 to 110 and region 26 stays at 100. *)
Definition dec22 : Z := 12 * 2022 + 11.

Definition rising_and_flat (cls_id : string) (yyyymm : Z) : Viz.reply :=
  if String.eqb cls_id "11" then
    Viz.Reply 200
      (Some (answer "11"
               (100 + 10 * PrimFloat.of_uint63 (Uint63.of_Z (yyyymm - jan22)) / 11)%float))
  else Viz.Reply 200 (Some (answer "26" 100%float)).

(** The open-data service of [main.py] answering with two observations of
    region 11, dated day 1 and day 10. *)
Definition open_data : Main.reply := Main.Reply 200 (Some (JObj [("data", JArr [])])).

Definition two_observations (data : json)
    : result (list (option Z * json * option float)) :=
  Ok [(Some 1, JStr "11", Some 100%float); (Some 10, JStr "11", Some 110%float)].

(** The changes from -10 to 10 in steps of a quarter, as binary64 floats,
    and whether a list of scale positions never steps back. *)
Definition quarter_steps : list float :=
  map (fun k => (PrimFloat.of_uint63 (Uint63.of_Z k) / 4 - 10)%float) (seqZ 0 81).

Fixpoint ascending (ps : list (option Z)) : bool :=
  match ps with
  | Some p :: (Some q :: _) as rest => (p <=? q) && ascending rest
  | [Some _] | [] => true
  | _ => false
  end.

(** ** What the programs are further shown to do *)

(** The events that are requests to a service, and those that are error
    messages. *)
Definition is_request (ev : Viz.event) : bool :=
  match ev with Viz.HttpGet _ _ => true | _ => false end.

Definition is_error (ev : Main.event) : bool :=
  match ev with Main.StError _ _ => true | _ => false end.

(** A piece of script that sends no request and leaves the cache alone. *)
Definition offline {A} (m : Viz.script A) : Prop :=
  ∀ c, state_of (m c) = c ∧ List.filter is_request (log_of (m c)) = [].

(** What a piece of script may raise. *)
Definition raises_within {A} (allowed : exn → Prop) (m : Viz.script A) : Prop :=
  ∀ c e, value_of (m c) = Raise e → allowed e.

(** The exceptions of the data: a region code that cannot be hashed, a
    region without a row on the end date, a colour scale without a range, a
    region without a name in the table. *)
Definition data_error (e : exn) : Prop :=
  e = TypeError ∨ e = IndexError ∨ e = ValueError ∨ e = AttributeError.

(** No change to speak of: zero of either sign, or NaN. *)
Definition zero_or_nan (x : float) : Prop :=
  PrimFloat.eqb x 0 = true ∨ PrimFloat.is_nan x = true.

(** Region codes as the statistics service sends them: strings. *)
Definition string_codes (df : list Viz.row) : Prop :=
  Forall (fun r => ∃ code, Viz.CLS_ID r = JStr code) df.

(** A table entry that the click loop passes over: it has a name, and the
    name does not end with the clicked one. *)
Definition passed_over (clicked_name : string) (kv : json * option string) : Prop :=
  ∃ nm, kv.2 = Some nm ∧ ∀ p, nm ≠ p +:+ strip clicked_name.

(** The rows of a region, as [df[df["CLS_ID"] == cls_id_str]] selects them,
    stand in ascending order of date. *)
Definition ascending_by_region (df : list Main.row) : Prop :=
  ∀ cls,
    StronglySorted Z.le
      (Main.dates (List.filter (fun r => Pandas.eq (Main.CLS_ID r) cls) df)).

(** The rows of every region stand in descending order of date, the
    latest first. *)
Definition descending_by_region (df : list Main.row) : Prop :=
  ∀ cls,
    StronglySorted (fun d1 d2 => d2 ≤ d1)
      (Main.dates (List.filter (fun r => Pandas.eq (Main.CLS_ID r) cls) df)).

(** The service answers every request for the regions [cls_ids] and the
    months from [lo] to [hi] with an observation of the region asked for,
    and the table has a name for each of them. *)
Definition complete (service : string → Z → Viz.reply)
    (float_of_string : string → option float) (tbl : dict (option string))
    (cls_ids : list string) (lo hi : Z) : Prop :=
  ∀ cls_id yyyymm,
    cls_id ∈ cls_ids → lo ≤ yyyymm ≤ hi →
    ∃ v nm,
      Viz.parse_reply float_of_string yyyymm (service cls_id yyyymm)
      = Some {| Viz.rec_date := Pandas.month_start yyyymm;
                Viz.rec_cls_id := JStr cls_id;
                Viz.rec_index := v |}
      ∧ dict_lookup tbl (JStr cls_id) = Some (Some nm).

(** The same with the value [v] and the name [nm] of every region and
    month told. *)
Definition answers (service : string → Z → Viz.reply)
    (float_of_string : string → option float) (tbl : dict (option string))
    (cls_ids : list string) (lo hi : Z) (v : string → Z → float) (nm : string → string)
    : Prop :=
  ∀ cls_id yyyymm,
    cls_id ∈ cls_ids → lo ≤ yyyymm ≤ hi →
    Viz.parse_reply float_of_string yyyymm (service cls_id yyyymm)
    = Some {| Viz.rec_date := Pandas.month_start yyyymm;
              Viz.rec_cls_id := JStr cls_id;
              Viz.rec_index := v cls_id yyyymm |}
    ∧ dict_lookup tbl (JStr cls_id) = Some (Some (nm cls_id)).

(** The row of a region and month, and the change of a region between two
    months, as they should come out. *)
Definition row_of (v : string → Z → float) (nm : string → string) (t : string * Z)
    : Viz.row :=
  {| Viz.date := Pandas.month_start t.2; Viz.CLS_ID := JStr t.1;
     Viz.index := v t.1 t.2; Viz.CLS_NM := nm t.1 |}.

Definition change_between (v : string → Z → float) (nm : string → string) (ys ye : Z)
    (cls_id : string) : Viz.change :=
  {| Viz.region_code := JStr cls_id;
     Viz.region_name := nm cls_id;
     Viz.start_index := Numpy.round2 (v cls_id ys);
     Viz.end_index := Numpy.round2 (v cls_id ye);
     Viz.change_pct :=
       Numpy.round2 ((v cls_id ye - v cls_id ys) / v cls_id ys * 100)%float |}.

(** ** Further scenarios *)

(** A statistics service that answers no request. *)
Definition outage (cls_id : string) (yyyymm : Z) : Viz.reply := Viz.NoReply Timeout.

(** The rows of region 11 in the scenario [two_regions]. *)
Definition seoul_rows : list Viz.row :=
  [ observed (Pandas.month_start jan22) "11" "서울" 100;
    observed (Pandas.month_start feb22) "11" "서울" 110 ].

(** The values and names of the scenario [rising_and_flat]. *)
Definition rising (cls_id : string) (yyyymm : Z) : float :=
  if String.eqb cls_id "11"
  then (100 + 10 * PrimFloat.of_uint63 (Uint63.of_Z (yyyymm - jan22)) / 11)%float
  else 100%float.

Definition name_of (cls_id : string) : string :=
  if String.eqb cls_id "11" then "서울" else "부산".

(** The frame of the scenario [two_observations]: region 11 on day 1 and
    on day 10. *)
Definition survey : list Main.row := [surveyed 1 "11" 100; surveyed 10 "11" 110].

(** The two observations of region 11 with the later one first. *)
Definition survey_latest_first : list Main.row :=
  [surveyed 10 "11" 110; surveyed 1 "11" 100].


(** A geometry file with one feature, 종로구. *)
Definition sig_geojson : json :=
  JObj [("type", JStr "FeatureCollection");
        ("features",
         JArr [JObj [("type", JStr "Feature");
                     ("properties", JObj [("SIG_KOR_NM", JStr "종로구")]);
                     ("geometry",
                      JObj [("type", JStr "Polygon");
                            ("coordinates",
                             JArr [JArr [JArr [JNum 126.75; JNum 37.5];
                                         JArr [JNum 127.25; JNum 37.5];
                                         JArr [JNum 127.25; JNum 37.75];
                                         JArr [JNum 126.75; JNum 37.5]]])])]])].

(** folium on such data: no feature is named like a region code, so the
    layers are built, and the rendering stops at the tooltip's [get_html]. *)
Definition layers_added (df : list Main.change) (geojson_data : json) : result unit := Ok tt.

Definition get_html_not_json (layers : list Main.layer) : exn := TypeError.

(** 중구 starts from an index of 0 and 강남구 goes from 100 to 110. *)
Definition zero_start : list Viz.row :=
  [ observed (Pandas.month_start jan22) "11140" "중구" 0;
    observed (Pandas.month_start jan22) "11680" "강남구" 100;
    observed (Pandas.month_start feb22) "11140" "중구" 100;
    observed (Pandas.month_start feb22) "11680" "강남구" 110 ].

(** The changes of that frame from January to February 2022, and their
    join to the two features. *)
Definition zero_start_changes : list Viz.change :=
  [ result_of "11140" "중구" 0 100 infinity;
    result_of "11680" "강남구" 100 110 10 ].

Definition zero_start_merged : list Viz.merged :=
  [ {| Viz.feat := jung_gu; Viz.joined := Some (result_of "11140" "중구" 0 100 infinity) |};
    {| Viz.feat := gangnam_gu; Viz.joined := Some (result_of "11680" "강남구" 100 110 10) |} ].


(** An answer of the statistics service whose region code is a list, and a
    service that gives it for region 26 and a well-formed one for others. *)
Definition answer_with_list (cls_id : string) (v : float) : json :=
  JObj [("SttsApiTblData",
         JArr [JObj [("head", JArr [])];
               JObj [("row", JArr [JObj [("CLS_ID", JArr [JStr cls_id]);
                                         ("DTA_VAL", JNum v)]])]])].

Definition one_code_listed (cls_id : string) (yyyymm : Z) : Viz.reply :=
  if String.eqb cls_id "26" then Viz.Reply 200 (Some (answer_with_list "26" 100%float))
  else Viz.Reply 200 (Some (answer cls_id 100%float)).

(** ** Python's [min] with a key *)

Section min_key.
Context {A : Type} (f : A → Z).

Lemma min_from_first (xs : list A) :
  ∀ before best after,
    Forall (fun x => f best < f x) before →
    Forall (fun x => f best ≤ f x) after →
    ∃ before' after',
      before ++ best :: after ++ xs = before' ++ min_from f best xs :: after'
      ∧ Forall (fun x => f (min_from f best xs) < f x) before'
      ∧ Forall (fun x => f (min_from f best xs) ≤ f x) after'.
Proof.
  induction xs as [|x xs IH]; intros before best after Hb Ha; simpl.
  - exists before, after. by rewrite app_nil_r.
  - destruct (Z.ltb_spec (f x) (f best)) as [Hlt|Hge].
    + destruct (IH (before ++ best :: after) x []) as (b' & a' & Heq & Hb' & Ha').
      * rewrite Forall_app, Forall_cons. repeat split.
        -- eapply Forall_impl; [exact Hb|]. simpl. intros; lia.
        -- done.
        -- eapply Forall_impl; [exact Ha|]. simpl. intros; lia.
      * constructor.
      * exists b', a'. split; [|done].
        rewrite <- Heq. simpl. by rewrite <- !app_assoc.
    + destruct (IH before best (after ++ [x])) as (b' & a' & Heq & Hb' & Ha').
      * done.
      * rewrite Forall_app, Forall_singleton. split; [done | lia].
      * exists b', a'. split; [|done].
        rewrite <- Heq. by rewrite <- app_assoc.
Qed.

Lemma min_key_first (xs : list A) (d : A) :
  min_key f xs = Ok d →
  ∃ before after,
    xs = before ++ d :: after
    ∧ Forall (fun x => f d < f x) before
    ∧ Forall (fun x => f d ≤ f x) after.
Proof.
  destruct xs as [|x xs]; simpl; [done|].
  intros [= <-].
  destruct (min_from_first xs [] x []) as (b & a & Heq & Hb & Ha); try constructor.
  by exists b, a.
Qed.

Lemma min_key_nonempty (xs : list A) : xs ≠ [] → ∃ d, min_key f xs = Ok d.
Proof. destruct xs; [done|]. intros _. simpl. eauto. Qed.

End min_key.

Lemma nearest_first_nearest (target : Z) (df : list Viz.row) (d : Z) :
  Viz.nearest target df = Ok d → first_nearest target (map Viz.date df) d.
Proof.
  unfold Viz.nearest, first_nearest. intros Hd.
  apply (min_key_first (fun x => Z.abs (x - target))) in Hd. exact Hd.
Qed.

(** C1 (as amended). [Viz.calc_change] shows, and computes with, the first
    date of the series nearest the requested start and the first nearest the
    requested end, each for itself, on every series that is not empty;
    [Main.calc_change] has no nearest-date step: it reads the start value
    from the rows dated the start date itself, and the end value from the
    region's first row dated from the start date to the end date. *)
Theorem calc_change_selected_dates :
  (∀ (df : list Viz.row) (start_date end_date : Z) (c : Viz.cache),
     df ≠ [] →
     ∃ s e,
       first_nearest start_date (map Viz.date df) s
       ∧ first_nearest end_date (map Viz.date df) e
       ∧ log_of (Viz.calc_change df start_date end_date c) = [Viz.StWrite s e]
       ∧ value_of (Viz.calc_change df start_date end_date c) =
           let df_s := List.filter (fun r => Viz.date r =? s) df in
           let df_e := List.filter (fun r => Viz.date r =? e) df in
           try! codes <- Pandas.unique (map Viz.CLS_ID df_s);
           Viz.changes df_s df_e codes)
  ∧ (∀ (df_full : list Main.row) (start_date end_date : Z) (out : list Main.change),
       Main.calc_change df_full start_date end_date = Ok out →
       Forall (fun ch =>
         Main.change_rate ch =
           Main.rate
             (Main.first_or_zero
                (List.filter (Main.between start_date start_date) df_full) (Main.region ch))
             (Main.first_or_zero
                (List.filter (Main.between start_date end_date) df_full) (Main.region ch)))
         out).
Proof.
  split.
  - intros df start_date end_date c Hne.
    destruct (min_key_nonempty (fun x => Z.abs (x - start_date)) (map Viz.date df))
      as [s Hs]; [by destruct df|].
    destruct (min_key_nonempty (fun x => Z.abs (x - end_date)) (map Viz.date df))
      as [e He]; [by destruct df|].
    exists s, e. repeat split.
    + by apply nearest_first_nearest.
    + by apply nearest_first_nearest.
    + unfold Viz.calc_change, Viz.nearest, Run.bind, Run.lift, Run.emit, log_of.
      rewrite Hs, He. simpl.
      by destruct (Pandas.unique _).
    + unfold Viz.calc_change, Viz.nearest, Run.bind, Run.lift, Run.emit, value_of.
      rewrite Hs, He. simpl.
      destruct (Pandas.unique _); simpl; [|done].
      by destruct (Viz.changes _ _ _).
  - intros df_full start_date end_date out. unfold Main.calc_change.
    set (df_e := List.filter (Main.between start_date end_date) df_full).
    set (df_s := List.filter (Main.between start_date start_date) df_full).
    destruct df_e eqn:He; [intros [= <-]; constructor|].
    destruct df_s eqn:Hs; [intros [= <-]; constructor|].
    destruct (Pandas.unique _) as [codes|]; [|done].
    intros [= <-]. apply Forall_map, Forall_forall. intros code _. reflexivity.
Qed.

Lemma calc_change_selected_dates_witness :
  ∃ s e,
    first_nearest 1 [1; 10] s ∧ first_nearest 9 [1; 10] e
    ∧ log_of
        (Viz.calc_change [observed 1 "11" "서울" 100; observed 10 "11" "서울" 110] 1 9 [])
      = [Viz.StWrite s e].
Proof.
  destruct (proj1 calc_change_selected_dates
              [observed 1 "11" "서울" 100; observed 10 "11" "서울" 110] 1 9 [])
    as (s & e & Hs & He & Hlog & _); [discriminate|].
  exists s, e. exact (conj Hs (conj He Hlog)).
Defined.

(** C1 as stated fails on [main.py]: with observations dated 1 and 10 and
    the targets 1 and 9, both inside the span, the date nearest 9 is 10
    (index 110), yet the end value is the one of date 1 (index 100), so the
    rate is 0; and a start target between two dates selects nothing. *)
Lemma main_calc_change_not_nearest :
  Main.calc_change [surveyed 1 "11" 100; surveyed 10 "11" 110] 1 9
    = Ok [ {| Main.region := JStr "11"; Main.change_rate := 0 |} ]
  ∧ min_key (fun x => Z.abs (x - 9)) [1; 10] = Ok 10
  ∧ Main.calc_change [surveyed 1 "11" 100; surveyed 10 "11" 110] 2 9 = Ok [].
Proof. repeat split; vm_compute; reflexivity. Qed.

(** ** The change rate *)

Lemma change_of_fields (df_s df_e : list Viz.row) (cls : json) (r : Viz.change) :
  Viz.change_of df_s df_e cls = Ok r →
  ∃ a b,
    Pandas.iloc0 (map Viz.index (Viz.of_region cls df_s)) = Ok a
    ∧ Pandas.iloc0 (map Viz.index (Viz.of_region cls df_e)) = Ok b
    ∧ Viz.start_index r = Numpy.round2 a
    ∧ Viz.end_index r = Numpy.round2 b
    ∧ Viz.change_pct r = Numpy.round2 ((b - a) / a * 100)%float.
Proof.
  unfold Viz.change_of.
  destruct (Pandas.iloc0 (map Viz.CLS_NM _)) as [nm|]; [|done].
  destruct (Pandas.iloc0 (map Viz.index (Viz.of_region cls df_s))) as [a|]; [|done].
  destruct (Pandas.iloc0 (map Viz.index (Viz.of_region cls df_e))) as [b|]; [|done].
  intros [= <-]. by exists a, b.
Qed.

(** C2 (as amended). Of a start value [a] other than 0 and an end value
    [b], [Viz.calc_change] reports [round((b - a) / a * 100, 2)], and
    [Main.calc_change] reports [(b - a) / a * 100] as it is, not rounded;
    of a start value 0, [Main.calc_change] reports 0 and divides nothing. *)
Theorem change_percent :
  (∀ (df_s df_e : list Viz.row) (cls : json) (r : Viz.change),
     Viz.change_of df_s df_e cls = Ok r →
     ∃ a b,
       Pandas.iloc0 (map Viz.index (Viz.of_region cls df_s)) = Ok a
       ∧ Pandas.iloc0 (map Viz.index (Viz.of_region cls df_e)) = Ok b
       ∧ (Numpy.nonzero a = true →
          Viz.change_pct r = Numpy.round2 ((b - a) / a * 100)%float))
  ∧ (∀ a b : float, Numpy.nonzero a = true → Main.rate a b = ((b - a) / a * 100)%float)
  ∧ (∀ a b : float, Numpy.nonzero a = false → Main.rate a b = 0%float).
Proof.
  repeat split.
  - intros df_s df_e cls r Hr.
    destruct (change_of_fields _ _ _ _ Hr) as (a & b & Ha & Hb & _ & _ & Hpct).
    exists a, b. auto.
  - intros a b Ha. unfold Main.rate. by rewrite Ha.
  - intros a b Ha. unfold Main.rate. by rewrite Ha.
Qed.

Lemma change_percent_witness :
  (∃ a b,
     Pandas.iloc0 [100%float] = Ok a ∧ Pandas.iloc0 [110%float] = Ok b
     ∧ (Numpy.nonzero a = true → 10%float = Numpy.round2 ((b - a) / a * 100)%float))
  ∧ Main.rate 100 110 = ((110 - 100) / 100 * 100)%float
  ∧ Main.rate 0 110 = 0%float.
Proof.
  destruct change_percent as (Hviz & Hmain & Hzero).
  split; [|split].
  - exact (Hviz [observed 1 "11" "서울" 100] [observed 10 "11" "서울" 110] (JStr "11")
             (result_of "11" "서울" 100 110 10) eq_refl).
  - exact (Hmain 100%float 110%float eq_refl).
  - exact (Hzero 0%float 110%float eq_refl).
Defined.

(** C2 as stated fails on both programs: [main.py] does not round (for 3
    and 4 it reports 33.33333333333333, not 33.33), and the other program
    has no case for a start value of 0 (for 0 and 100 it reports infinity,
    not 0). *)
Lemma change_percent_not_rounded_not_guarded :
  PrimFloat.eqb (Main.rate 3 4) (Numpy.round2 ((4 - 3) / 3 * 100)%float) = false
  ∧ Viz.change_of [observed 1 "11" "서울" 0] [observed 10 "11" "서울" 100] (JStr "11")
    = Ok (result_of "11" "서울" 0 100 infinity).
Proof. split; vm_compute; reflexivity. Qed.

(** ** A region without an observation on the end date *)

Lemma change_of_raises (df_s df_e : list Viz.row) (cls : json) (e : exn) :
  Viz.change_of df_s df_e cls = Raise e → e = IndexError.
Proof.
  unfold Viz.change_of, Pandas.iloc0.
  destruct (map Viz.CLS_NM _); [by intros [= <-]|].
  destruct (map Viz.index (Viz.of_region cls df_s)); [by intros [= <-]|].
  destruct (map Viz.index (Viz.of_region cls df_e)); [by intros [= <-]|done].
Qed.

Lemma change_of_without_end_row (df_s df_e : list Viz.row) (cls : json) :
  Viz.of_region cls df_e = [] →
  Viz.change_of df_s df_e cls = Raise IndexError.
Proof.
  intros Hnone. destruct (Viz.change_of df_s df_e cls) as [r|e] eqn:Hch.
  - apply change_of_fields in Hch as (a & b & _ & Hb & _). by rewrite Hnone in Hb.
  - by apply change_of_raises in Hch as ->.
Qed.

(** One region of the start date without a row on the end date is enough
    for the loop to raise. *)
Lemma changes_without_end_row (df_s df_e : list Viz.row) (codes : list json) (cls : json) :
  cls ∈ codes →
  Viz.of_region cls df_e = [] →
  Viz.changes df_s df_e codes = Raise IndexError.
Proof.
  intros Hin Hnone. induction codes as [|c codes IH]; [by apply elem_of_nil in Hin|].
  simpl. destruct (Viz.change_of df_s df_e c) as [r|e] eqn:Hch.
  - apply elem_of_cons in Hin as [->|Hin].
    + by rewrite change_of_without_end_row in Hch.
    + by rewrite IH.
  - by apply change_of_raises in Hch as ->.
Qed.

(** C3 (defect). A region that has an observation on the selected start
    date and none on the selected end date, as after a lost fetch, is not
    left out of the result: [Viz.calc_change] raises IndexError, on every
    frame. (A region without an observation on the start date is left out,
    and [Main.calc_change] puts 0 in place of a missing value.) *)
Theorem calc_change_missing_end_raises (df : list Viz.row) (start_date end_date s e : Z)
    (codes : list json) (cls : json) (c : Viz.cache) :
  Viz.nearest start_date df = Ok s →
  Viz.nearest end_date df = Ok e →
  Pandas.unique (map Viz.CLS_ID (List.filter (fun r => Viz.date r =? s) df)) = Ok codes →
  cls ∈ codes →
  Viz.of_region cls (List.filter (fun r => Viz.date r =? e) df) = [] →
  Run.value_of (Viz.calc_change df start_date end_date c) = Raise IndexError.
Proof.
  intros Hs He Hcodes Hin Hnone.
  unfold Viz.calc_change, Run.bind, Run.lift, Run.emit, Run.value_of.
  rewrite Hs, He. simpl. rewrite Hcodes. simpl.
  by rewrite (changes_without_end_row _ _ codes cls Hin Hnone).
Qed.

Lemma calc_change_missing_end_raises_witness :
  Run.value_of (Viz.batch_fetch two_regions no_float ["11"; "26"] jan22 feb22 two_names [])
  = Ok frame_with_gap
  ∧ Run.value_of
      (Viz.calc_change frame_with_gap (Pandas.month_start jan22) (Pandas.month_start feb22) [])
    = Raise IndexError
  ∧ Run.value_of
      (Viz.main two_regions no_float ["11"; "26"] two_names [jung_gu]
         {| Viz.yyyymm_of := jan22; Viz.day_of := 1 |}
         {| Viz.yyyymm_of := feb22; Viz.day_of := 1 |} feb22 None [])
    = Raise IndexError
  ∧ Run.value_of
      (Viz.calc_change frame_with_gap (Pandas.month_start feb22) (Pandas.month_start feb22) [])
    = Ok [result_of "11" "서울" 110 110 0]
  ∧ Main.calc_change
      [surveyed 1 "11" 100; surveyed 1 "26" 100; surveyed 2 "11" 110; surveyed 3 "27" 90] 2 3
    = Ok [ {| Main.region := JStr "11"; Main.change_rate := 0 |};
           {| Main.region := JStr "26"; Main.change_rate := 0 |};
           {| Main.region := JStr "27"; Main.change_rate := 0 |} ].
Proof.
  split; [vm_compute; reflexivity|]. split; [|repeat split; vm_compute; reflexivity].
  apply (calc_change_missing_end_raises frame_with_gap _ _
           (Pandas.month_start jan22) (Pandas.month_start feb22)
           [JStr "11"; JStr "26"] (JStr "26") []).
  - vm_compute. reflexivity.
  - vm_compute. reflexivity.
  - vm_compute. reflexivity.
  - apply elem_of_cons. right. apply elem_of_cons. by left.
  - vm_compute. reflexivity.
Defined.

(** The scenario of the specification, from the requests to the changes:
    +10 % for region 11 and 0 % for region 26. *)
Example rising_and_flat_changes :
  Run.value_of
    ((df_full <- Viz.batch_fetch rising_and_flat no_float ["11"; "26"] jan22 dec22 two_names;;
      Viz.calc_change df_full (Pandas.month_start jan22) (Pandas.month_start dec22)) [])
  = Ok [result_of "11" "서울" 100 110 10; result_of "26" "부산" 100 100 0].
Proof. vm_compute. reflexivity. Qed.

(** ** Joining the change results to the geometry *)









(** ** The colour scale *)

Lemma create_colormap_degenerate (min_val max_val v : float) :
  PrimFloat.eqb min_val max_val = true →
  Viz.create_colormap min_val max_val v = Ok (Entry 0).
Proof.
  intros Heq. unfold Viz.create_colormap, normalize. simpl. rewrite Heq.
  vm_compute. reflexivity.
Qed.

Lemma fills_degenerate (get_color : float → result color) (ms : list Viz.merged) :
  (∀ v, get_color v = Ok (Entry 0)) →
  ∃ drawn,
    Viz.fills get_color ms = Ok drawn
    ∧ map fst drawn = map (fun m => Viz.SIG_KOR_NM (Viz.feat m)) ms
    ∧ Forall (fun fill => fill.2 = Entry 0 ∨ fill.2 = Hex "#8c8c8c") drawn.
Proof.
  intros Hget. induction ms as [|m ms (drawn & Hfills & Hnames & Hall)]; simpl.
  - exists []. by repeat split.
  - rewrite Hfills. unfold Viz.fill_color.
    destruct (Viz.change_property m) as [v|].
    + rewrite Hget. eexists. repeat split; simpl; [by f_equal|].
      constructor; [by left | done].
    + eexists. repeat split; simpl; [by f_equal|].
      constructor; [by right | done].
Qed.

(** C5 (as amended). When the smallest and the largest change are equal,
    [plot_colormap_with_geojson] fills every feature that has a change value
    with one and the same colour, the first entry of the colour table (the
    red end of the scale), because the normalisation maps every value to 0
    then; a feature without a value is grey. [create_choropleth_map] of
    [main.py] tests [min_val == max_val] in a branch of its own: given rows
    and a geometry it returns a map from there, the same whatever folium
    would make of the data, and nothing is normalised or divided. *)
Theorem equal_min_max_one_colour :
  (∀ min_val max_val v : float,
     PrimFloat.eqb min_val max_val = true →
     Viz.create_colormap min_val max_val v = Ok (Entry 0))
  ∧ (∀ (merged_gdf : list Viz.merged) (clicked : option string) (c : Viz.cache),
       let col := omap Viz.change_property merged_gdf in
       PrimFloat.eqb (Pandas.col_min col) (Pandas.col_max col) = true →
       ∃ drawn,
         log_of (Viz.plot_colormap_with_geojson merged_gdf clicked c) = [Viz.StFolium drawn]
         ∧ map fst drawn = map (fun m => Viz.SIG_KOR_NM (Viz.feat m)) merged_gdf
         ∧ Forall (fun fill => fill.2 = Entry 0 ∨ fill.2 = Hex "#8c8c8c") drawn)
  ∧ (∀ (df : list Main.change) (geojson_data : json),
       df ≠ [] →
       geojson_data ≠ JNull →
       PrimFloat.eqb (Pandas.col_min (map Main.change_rate df))
         (Pandas.col_max (map Main.change_rate df)) = true →
       ∃ m, ∀ add_layers,
         Main.create_choropleth_map add_layers df geojson_data = Ok (Some m)).
Proof.
  split; [exact create_colormap_degenerate | split].
  - intros merged_gdf clicked c col Heq.
    destruct (fills_degenerate
                (Viz.create_colormap (Pandas.col_min col) (Pandas.col_max col)) merged_gdf)
      as (drawn & Hfills & Hnames & Hall).
    { intros v. by apply create_colormap_degenerate. }
    exists drawn. repeat split; [|done|done].
    unfold Viz.plot_colormap_with_geojson, Run.bind, Run.lift, Run.emit, log_of.
    fold col. rewrite Hfills. reflexivity.
  - intros df geojson_data Hne Hgeo Heq. exists Main.base_map. intros add_layers.
    unfold Main.create_choropleth_map.
    destruct df; [done|]. destruct geojson_data; try done; by rewrite Heq.
Qed.

Lemma equal_min_max_one_colour_witness :
  Viz.create_colormap 5%float 5%float 5%float = Ok (Entry 0)
  ∧ ∃ m, ∀ add_layers,
      Main.create_choropleth_map add_layers
        [ {| Main.region := JStr "11"; Main.change_rate := 5 |};
          {| Main.region := JStr "26"; Main.change_rate := 5 |} ] sig_geojson
      = Ok (Some m).
Proof.
  destruct equal_min_max_one_colour as (Hviz & _ & Hmain).
  split.
  - exact (Hviz 5%float 5%float 5%float eq_refl).
  - apply Hmain; [discriminate | discriminate | reflexivity].
Defined.

(** C5 as stated fails: the colour of a set of equal values is not a
    neutral one. Where every change is 5, the value 5 is filled with the
    colour that the largest decrease gets on a proper range, the red end of
    the table (the largest increase gets the green end), not with the grey
    of a feature without data; and [create_colormap] has no branch for the
    case. *)
Lemma equal_values_get_the_red_end :
  Viz.create_colormap 5%float 5%float 5%float = Ok (Entry 0)
  ∧ Viz.create_colormap (-10)%float 10%float (-10)%float = Ok (Entry 0)
  ∧ Viz.create_colormap (-10)%float 10%float 10%float = Ok (Entry 255)
  ∧ Viz.fill_color (Viz.create_colormap 5%float 5%float)
      {| Viz.feat := jung_gu; Viz.joined := None |} = Ok (Hex "#8c8c8c").
Proof. repeat split; vm_compute; reflexivity. Qed.

(** *** A range that reaches infinity *)

Lemma cond_Zopp_cancel (s : bool) (p : positive) :
  cond_Zopp s (Z.pos p) - cond_Zopp s (Z.pos p) = 0.
Proof. lia. Qed.

Lemma finite_cases (x : float) :
  PrimFloat.is_finite x = true →
  (∃ s, Prim2SF x = S754_zero s) ∨ (∃ s m e, Prim2SF x = S754_finite s m e).
Proof.
  unfold PrimFloat.is_finite, PrimFloat.is_nan, PrimFloat.is_infinity.
  rewrite !eqb_spec, abs_spec.
  destruct (Prim2SF x) as [s|s| |s m e]; [eauto| |done|eauto 10].
  by destruct s.
Qed.

Lemma infinity_minus_finite (x : float) :
  PrimFloat.is_finite x = true → (infinity - x)%float = infinity.
Proof.
  intros Hfin. apply Prim2SF_inj. rewrite sub_spec.
  destruct (finite_cases x Hfin) as [[s ->]|(s & m & e & ->)]; reflexivity.
Qed.

Lemma finite_minus_itself (x : float) :
  PrimFloat.is_finite x = true → (x - x)%float = 0%float.
Proof.
  intros Hfin. apply Prim2SF_inj. rewrite sub_spec.
  destruct (finite_cases x Hfin) as [[s Hx]|(s & m & e & Hx)]; rewrite Hx.
  - by destruct s.
  - unfold SF64sub, SFsub. cbv zeta. rewrite cond_Zopp_cancel. reflexivity.
Qed.

Lemma finite_below_infinity (x : float) :
  PrimFloat.is_finite x = true →
  PrimFloat.eqb x infinity = false ∧ PrimFloat.ltb infinity x = false.
Proof.
  intros Hfin. rewrite eqb_spec, ltb_spec.
  destruct (finite_cases x Hfin) as [[s ->]|(s & m & e & ->)]; done.
Qed.

(** C6 (where the code departs from it). A region that starts from an
    index of 0 has the change [inf], and on a scale whose largest value is
    [inf] that value is mapped to the colormap's colour for bad values,
    which has no position between the red and the green end; the smallest
    value has the first entry. So the smaller of two values of the range
    has a position and the larger has none: in the run with 중구 starting
    from 0 and 강남구 rising from 100 to 110, 강남구 (change 10) is drawn
    with entry 0 and 중구 (change [inf]) with the bad colour. *)
Theorem infinite_change_has_no_position :
  (∀ min_val : float,
     PrimFloat.is_finite min_val = true →
     Viz.create_colormap min_val infinity min_val = Ok (Entry 0)
     ∧ Viz.create_colormap min_val infinity infinity = Ok Bad)
  ∧ position Bad = None
  ∧ (∀ c, value_of (Viz.calc_change zero_start (Pandas.month_start jan22)
                      (Pandas.month_start feb22) c)
          = Ok zero_start_changes)
  ∧ Viz.merge_geo_data [jung_gu; gangnam_gu] zero_start_changes = Ok zero_start_merged
  ∧ (∀ c, log_of (Viz.plot_colormap_with_geojson zero_start_merged None c)
          = [Viz.StFolium [("중구", Bad); ("강남구", Entry 0)]]).
Proof.
  split; [|split; [reflexivity|]].
  - intros min_val Hfin.
    destruct (finite_below_infinity min_val Hfin) as [Heq Hlt].
    unfold Viz.create_colormap, normalize.
    rewrite Heq, Hlt, (infinity_minus_finite min_val Hfin),
      (finite_minus_itself min_val Hfin).
    split; vm_compute; reflexivity.
  - split; [|split]; [intros c| |intros c]; vm_compute; reflexivity.
Qed.

Lemma infinite_change_has_no_position_witness :
  Viz.create_colormap 10%float infinity 10%float = Ok (Entry 0)
  ∧ Viz.create_colormap 10%float infinity infinity = Ok Bad.
Proof. apply (proj1 infinite_change_has_no_position 10%float). reflexivity. Defined.

(** The same on a finite range whose width is beyond the largest float. *)
Example wide_range_has_no_position :
  Viz.create_colormap (-0x1p1023)%float 0x1p1023%float 0%float = Ok (Entry 0)
  ∧ Viz.create_colormap (-0x1p1023)%float 0x1p1023%float 0x1p1023%float = Ok Bad.
Proof. split; vm_compute; reflexivity. Qed.

(** On a range like that of real changes the positions do ascend: at
    every quarter step of the range from -10 to 10. *)
Example quarter_steps_ascending :
  ascending
    (map (fun v => match Viz.create_colormap (-10)%float 10%float v with
                   | Ok c => position c
                   | Raise _ => None
                   end) quarter_steps) = true.
Proof. vm_compute. reflexivity. Qed.

(** ** The calendar *)

Lemma month_start_next (k : Z) : Pandas.month_start k < Pandas.month_start (k + 1).
Proof.
  unfold Pandas.month_start.
  replace (k + 1 - 2) with ((k - 2) + 1) by lia.
  generalize (k - 2). clear k. intros k.
  Z.div_mod_to_equations. lia.
Qed.

Lemma month_start_mono (k1 k2 : Z) :
  k1 ≤ k2 → Pandas.month_start k1 ≤ Pandas.month_start k2.
Proof.
  intros Hle. replace k2 with (k1 + Z.of_nat (Z.to_nat (k2 - k1))) by lia.
  induction (Z.to_nat (k2 - k1)) as [|n IH]; [by rewrite Z.add_0_r|].
  pose proof (month_start_next (k1 + Z.of_nat n)).
  replace (k1 + Z.of_nat (S n)) with (k1 + Z.of_nat n + 1) by lia. lia.
Qed.

(** ** The batch collector *)

Lemma elem_of_tasks (cls_ids : list string) (periods : list Z) (t : string * Z) :
  t ∈ Viz.tasks cls_ids periods ↔ t.1 ∈ cls_ids ∧ t.2 ∈ periods.
Proof.
  unfold Viz.tasks. rewrite list_elem_of_In, in_flat_map. split.
  - intros (y & Hy & Ht). apply in_map_iff in Ht as (cid & <- & Hcid).
    by rewrite !list_elem_of_In.
  - intros [H1 H2]. exists t.2. rewrite <- list_elem_of_In. split; [done|].
    apply in_map_iff. exists t.1. rewrite <- list_elem_of_In. by destruct t.
Qed.

Section collector.
Variable service : string → Z → Viz.reply.
Variable float_of_string : string → option float.

Lemma for_each_fetch_index (ts : list (string * Z)) (c : Viz.cache) :
  Run.for_each (fun t => Viz.fetch_index service float_of_string t.1 t.2) ts c
  = (c, map (fun t => Viz.HttpGet t.1 t.2) ts,
     Ok (map (fetched service float_of_string) ts)).
Proof.
  induction ts as [|t ts IH]; simpl; [done|].
  unfold Run.bind at 1. unfold Viz.fetch_index at 1.
  unfold Run.bind at 1. unfold Run.emit, Run.ret at 1. simpl.
  unfold Run.bind at 1. rewrite IH. unfold Run.ret. simpl.
  by rewrite app_nil_r.
Qed.

Lemma omap_id_map {A B} (f : A → option B) (l : list A) : omap id (map f l) = omap f l.
Proof.
  induction l as [|x l IH]; simpl; [done|].
  destruct (f x); simpl; [f_equal|]; exact IH.
Qed.

Lemma collect_run (ts : list (string * Z)) (c : Viz.cache) :
  Viz.collect service float_of_string ts c
  = (c, map (fun t => Viz.HttpGet t.1 t.2) ts,
     Ok (omap (fetched service float_of_string) ts)).
Proof.
  unfold Viz.collect, Run.bind.
  pose proof (for_each_fetch_index ts c) as Hfe. rewrite Hfe. unfold Run.ret.
  by rewrite app_nil_r, omap_id_map.
Qed.

Lemma map_dict_ok {V} (d : dict V) (col : list json) (vs : list (option V)) :
  Pandas.map_dict d col = Ok vs → vs = map (dict_lookup d) col.
Proof.
  revert vs. induction col as [|k col IH]; simpl; intros vs.
  - by intros [= <-].
  - destruct (hashable k); [|done].
    destruct (Pandas.map_dict d col) as [vs'|]; [|done].
    intros [= <-]. f_equal. by apply IH.
Qed.

Lemma name_rows_lookup (tbl : dict (option string)) (results : list Viz.record) :
  Viz.name_rows results (map (dict_lookup tbl) (map Viz.rec_cls_id results))
  = omap (named tbl) results.
Proof.
  unfold Viz.name_rows. induction results as [|r results IH]; simpl; [done|].
  fold (named tbl r). destruct (named tbl r); simpl; [f_equal|]; exact IH.
Qed.

Lemma batch_fetch_rows (cls_ids : list string) (start_yyyymm end_yyyymm : Z)
    (tbl : dict (option string)) (c : Viz.cache) (df : list Viz.row) :
  Run.value_of
    (Viz.batch_fetch service float_of_string cls_ids start_yyyymm end_yyyymm tbl c) = Ok df →
  df = omap (named tbl)
         (omap (fetched service float_of_string)
            (Viz.tasks cls_ids (Pandas.period_range start_yyyymm end_yyyymm))).
Proof.
  unfold Viz.batch_fetch, Run.bind.
  pose proof (collect_run (Viz.tasks cls_ids (Pandas.period_range start_yyyymm end_yyyymm)) c)
    as Hc. rewrite Hc. clear Hc.
  destruct (omap (fetched service float_of_string) _) as [|r results] eqn:Hres.
  - unfold Run.ret, Run.value_of. simpl. by intros [= <-].
  - unfold Run.lift, Run.ret, Run.value_of.
    destruct (Pandas.map_dict tbl _) as [names|] eqn:Hnames; simpl; [|done].
    intros [= <-]. apply map_dict_ok in Hnames as ->.
    apply name_rows_lookup.
Qed.

Lemma named_fields (tbl : dict (option string)) (r : Viz.record) (x : Viz.row) :
  named tbl r = Some x →
  Viz.date x = Viz.rec_date r ∧ Viz.CLS_ID x = Viz.rec_cls_id r
  ∧ Viz.index x = Viz.rec_index r
  ∧ dict_lookup tbl (Viz.rec_cls_id r) = Some (Some (Viz.CLS_NM x)).
Proof.
  unfold named, Viz.with_name.
  destruct (dict_lookup tbl (Viz.rec_cls_id r)) as [[nm|]|]; [|done..].
  by intros [= <-].
Qed.

Lemma fetched_date (t : string * Z) (r : Viz.record) :
  fetched service float_of_string t = Some r → Viz.rec_date r = Pandas.month_start t.2.
Proof.
  unfold fetched, Viz.parse_reply, Viz.fetch_index_body.
  destruct (service t.1 t.2) as [e|code body]; [done|].
  destruct (negb (code =? 200)); [done|].
  destruct body as [j|]; [|done].
  destruct (Viz.rows_of j) as [rows|]; [|done].
  destruct (negb (truthy rows)); [done|].
  destruct (Viz.record_of float_of_string t.2 rows) as [r'|] eqn:Hrec; [|done].
  intros [= <-]. revert Hrec. unfold Viz.record_of.
  destruct (item rows 0) as [it|]; [|done].
  destruct (key it "CLS_ID") as [cls|]; [|done].
  destruct (key it "DTA_VAL") as [v|]; [|done].
  destruct (Viz.to_float float_of_string v) as [x|]; [|done].
  by intros [= <-].
Qed.

(** Sortedness survives dropping elements. *)
Lemma StronglySorted_omap {A B} (f : A → option B) (ka : A → Z) (kb : B → Z) (l : list A) :
  (∀ a b, f a = Some b → kb b = ka a) →
  StronglySorted Z.le (map ka l) → StronglySorted Z.le (map kb (omap f l)).
Proof.
  intros Hkey. induction l as [|a l IH]; simpl; [constructor|].
  intros Hs. apply StronglySorted_inv in Hs as [Hs Hall].
  destruct (f a) as [b|] eqn:Hfa; simpl; [|by apply IH].
  constructor; [by apply IH|].
  rewrite (Hkey a b Hfa). rewrite Forall_forall in Hall |- *.
  intros y Hy. apply list_elem_of_fmap in Hy as (b' & -> & Hb').
  apply list_elem_of_omap in Hb' as (a' & Ha' & Hfa').
  rewrite (Hkey a' b' Hfa'). apply Hall, list_elem_of_fmap. eauto.
Qed.

Lemma StronglySorted_filter {A} (p : A → bool) (k : A → Z) (l : list A) :
  StronglySorted Z.le (map k l) → StronglySorted Z.le (map k (List.filter p l)).
Proof.
  intros Hs.
  assert (List.filter p l = omap (fun a => if p a then Some a else None) l) as ->.
  { clear Hs. induction l as [|a l IH]; simpl; [done|].
    destruct (p a); simpl; [f_equal|]; exact IH. }
  apply (StronglySorted_omap _ k k); [|done].
  intros a b. destruct (p a); [by intros [= <-] | done].
Qed.

Lemma period_range_sorted (start stop : Z) :
  StronglySorted Z.le (Pandas.period_range start stop).
Proof.
  unfold Pandas.period_range. generalize (stop - start + 1). intros n.
  destruct (Z.le_gt_cases n 0) as [Hn|Hn]; [rewrite seqZ_nil by done; constructor|].
  replace n with (Z.of_nat (Z.to_nat n)) by lia. clear Hn.
  induction (Z.to_nat n) as [|i IH]; [constructor|].
  rewrite seqZ_S. apply StronglySorted_app_2; [|done|repeat constructor].
  intros x1 x2 Hx1 Hx2.
  apply elem_of_seqZ in Hx1. apply list_elem_of_singleton in Hx2. lia.
Qed.

Lemma tasks_dates_sorted (cls_ids : list string) (periods : list Z) :
  StronglySorted Z.le periods →
  StronglySorted Z.le
    (map (fun t : string * Z => Pandas.month_start t.2) (Viz.tasks cls_ids periods)).
Proof.
  unfold Viz.tasks. induction periods as [|y periods IH]; simpl; [constructor|].
  intros Hs. apply StronglySorted_inv in Hs as [Hs Hall].
  rewrite map_app. apply StronglySorted_app_2; [| |by apply IH].
  - intros x1 x2 Hx1 Hx2.
    apply list_elem_of_fmap in Hx1 as (t1 & -> & Ht1).
    apply list_elem_of_fmap in Ht1 as (cid & -> & _). simpl.
    apply list_elem_of_fmap in Hx2 as (t2 & -> & Ht2).
    apply list_elem_of_In, in_flat_map in Ht2 as (y2 & Hy2 & Ht2).
    apply in_map_iff in Ht2 as (cid2 & <- & _). simpl.
    apply month_start_mono. rewrite Forall_forall in Hall.
    apply Hall. by apply list_elem_of_In.
  - rewrite map_map. simpl. clear.
    induction cls_ids as [|cid cls_ids IHc]; simpl; [constructor|].
    constructor; [exact IHc|]. apply Forall_forall. intros x Hx.
    apply list_elem_of_fmap in Hx as (? & -> & _). lia.
Qed.

Lemma failed_fetch_none (yyyymm : Z) (resp : Viz.reply) :
  fetch_fails float_of_string resp → Viz.parse_reply float_of_string yyyymm resp = None.
Proof.
  unfold Viz.parse_reply, Viz.fetch_index_body.
  intros [e | code body Hcode | code | code j e Hrows | code j rows Hrows Hempty
         | code j rows e Hrows Hrec].
  - done.
  - by rewrite (proj2 (Z.eqb_neq code 200) Hcode).
  - by destruct (negb (code =? 200)).
  - destruct (negb (code =? 200)); [done|]. by rewrite Hrows.
  - destruct (negb (code =? 200)); [done|]. by rewrite Hrows, Hempty.
  - destruct (negb (code =? 200)); [done|]. rewrite Hrows, (Hrec yyyymm).
    by destruct (negb (truthy rows)).
Qed.

Lemma readable_to_float (v : json) (x : float) :
  readable float_of_string v x ↔ Viz.to_float float_of_string v = Ok x.
Proof.
  unfold readable. split.
  - intros [->|[(b & -> & ->)|(s & -> & Hs)]]; simpl; [done|done|by rewrite Hs].
  - destruct v as [|b|y|s|items|members]; simpl; try done.
    + intros [= <-]. right. left. eauto.
    + intros [= <-]. by left.
    + destruct (float_of_string s) as [y|] eqn:Hs; [|done].
      intros [= <-]. right. right. eauto.
Qed.

Lemma carries_record (yyyymm : Z) (resp : Viz.reply) (cls : json) (x : float) :
  carries float_of_string resp cls x →
  Viz.parse_reply float_of_string yyyymm resp
  = Some {| Viz.rec_date := Pandas.month_start yyyymm;
            Viz.rec_cls_id := cls;
            Viz.rec_index := x |}.
Proof.
  intros (members & hd & second & rest & row & more & v
          & -> & Htbl & Hrow & Hcls & Hval & Hread).
  apply readable_to_float in Hread.
  unfold Viz.parse_reply, Viz.fetch_index_body, Viz.rows_of, Viz.record_of. simpl.
  rewrite Htbl. simpl. rewrite Hrow. simpl. rewrite Hcls, Hval, Hread. reflexivity.
Qed.

Lemma record_carried (yyyymm : Z) (resp : Viz.reply) (r : Viz.record) :
  Viz.parse_reply float_of_string yyyymm resp = Some r →
  ∃ cls x,
    carries float_of_string resp cls x
    ∧ r = {| Viz.rec_date := Pandas.month_start yyyymm;
             Viz.rec_cls_id := cls;
             Viz.rec_index := x |}.
Proof.
  unfold Viz.parse_reply, Viz.fetch_index_body.
  destruct resp as [e|code body]; [done|].
  destruct (Z.eqb_spec code 200) as [->|Hcode]; simpl; [|done].
  destruct body as [j|]; [|done].
  unfold Viz.rows_of, get.
  destruct j as [| | | | |members]; try done.
  destruct (assoc "SttsApiTblData" members) as [tbl|] eqn:Htbl; [|done].
  destruct tbl as [| | |str|items|]; try done.
  { simpl. by destruct (String.get 1 str). }
  destruct items as [|hd [|second rest]]; try done. simpl.
  destruct second as [| | | | |sm]; try done. simpl.
  destruct (assoc "row" sm) as [rows|] eqn:Hrow; [|done].
  destruct (truthy rows) eqn:Htruthy; simpl; [|done].
  unfold Viz.record_of.
  destruct rows as [| | |str|rs|]; try done.
  { simpl. by destruct (String.get 0 str). }
  destruct rs as [|r0 more]; [done|]. simpl.
  destruct r0 as [| | | | |row]; try done. simpl.
  destruct (assoc "CLS_ID" row) as [cls|] eqn:Hcls; [|done].
  destruct (assoc "DTA_VAL" row) as [v|] eqn:Hval; [|done].
  destruct (Viz.to_float float_of_string v) as [x|] eqn:Hread; [|done].
  intros [= <-]. exists cls, x. split; [|done].
  apply readable_to_float in Hread.
  by exists members, hd, sm, rest, row, more, v.
Qed.

Lemma map_dict_unhashable {V} (d : dict V) (col : list json) (k : json) :
  k ∈ col → hashable k = false → Pandas.map_dict d col = Raise TypeError.
Proof.
  intros Hin Hk. induction col as [|k' col IH]; simpl; [by apply elem_of_nil in Hin|].
  apply elem_of_cons in Hin as [<-|Hin]; [by rewrite Hk|].
  destruct (hashable k'); [|done]. by rewrite IH.
Qed.

(** C7 (where the code departs from it). A reply with status 200 whose
    first row has a list or an object for its CLS_ID is a malformed
    response that [fetch_index] does not turn into [None]: it returns a
    record with that code. [batch_fetch] then raises TypeError, from
    [Series.map] on the code that cannot be hashed: the exception leaves the
    collector, no frame is returned, and the point is not dropped in
    silence. *)
Theorem unhashable_code_leaves_batch_fetch (cls_ids : list string)
    (start_yyyymm end_yyyymm : Z) (tbl : dict (option string)) (c : Viz.cache)
    (cls_id : string) (yyyymm : Z) (cls : json) (x : float) :
  cls_id ∈ cls_ids →
  start_yyyymm ≤ yyyymm ≤ end_yyyymm →
  carries float_of_string (service cls_id yyyymm) cls x →
  hashable cls = false →
  Run.value_of (Viz.fetch_index service float_of_string cls_id yyyymm c)
  = Ok (Some {| Viz.rec_date := Pandas.month_start yyyymm;
                Viz.rec_cls_id := cls;
                Viz.rec_index := x |})
  ∧ Run.value_of
      (Viz.batch_fetch service float_of_string cls_ids start_yyyymm end_yyyymm tbl c)
    = Raise TypeError.
Proof.
  intros Hcls Hmonth Hcarries Hhash.
  pose proof (carries_record yyyymm _ _ _ Hcarries) as Hrec. split.
  - unfold Viz.fetch_index, Run.bind, Run.emit, Run.ret, Run.value_of. simpl.
    by rewrite Hrec.
  - unfold Viz.batch_fetch, Run.bind. rewrite collect_run.
    set (ts := Viz.tasks cls_ids (Pandas.period_range start_yyyymm end_yyyymm)).
    set (r := {| Viz.rec_date := Pandas.month_start yyyymm;
                 Viz.rec_cls_id := cls; Viz.rec_index := x |}) in *.
    assert (r ∈ omap (fetched service float_of_string) ts) as Hin.
    { apply list_elem_of_omap. exists (cls_id, yyyymm). split; [|exact Hrec].
      apply elem_of_tasks. split; [done|]. simpl. unfold Pandas.period_range.
      apply elem_of_seqZ. lia. }
    destruct (omap (fetched service float_of_string) ts) as [|r0 results] eqn:Hres;
      [by apply elem_of_nil in Hin|].
    unfold Run.lift, Run.value_of.
    rewrite (map_dict_unhashable tbl (map Viz.rec_cls_id (r0 :: results)) cls); [done| |done].
    apply list_elem_of_fmap. by exists r.
Qed.

(** C9. The frame that [batch_fetch] returns is in ascending order of
    date, and so are the rows of each region in it: the results come back
    in the order of the tasks, month by month, whichever fetch finishes
    first. *)
Theorem batch_fetch_sorted_by_date (cls_ids : list string) (start_yyyymm end_yyyymm : Z)
    (tbl : dict (option string)) (c : Viz.cache) (df : list Viz.row) :
  Run.value_of
    (Viz.batch_fetch service float_of_string cls_ids start_yyyymm end_yyyymm tbl c) = Ok df →
  StronglySorted Z.le (map Viz.date df)
  ∧ ∀ code : json, StronglySorted Z.le (map Viz.date (Viz.of_region code df)).
Proof.
  intros Hdf. apply batch_fetch_rows in Hdf as ->.
  assert (StronglySorted Z.le
            (map Viz.date
               (omap (named tbl)
                  (omap (fetched service float_of_string)
                     (Viz.tasks cls_ids (Pandas.period_range start_yyyymm end_yyyymm))))))
    as Hsorted.
  { apply (StronglySorted_omap (named tbl) Viz.rec_date Viz.date).
    { intros r x Hx. by destruct (named_fields _ _ _ Hx) as (-> & _). }
    apply (StronglySorted_omap (fetched service float_of_string)
             (fun t => Pandas.month_start t.2) Viz.rec_date).
    { intros t r. apply fetched_date. }
    apply tasks_dates_sorted, period_range_sorted. }
  split; [exact Hsorted|].
  intros code. by apply StronglySorted_filter.
Qed.

(** C10. Every row of the frame that [batch_fetch] returns has a region
    code that is a key of the name table, and carries the name found under
    it: the rows are the fetched observations in their order, without those
    whose code is no key of the table (or has no name there). *)
Theorem batch_fetch_codes_in_table (cls_ids : list string) (start_yyyymm end_yyyymm : Z)
    (tbl : dict (option string)) (c : Viz.cache) (df : list Viz.row) :
  Run.value_of
    (Viz.batch_fetch service float_of_string cls_ids start_yyyymm end_yyyymm tbl c) = Ok df →
  Forall (fun r => dict_lookup tbl (Viz.CLS_ID r) = Some (Some (Viz.CLS_NM r))) df
  ∧ df = omap (named tbl)
           (omap (fetched service float_of_string)
              (Viz.tasks cls_ids (Pandas.period_range start_yyyymm end_yyyymm)))
  ∧ ∀ r : Viz.record, dict_lookup tbl (Viz.rec_cls_id r) = None → named tbl r = None.
Proof.
  intros Hdf. apply batch_fetch_rows in Hdf. repeat split.
  - rewrite Hdf. apply Forall_forall. intros x Hx.
    apply list_elem_of_omap in Hx as (r & _ & Hr).
    destruct (named_fields _ _ _ Hr) as (_ & -> & _ & Hname). exact Hname.
  - exact Hdf.
  - intros r Hr. unfold named. by rewrite Hr.
Qed.

End collector.

Lemma unhashable_code_leaves_batch_fetch_witness :
  (Run.value_of (Viz.fetch_index one_code_listed no_float "26" jan22 [])
   = Ok (Some {| Viz.rec_date := Pandas.month_start jan22;
                 Viz.rec_cls_id := JArr [JStr "26"];
                 Viz.rec_index := 100 |})
   ∧ Run.value_of (Viz.batch_fetch one_code_listed no_float ["11"; "26"] jan22 feb22
                     two_names [])
     = Raise TypeError)
  ∧ Viz.main one_code_listed no_float ["11"; "26"] two_names [jung_gu]
      {| Viz.yyyymm_of := jan22; Viz.day_of := 1 |}
      {| Viz.yyyymm_of := feb22; Viz.day_of := 1 |} feb22 None []
    = ([],
       [Viz.HttpGet "11" jan22; Viz.HttpGet "26" jan22;
        Viz.HttpGet "11" feb22; Viz.HttpGet "26" feb22],
       Raise TypeError).
Proof.
  split; [|vm_compute; reflexivity].
  apply (unhashable_code_leaves_batch_fetch one_code_listed no_float ["11"; "26"] jan22 feb22
           two_names [] "26" jan22 (JArr [JStr "26"]) 100%float).
  - apply list_elem_of_In. simpl. tauto.
  - unfold jan22, feb22. lia.
  - unfold carries. eexists _, _, _, _, _, _, _.
    split; [reflexivity|]. split; [reflexivity|]. split; [reflexivity|].
    split; [reflexivity|]. split; [reflexivity|]. by left.
  - reflexivity.
Defined.

Lemma batch_fetch_sorted_by_date_witness :
  StronglySorted Z.le (map Viz.date frame_with_gap)
  ∧ ∀ code : json, StronglySorted Z.le (map Viz.date (Viz.of_region code frame_with_gap)).
Proof.
  apply (batch_fetch_sorted_by_date two_regions no_float ["11"; "26"] jan22 feb22 two_names []).
  vm_compute. reflexivity.
Defined.

Lemma batch_fetch_codes_in_table_witness :
  Forall (fun r => dict_lookup [(JStr "11", Some "서울")] (Viz.CLS_ID r)
                   = Some (Some (Viz.CLS_NM r)))
    [ observed (Pandas.month_start jan22) "11" "서울" 100;
      observed (Pandas.month_start feb22) "11" "서울" 110 ].
Proof.
  apply (batch_fetch_codes_in_table two_regions no_float ["11"; "26"] jan22 feb22
           [(JStr "11", Some "서울")] []).
  vm_compute. reflexivity.
Defined.

(** ** The order of the two dates *)

Lemma emit_all_run (es : list Main.event) (c : Main.cache) :
  Main.emit_all es c = (c, es, Ok tt).
Proof.
  induction es as [|e es IH]; simpl; [done|].
  unfold Run.bind, Run.emit. by rewrite IH.
Qed.

Lemma load_and_process_data_run (service : Main.reply)
    (frame : json → result (list (option Z * json * option float))) (c : Main.cache) :
  ∃ df shown,
    Main.load_and_process_data service frame c
    = (Some (df, shown),
       match c with None => [Main.HttpGet Main.url] | Some _ => [] end ++ shown,
       Ok df).
Proof.
  unfold Main.load_and_process_data, Run.bind, Run.get_state.
  destruct c as [[df shown]|]; simpl.
  - exists df, shown. rewrite emit_all_run. unfold Run.ret. by rewrite app_nil_r.
  - destruct (Main.load_uncached service frame) as [df shown].
    exists df, shown. rewrite emit_all_run. unfold Run.put_state, Run.ret. simpl.
    by rewrite app_nil_r.
Qed.

Lemma load_uncached_outcome (service : Main.reply)
    (frame : json → result (list (option Z * json * option float))) :
  match Main.load_body frame service with
  | Ok df =>
      Main.load_uncached service frame = (df, [])
      ∧ Forall (fun r => PrimFloat.is_nan (Main.index r) = false) df
  | Raise e =>
      ∃ msg, Main.load_uncached service frame = ([], [Main.StError msg (Some e)])
  end.
Proof.
  unfold Main.load_uncached.
  destruct (Main.load_body frame service) as [df|e] eqn:Hbody.
  - split; [done|]. revert Hbody. unfold Main.load_body.
    destruct service as [e|code body]; [done|].
    destruct ((400 <=? code) && (code <? 600)); [done|].
    destruct body as [j|]; [|done]. simpl.
    destruct (key j "data") as [items|]; [|done]. simpl.
    destruct (frame items) as [cs|]; [|done]. intros [= <-].
    unfold Main.dropna. apply Forall_forall. intros r Hr.
    apply list_elem_of_omap in Hr as ([[d cls] [x|]] & _ & Hrow); simpl in Hrow; [|done].
    destruct (PrimFloat.is_nan x) eqn:Hnan; [done|]. by injection Hrow as <-.
  - destruct (Main.request_exception e); eauto.
Qed.

Lemma load_and_process_data_messages (service : Main.reply)
    (frame : json → result (list (option Z * json * option float))) (c : Main.cache) :
  (∀ df0 shown0, c = Some (df0, shown0) → Forall (fun ev => is_error ev = true) shown0) →
  ∃ df shown,
    Main.load_and_process_data service frame c
    = (Some (df, shown),
       match c with None => [Main.HttpGet Main.url] | Some _ => [] end ++ shown, Ok df)
    ∧ Forall (fun ev => is_error ev = true) shown.
Proof.
  intros Hcache. unfold Main.load_and_process_data, Run.bind, Run.get_state.
  destruct c as [[df0 shown0]|]; simpl.
  - exists df0, shown0. rewrite emit_all_run. unfold Run.ret. simpl.
    rewrite app_nil_r. split; [done | by apply (Hcache df0)].
  - pose proof (load_uncached_outcome service frame) as Hcases.
    destruct (Main.load_uncached service frame) as [df shown].
    exists df, shown. rewrite emit_all_run. unfold Run.put_state, Run.ret. simpl.
    rewrite app_nil_r. split; [done|].
    destruct (Main.load_body frame service).
    + by destruct Hcases as [[= _ ->] _].
    + destruct Hcases as [msg [= _ ->]]. by repeat constructor.
Qed.

Lemma load_geojson_value (file : Main.geo_file) (c : Main.cache) :
  ∃ shown,
    Main.load_geojson file c
    = (c, shown, Ok match file with Main.GeoData data => data | _ => JNull end)
    ∧ Forall (fun ev => is_error ev = true) shown.
Proof.
  destruct file; simpl; unfold Run.bind, Run.emit, Run.ret; simpl; eexists;
    (split; [reflexivity|]); repeat constructor.
Qed.

Lemma max_date_of_min_date (df : list Main.row) :
  Main.min_date df ≠ None → ∃ lo hi, Main.min_date df = Some lo ∧ Main.max_date df = Some hi.
Proof.
  unfold Main.min_date, Main.max_date. destruct (Main.dates df); [done|]. eauto.
Qed.

Lemma calc_change_run (df : list Viz.row) (start_date end_date : Z) (c : Viz.cache) :
  df ≠ [] →
  ∃ s e r,
    Viz.calc_change df start_date end_date c = (c, [Viz.StWrite s e], r)
    ∧ first_nearest start_date (map Viz.date df) s
    ∧ first_nearest end_date (map Viz.date df) e.
Proof.
  intros Hne.
  destruct (min_key_nonempty (fun x => Z.abs (x - start_date)) (map Viz.date df))
    as [s Hs]; [by destruct df|].
  destruct (min_key_nonempty (fun x => Z.abs (x - end_date)) (map Viz.date df))
    as [e He]; [by destruct df|].
  exists s, e.
  unfold Viz.calc_change, Viz.nearest, Run.bind, Run.lift, Run.emit.
  rewrite Hs, He. simpl.
  destruct (Pandas.unique _) as [codes|]; simpl.
  - destruct (Viz.changes _ _ codes); eexists; (split; [reflexivity|]);
      split; by apply nearest_first_nearest.
  - eexists. split; [reflexivity|]. split; by apply nearest_first_nearest.
Qed.

Lemma batch_fetch_run (service : string → Z → Viz.reply)
    (float_of_string : string → option float) (cls_ids : list string)
    (start_yyyymm end_yyyymm : Z) (tbl : dict (option string)) (c : Viz.cache) :
  ∃ r,
    Viz.batch_fetch service float_of_string cls_ids start_yyyymm end_yyyymm tbl c
    = (c, map (fun t => Viz.HttpGet t.1 t.2)
            (Viz.tasks cls_ids (Pandas.period_range start_yyyymm end_yyyymm)), r).
Proof.
  unfold Viz.batch_fetch, Run.bind. rewrite collect_run.
  destruct (omap _ _) as [|r results].
  - unfold Run.ret. rewrite app_nil_r. eauto.
  - unfold Run.lift. destruct (Pandas.map_dict tbl _); simpl; rewrite app_nil_r; eauto.
Qed.

(** C8 (as amended). [main.py], given a start date after the end date,
    shows the message that the start date must not be after the end date
    and does nothing more: no change is computed and no map is drawn. The
    data has been loaded before that, with one request to the service when
    the cache is empty and none otherwise; between the request and the
    message the run shows nothing but the error messages of the loader and
    of [load_geojson], if they have any. (The messages kept in the cache
    are error messages, as the loader leaves them.) The other program does
    not compare the two dates: when the months from the start month to the
    current month are not cached it requests every region and month of
    them, and on a frame that is not empty it goes on to the nearest dates
    and the change, whatever the order of the two dates. *)
Theorem start_after_end :
  (∀ (service : Main.reply) (frame : json → result (list (option Z * json * option float)))
     (add_layers : list Main.change → json → result unit)
     (render_layers : list Main.layer → exn)
     (file : Main.geo_file) (start_date_input end_date_input : Z) (c : Main.cache)
     (df : list Main.row),
     end_date_input < start_date_input →
     Run.value_of (Main.load_and_process_data service frame c) = Ok df →
     (∀ df0 shown0, c = Some (df0, shown0) → Forall (fun ev => is_error ev = true) shown0) →
     df ≠ [] → Main.min_date df ≠ None →
     ∃ shown,
       Main.main service frame add_layers render_layers file
         start_date_input end_date_input c
       = (Some (df, shown),
          match c with None => [Main.HttpGet Main.url] | Some _ => [] end
          ++ shown
          ++ Run.log_of (Main.load_geojson file (Some (df, shown)))
          ++ [Main.StError "시작 날짜는 종료 날짜보다 빠르거나 같아야 합니다." None],
          Ok tt)
       ∧ Forall (fun ev => is_error ev = true)
           (shown ++ Run.log_of (Main.load_geojson file (Some (df, shown))))
       ∧ ∀ m, Main.StHtml m
              ∉ Run.log_of (Main.main service frame add_layers render_layers file
                              start_date_input end_date_input c))
  ∧ (∀ (service : string → Z → Viz.reply) (float_of_string : string → option float)
       (cls_ids : list string) (tbl : dict (option string)) (geo_df : list Viz.feature)
       (start_date_input end_date_input : Viz.picked) (latest_yyyymm : Z)
       (clicked : option string) (c : Viz.cache),
       Viz.cached c (Viz.yyyymm_of start_date_input, latest_yyyymm) = None →
       ∃ rest,
         Run.log_of (Viz.main service float_of_string cls_ids tbl geo_df
                       start_date_input end_date_input latest_yyyymm clicked c)
         = map (fun t => Viz.HttpGet t.1 t.2)
             (Viz.tasks cls_ids
                (Pandas.period_range (Viz.yyyymm_of start_date_input) latest_yyyymm))
           ++ rest
         ∧ ∀ df,
             Run.value_of
               (Viz.batch_fetch service float_of_string cls_ids
                  (Viz.yyyymm_of start_date_input) latest_yyyymm tbl c) = Ok df →
             df ≠ [] →
             ∃ s e rest',
               rest = Viz.StWrite s e :: rest'
               ∧ first_nearest (Viz.to_datetime start_date_input) (map Viz.date df) s
               ∧ first_nearest (Viz.to_datetime end_date_input) (map Viz.date df) e).
Proof.
  split.
  - intros service frame add_layers render_layers file s e c df Hlt Hdf Hcache Hne Hdate.
    destruct (load_and_process_data_messages service frame c Hcache)
      as (df' & shown & Hload & Hshown).
    rewrite Hload in Hdf. injection Hdf as ->.
    destruct (load_geojson_value file (Some (df, shown))) as (gshown & Hgeo & Hgerr).
    destruct (max_date_of_min_date df Hdate) as (lo & hi & Hlo & Hhi).
    exists shown. rewrite Hgeo.
    assert (Main.main service frame add_layers render_layers file s e c
            = (Some (df, shown),
               match c with None => [Main.HttpGet Main.url] | Some _ => [] end
               ++ shown ++ gshown
               ++ [Main.StError "시작 날짜는 종료 날짜보다 빠르거나 같아야 합니다." None],
               Ok tt)) as Hrun.
    { unfold Main.main, Run.bind. rewrite Hload, Hgeo.
      destruct df as [|r df]; [done|]. rewrite Hlo, Hhi.
      rewrite (proj2 (Z.ltb_lt e s) Hlt). unfold Run.emit. by rewrite <- app_assoc. }
    rewrite Hrun. unfold Run.log_of. simpl.
    split; [done|]. split; [by apply Forall_app|].
    intros m. rewrite Forall_forall in Hshown, Hgerr.
    rewrite !elem_of_app, list_elem_of_singleton.
    intros [Hin|[Hin|[Hin|Hin]]];
      [destruct c; [by apply elem_of_nil in Hin | by apply list_elem_of_singleton in Hin]
      | by apply Hshown in Hin | by apply Hgerr in Hin | done].
  - intros service fos cls_ids tbl geo_df sd ed latest clicked c Hmiss.
    destruct (batch_fetch_run service fos cls_ids (Viz.yyyymm_of sd) latest tbl c)
      as (r & Hbatch).
    unfold Viz.main, Viz.cached_fetch, Run.bind at 1 2, Run.get_state. simpl.
    rewrite Hmiss. unfold Run.bind at 1. rewrite Hbatch.
    destruct r as [df|exn].
    + unfold Run.bind at 1. unfold Run.put_state, Run.ret. simpl.
      destruct df as [|row df].
      * unfold Run.emit. simpl. eexists. split; [by rewrite app_nil_r|].
        unfold Run.value_of. simpl. by intros df [= <-].
      * destruct (calc_change_run (row :: df) (Viz.to_datetime sd) (Viz.to_datetime ed)
                    ((Viz.yyyymm_of sd, latest, row :: df) :: c))
          as (s & e & rc & Hcalc & Hs & He); [done|].
        unfold Run.bind at 1. rewrite Hcalc.
        destruct rc as [result_df|exn].
        -- match goal with
           | |- context [ Run.bind ?m ?k ?st ] => destruct (Run.bind m k st) as [[st2 log2] r2]
           end.
           unfold Run.log_of. simpl. eexists. split; [by rewrite app_nil_r|].
           unfold Run.value_of. simpl. intros df' [= <-] _. by exists s, e, log2.
        -- unfold Run.log_of. simpl. eexists. split; [by rewrite app_nil_r|].
           unfold Run.value_of. simpl. intros df' [= <-] _. by exists s, e, [].
    + unfold Run.log_of. simpl. eexists. split; [by rewrite !app_nil_r|].
      unfold Run.value_of. simpl. done.
Qed.

Lemma start_after_end_witness :
  (∃ shown,
     Main.main open_data two_observations layers_added get_html_not_json
       (Main.GeoData sig_geojson) 10 1 None
     = (Some (survey, shown),
        [Main.HttpGet Main.url] ++ shown
        ++ Run.log_of (Main.load_geojson (Main.GeoData sig_geojson) (Some (survey, shown)))
        ++ [Main.StError "시작 날짜는 종료 날짜보다 빠르거나 같아야 합니다." None],
        Ok tt)
     ∧ Forall (fun ev => is_error ev = true)
         (shown
          ++ Run.log_of (Main.load_geojson (Main.GeoData sig_geojson) (Some (survey, shown))))
     ∧ ∀ m, Main.StHtml m
            ∉ Run.log_of (Main.main open_data two_observations layers_added get_html_not_json
                            (Main.GeoData sig_geojson) 10 1 None))
  ∧ ∃ rest,
      Run.log_of
        (Viz.main two_regions no_float ["11"] two_names [jung_gu]
           {| Viz.yyyymm_of := feb22; Viz.day_of := 1 |}
           {| Viz.yyyymm_of := jan22; Viz.day_of := 15 |} feb22 None [])
      = [Viz.HttpGet "11" feb22] ++ rest.
Proof.
  destruct start_after_end as [Hmain Hviz]. split.
  - apply (Hmain open_data two_observations layers_added get_html_not_json
             (Main.GeoData sig_geojson) 10 1 None survey).
    + lia.
    + vm_compute. reflexivity.
    + intros df0 shown0 [=].
    + discriminate.
    + vm_compute. discriminate.
  - destruct (Hviz two_regions no_float ["11"] two_names [jung_gu]
                {| Viz.yyyymm_of := feb22; Viz.day_of := 1 |}
                {| Viz.yyyymm_of := jan22; Viz.day_of := 15 |} feb22 None [])
      as (rest & Hlog & _); [reflexivity|].
    exists rest. exact Hlog.
Defined.

(** C8 as stated fails. With the start date 1 February 2022 after the end
    date 15 January 2022 and nothing cached, the program with the sidebar
    requests the index of February, computes the change between the nearest
    dates and draws the map, with no error message; and [main.py] has sent
    its request to the service before it shows its message. *)
Lemma start_after_end_still_fetches :
  Viz.main two_regions no_float ["11"] two_names [jung_gu]
    {| Viz.yyyymm_of := feb22; Viz.day_of := 1 |}
    {| Viz.yyyymm_of := jan22; Viz.day_of := 15 |} feb22 None []
  = ([(feb22, feb22, [observed (Pandas.month_start feb22) "11" "서울" 110])],
     [ Viz.HttpGet "11" feb22;
       Viz.StWrite (Pandas.month_start feb22) (Pandas.month_start feb22);
       Viz.StSubheader "📈 증감률 데이터";
       Viz.StDataframe [result_of "11" "서울" 110 110 0];
       Viz.StSubheader "🗺️ 지역별 증감률 지도";
       Viz.StFolium [("중구", Hex "#8c8c8c")] ],
     Ok tt)
  ∧ Main.main open_data two_observations layers_added get_html_not_json
      (Main.GeoData sig_geojson) 10 1 None
    = (Some ([surveyed 1 "11" 100; surveyed 10 "11" 110], []),
       [ Main.HttpGet Main.url;
         Main.StError "시작 날짜는 종료 날짜보다 빠르거나 같아야 합니다." None ],
       Ok tt).
Proof. split; vm_compute; reflexivity. Qed.

(** * Further properties of the two programs *)

(** ** The cache of the fetch *)

Lemma cached_insert (c : Viz.cache) (k : Z * Z) (df : list Viz.row) :
  Viz.cached ((k, df) :: c) k = Some df.
Proof. simpl. by rewrite !Z.eqb_refl. Qed.

Lemma cached_fetch_run (service : string → Z → Viz.reply)
    (float_of_string : string → option float) (cls_ids : list string)
    (start_yyyymm end_yyyymm : Z) (tbl : dict (option string)) (c : Viz.cache) :
  Viz.cached_fetch service float_of_string cls_ids start_yyyymm end_yyyymm tbl c
  = match Viz.cached c (start_yyyymm, end_yyyymm) with
    | Some df => (c, [], Ok df)
    | None =>
        match Viz.batch_fetch service float_of_string cls_ids start_yyyymm end_yyyymm tbl c with
        | (_, log, Ok df) => ((start_yyyymm, end_yyyymm, df) :: c, log, Ok df)
        | (_, log, Raise e) => (c, log, Raise e)
        end
    end.
Proof.
  unfold Viz.cached_fetch, Run.bind at 1, Run.get_state.
  destruct (Viz.cached c _) as [df|]; [done|]. simpl.
  destruct (batch_fetch_run service float_of_string cls_ids start_yyyymm end_yyyymm tbl c)
    as [r Hr].
  unfold Run.bind. rewrite Hr. destruct r as [df|e]; [|done].
  unfold Run.put_state, Run.ret. simpl. by rewrite !app_nil_r.
Qed.

(** X1. [cached_fetch] keeps what it has fetched: after a call that
    returned a frame, the same call returns that frame again without a
    request and without touching the cache; a call that raised has stored
    nothing; and no call replaces a frame that was cached before it. *)
Theorem cached_fetch_reuses (service : string → Z → Viz.reply)
    (float_of_string : string → option float) (cls_ids : list string)
    (start_yyyymm end_yyyymm : Z) (tbl : dict (option string)) (c c' : Viz.cache)
    (log : list Viz.event) (r : result (list Viz.row)) :
  Viz.cached_fetch service float_of_string cls_ids start_yyyymm end_yyyymm tbl c = (c', log, r) →
  match r with
  | Ok df =>
      Viz.cached_fetch service float_of_string cls_ids start_yyyymm end_yyyymm tbl c'
      = (c', [], Ok df)
  | Raise _ => c' = c
  end
  ∧ ∀ k df0, Viz.cached c k = Some df0 → Viz.cached c' k = Some df0.
Proof.
  rewrite cached_fetch_run.
  destruct (Viz.cached c (start_yyyymm, end_yyyymm)) as [df|] eqn:Hc.
  - intros [= <- <- <-]. split; [|done]. by rewrite cached_fetch_run, Hc.
  - destruct (Viz.batch_fetch _ _ _ _ _ _ _) as [[c1 log1] [df|e]]; intros [= <- <- <-].
    + split; [by rewrite cached_fetch_run, cached_insert|].
      intros k df0 Hk. simpl.
      destruct ((start_yyyymm =? k.1) && (end_yyyymm =? k.2)) eqn:Hkey; [|done].
      apply andb_true_iff in Hkey as [H1%Z.eqb_eq H2%Z.eqb_eq].
      destruct k as [k1 k2]. simpl in *. subst. congruence.
    + done.
Qed.

Lemma cached_fetch_reuses_witness :
  Viz.cached_fetch two_regions no_float ["11"] jan22 feb22 two_names
    [(jan22, feb22, seoul_rows)]
  = ([(jan22, feb22, seoul_rows)], [], Ok seoul_rows)
  ∧ Viz.cached [(jan22, feb22, seoul_rows)] (jan22, feb22) = Some seoul_rows.
Proof.
  destruct (cached_fetch_reuses two_regions no_float ["11"] jan22 feb22 two_names []
              [(jan22, feb22, seoul_rows)]
              [Viz.HttpGet "11" jan22; Viz.HttpGet "11" feb22] (Ok seoul_rows))
    as [Hagain _].
  - vm_compute. reflexivity.
  - split; [exact Hagain | reflexivity].
Defined.

(** ** The requests of a run *)

Section offline.
Context {A B : Type}.

Lemma offline_ret (a : A) : offline (Run.ret a).
Proof. by intros c. Qed.

Lemma offline_lift (r : result A) : offline (Run.lift r).
Proof. by intros c. Qed.

Lemma offline_emit (ev : Viz.event) : is_request ev = false → offline (Run.emit ev).
Proof. intros Hev c. unfold Run.emit, log_of, state_of. simpl. by rewrite Hev. Qed.

Lemma offline_bind (m : Viz.script A) (f : A → Viz.script B) :
  offline m → (∀ a, offline (f a)) → offline (Run.bind m f).
Proof.
  intros Hm Hf c. unfold Run.bind. specialize (Hm c).
  destruct (m c) as [[s1 log1] [a|e]]; unfold log_of, state_of in *; simpl in *;
    destruct Hm as [-> Hlog]; [|done].
  specialize (Hf a c). destruct (f a c) as [[s2 log2] r].
  unfold log_of, state_of in *. simpl in *.
  destruct Hf as [Hs2 Hlog2]. split; [done|].
  by rewrite List.filter_app, Hlog, Hlog2.
Qed.

End offline.

Create HintDb offline.
#[local] Hint Resolve offline_ret offline_lift offline_emit offline_bind : offline.

Lemma calc_change_offline (df : list Viz.row) (start_date end_date : Z) :
  offline (Viz.calc_change df start_date end_date).
Proof. unfold Viz.calc_change. repeat (apply offline_bind; [|intros]); auto with offline. Qed.

Lemma plot_offline (merged_gdf : list Viz.merged) (clicked : option string) :
  offline (Viz.plot_colormap_with_geojson merged_gdf clicked).
Proof.
  unfold Viz.plot_colormap_with_geojson.
  repeat (apply offline_bind; [|intros]); auto with offline.
Qed.

Lemma drill_down_offline (df : list Viz.row) (tbl : dict (option string))
    (clicked_name : option string) :
  offline (Viz.drill_down df tbl clicked_name).
Proof.
  unfold Viz.drill_down. destruct clicked_name as [name|]; [|auto with offline].
  destruct (negb (String.eqb name "")); [|auto with offline].
  apply offline_bind; [auto with offline|]. intros [code|]; [|auto with offline].
  destruct (truthy code); [|auto with offline].
  destruct (Viz.sort_by_date _); [auto with offline|].
  apply offline_bind; intros; auto with offline.
Qed.

Lemma requests_before_offline {A B} (m : Viz.script A) (f : A → Viz.script B)
    (c : Viz.cache) :
  (∀ a, offline (f a)) →
  List.filter is_request (log_of (Run.bind m f c)) = List.filter is_request (log_of (m c)).
Proof.
  intros Hf. unfold Run.bind. destruct (m c) as [[s1 log1] [a|e]]; [|done].
  destruct (Hf a s1) as [_ Hlog]. destruct (f a s1) as [[s2 log2] r].
  unfold log_of in *. simpl in *. by rewrite List.filter_app, Hlog, app_nil_r.
Qed.

Lemma requests_are_requests (ts : list (string * Z)) :
  List.filter is_request (map (fun t => Viz.HttpGet t.1 t.2) ts)
  = map (fun t => Viz.HttpGet t.1 t.2) ts.
Proof. induction ts as [|t ts IH]; simpl; [done|]. by rewrite IH. Qed.

(** X2. The requests of a run of the script are those of the fetch and
    no others: none at all when the months from the start month to the
    current month are cached, one per region and month otherwise. The end
    date, the geometry and the clicked region have no part in it. *)
Theorem main_requests (service : string → Z → Viz.reply)
    (float_of_string : string → option float) (cls_ids : list string)
    (tbl : dict (option string)) (geo_df : list Viz.feature)
    (start_date_input end_date_input : Viz.picked) (latest_yyyymm : Z)
    (clicked : option string) (c : Viz.cache) :
  List.filter is_request
    (log_of (Viz.main service float_of_string cls_ids tbl geo_df start_date_input
               end_date_input latest_yyyymm clicked c))
  = match Viz.cached c (Viz.yyyymm_of start_date_input, latest_yyyymm) with
    | Some _ => []
    | None =>
        map (fun t => Viz.HttpGet t.1 t.2)
          (Viz.tasks cls_ids
             (Pandas.period_range (Viz.yyyymm_of start_date_input) latest_yyyymm))
    end.
Proof.
  unfold Viz.main. rewrite requests_before_offline.
  - rewrite cached_fetch_run. destruct (Viz.cached c _) as [df|]; [done|].
    destruct (batch_fetch_run service float_of_string cls_ids
                (Viz.yyyymm_of start_date_input) latest_yyyymm tbl c) as [r Hr].
    rewrite Hr. destruct r; apply requests_are_requests.
  - intros [|r df]; [auto with offline|].
    repeat (apply offline_bind; [|intros]);
      auto using calc_change_offline, plot_offline, drill_down_offline with offline.
Qed.

(** ** What is requested and what comes back *)

Lemma omap_none {A B} (f : A → option B) (l : list A) :
  (∀ x, x ∈ l → f x = None) → omap f l = [].
Proof.
  induction l as [|x l IH]; simpl; [done|]. intros Hall.
  rewrite (Hall x) by left. apply IH. intros y Hy. apply Hall. by right.
Qed.

(** X3. When every fetch of a run fails (or there is nothing to
    fetch, the start month lying after the current month), the script shows
    the error that there is no data after the requests and ends without an
    exception; the empty frame is cached under the two months. *)
Theorem outage_shows_no_data (service : string → Z → Viz.reply)
    (float_of_string : string → option float) (cls_ids : list string)
    (tbl : dict (option string)) (geo_df : list Viz.feature)
    (start_date_input end_date_input : Viz.picked) (latest_yyyymm : Z)
    (clicked : option string) (c : Viz.cache) :
  Viz.cached c (Viz.yyyymm_of start_date_input, latest_yyyymm) = None →
  (∀ cls_id yyyymm,
     cls_id ∈ cls_ids → Viz.yyyymm_of start_date_input ≤ yyyymm ≤ latest_yyyymm →
     fetch_fails float_of_string (service cls_id yyyymm)) →
  Viz.main service float_of_string cls_ids tbl geo_df start_date_input end_date_input
    latest_yyyymm clicked c
  = ((Viz.yyyymm_of start_date_input, latest_yyyymm, []) :: c,
     map (fun t => Viz.HttpGet t.1 t.2)
       (Viz.tasks cls_ids (Pandas.period_range (Viz.yyyymm_of start_date_input) latest_yyyymm))
     ++ [Viz.StError "❌ 데이터 없음"],
     Ok tt).
Proof.
  intros Hmiss Hfail. unfold Viz.main, Run.bind at 1.
  rewrite cached_fetch_run, Hmiss. unfold Viz.batch_fetch, Run.bind at 1.
  rewrite collect_run, omap_none.
  - unfold Run.ret, Run.put_state, Run.bind, Run.emit. simpl. by rewrite !app_nil_r.
  - intros t [Hcid Hy]%elem_of_tasks. unfold fetched.
  apply failed_fetch_none, Hfail; [done|].
  unfold Pandas.period_range in Hy. apply elem_of_seqZ in Hy. lia.
Qed.

Lemma outage_shows_no_data_witness :
  Viz.main outage no_float ["11"; "26"] two_names [jung_gu]
    {| Viz.yyyymm_of := jan22; Viz.day_of := 1 |}
    {| Viz.yyyymm_of := feb22; Viz.day_of := 1 |} feb22 None []
  = ([(jan22, feb22, [])],
     [Viz.HttpGet "11" jan22; Viz.HttpGet "26" jan22;
      Viz.HttpGet "11" feb22; Viz.HttpGet "26" feb22;
      Viz.StError "❌ 데이터 없음"],
     Ok tt).
Proof.
  apply (outage_shows_no_data outage no_float ["11"; "26"] two_names [jung_gu]
           {| Viz.yyyymm_of := jan22; Viz.day_of := 1 |}
           {| Viz.yyyymm_of := feb22; Viz.day_of := 1 |} feb22 None []).
  - reflexivity.
  - intros cls_id yyyymm _ _. apply request_raises.
Defined.

(** X4. [batch_fetch] sends one request per region code and month
    of the range, month by month in the order of the codes: the number of
    codes times the number of months in all, none when the range is empty,
    and no pair twice when the codes are pairwise different. It leaves the
    cache alone. *)
Theorem batch_fetch_requests (service : string → Z → Viz.reply)
    (float_of_string : string → option float) (cls_ids : list string)
    (start_yyyymm end_yyyymm : Z) (tbl : dict (option string)) (c : Viz.cache) :
  log_of (Viz.batch_fetch service float_of_string cls_ids start_yyyymm end_yyyymm tbl c)
  = map (fun t => Viz.HttpGet t.1 t.2)
      (Viz.tasks cls_ids (Pandas.period_range start_yyyymm end_yyyymm))
  ∧ length
      (log_of (Viz.batch_fetch service float_of_string cls_ids start_yyyymm end_yyyymm tbl c))
    = (length cls_ids * Z.to_nat (end_yyyymm - start_yyyymm + 1))%nat
  ∧ (NoDup cls_ids →
     NoDup
       (log_of (Viz.batch_fetch service float_of_string cls_ids start_yyyymm end_yyyymm tbl c)))
  ∧ state_of (Viz.batch_fetch service float_of_string cls_ids start_yyyymm end_yyyymm tbl c)
    = c.
Proof.
  destruct (batch_fetch_run service float_of_string cls_ids start_yyyymm end_yyyymm tbl c)
    as [r ->].
  unfold log_of, state_of. simpl. split; [done|]. split; [|split; [|done]].
  - rewrite length_map. unfold Viz.tasks, Pandas.period_range.
    generalize (length_seqZ start_yyyymm (end_yyyymm - start_yyyymm + 1)).
    generalize (seqZ start_yyyymm (end_yyyymm - start_yyyymm + 1)).
    intros periods <-. induction periods as [|y periods IH]; simpl; [lia|].
    rewrite length_app, length_map, IH. lia.
  - intros Hids. apply NoDup_fmap_2; [by intros [a1 b1] [a2 b2] [= -> ->]|].
    unfold Viz.tasks, Pandas.period_range.
    apply (NoDup_bind (fun y => map (fun cid => (cid, y)) cls_ids)).
    + intros y1 y2 t _ _ Ht1 Ht2.
      apply list_elem_of_fmap in Ht1 as (? & -> & _).
      by apply list_elem_of_fmap in Ht2 as (? & [= _ ->] & _).
    + intros y _. apply NoDup_fmap_2; [by intros ?? [= ->]|done].
    + apply NoDup_seqZ.
Qed.

Lemma two_codes_NoDup : NoDup ["11"; "26"].
Proof.
  apply NoDup_cons. split; [|apply NoDup_singleton].
  by intros [=]%list_elem_of_singleton.
Qed.

Lemma batch_fetch_requests_witness :
  NoDup (log_of (Viz.batch_fetch two_regions no_float ["11"; "26"] jan22 feb22 two_names [])).
Proof.
  apply (batch_fetch_requests two_regions no_float ["11"; "26"] jan22 feb22 two_names []).
  exact two_codes_NoDup.
Defined.

(** X5. [fetch_index] returns a record exactly for a reply that
    carries an observation: status 200 and a JSON object whose
    "SttsApiTblData" list has an object in second place, whose "row" list
    starts with an object that has a "CLS_ID" and a "DTA_VAL" that [float]
    reads. The record then has that CLS_ID as it stands, that value, and
    the first day of the month asked for. For every other reply it returns
    [None]. *)
Theorem fetch_index_record_iff (float_of_string : string → option float) (yyyymm : Z)
    (resp : Viz.reply) (r : Viz.record) :
  Viz.parse_reply float_of_string yyyymm resp = Some r
  ↔ ∃ cls x,
      carries float_of_string resp cls x
      ∧ r = {| Viz.rec_date := Pandas.month_start yyyymm;
               Viz.rec_cls_id := cls;
               Viz.rec_index := x |}.
Proof.
  split; [apply record_carried|].
  intros (cls & x & Hcarries & ->). by apply carries_record.
Qed.

Lemma fetch_index_record_iff_witness :
  ∃ cls x,
    carries no_float (two_regions "11" feb22) cls x
    ∧ {| Viz.rec_date := Pandas.month_start feb22;
         Viz.rec_cls_id := JStr "11";
         Viz.rec_index := 110 |}
      = {| Viz.rec_date := Pandas.month_start feb22;
           Viz.rec_cls_id := cls;
           Viz.rec_index := x |}.
Proof.
  apply (fetch_index_record_iff no_float feb22 (two_regions "11" feb22)). reflexivity.
Defined.

Lemma length_omap_le {A B} (f : A → option B) (l : list A) :
  (length (omap f l) ≤ length l)%nat.
Proof.
  induction l as [|a l IH]; simpl; [done|].
  destruct (f a); simpl; fold (omap f l); lia.
Qed.

Lemma length_tasks (cls_ids : list string) (periods : list Z) :
  length (Viz.tasks cls_ids periods) = (length cls_ids * length periods)%nat.
Proof.
  unfold Viz.tasks. induction periods as [|y periods IH]; simpl; [lia|].
  rewrite length_app, length_map, IH. lia.
Qed.

(** X6. Every row of the frame of [batch_fetch] is dated the first
    day of a month of the requested range, and the frame has at most one row
    per request. *)
Theorem batch_fetch_dates (service : string → Z → Viz.reply)
    (float_of_string : string → option float) (cls_ids : list string)
    (start_yyyymm end_yyyymm : Z) (tbl : dict (option string)) (c : Viz.cache)
    (df : list Viz.row) :
  value_of (Viz.batch_fetch service float_of_string cls_ids start_yyyymm end_yyyymm tbl c)
  = Ok df →
  Forall (fun r => ∃ yyyymm, start_yyyymm ≤ yyyymm ≤ end_yyyymm
                             ∧ Viz.date r = Pandas.month_start yyyymm) df
  ∧ (length df ≤ length cls_ids * Z.to_nat (end_yyyymm - start_yyyymm + 1))%nat.
Proof.
  intros ->%batch_fetch_rows. split.
  - apply Forall_forall. intros r (rec & Hrec & Hnamed)%list_elem_of_omap.
    apply list_elem_of_omap in Hrec as (t & Ht & Hfetched).
    apply named_fields in Hnamed as (-> & _). apply fetched_date in Hfetched as ->.
    apply elem_of_tasks in Ht as [_ Hy]. unfold Pandas.period_range in Hy.
    apply elem_of_seqZ in Hy. exists t.2. split; [lia | done].
  - etrans; [apply length_omap_le|]. etrans; [apply length_omap_le|].
    rewrite length_tasks. unfold Pandas.period_range. by rewrite length_seqZ.
Qed.

Lemma batch_fetch_dates_witness :
  Forall (fun r => ∃ yyyymm, jan22 ≤ yyyymm ≤ feb22
                             ∧ Viz.date r = Pandas.month_start yyyymm) frame_with_gap
  ∧ (length frame_with_gap ≤ length ["11"; "26"] * Z.to_nat (feb22 - jan22 + 1))%nat.
Proof.
  apply (batch_fetch_dates two_regions no_float ["11"; "26"] jan22 feb22 two_names []).
  vm_compute. reflexivity.
Defined.

(** ** The change from a value to itself, on binary64 *)

(** [(a - a) / a * 100] on binary64 is a zero when [a] is finite and not
    zero, and NaN otherwise. *)
Lemma same_value_change (a : float) :
  ((a - a) / a * 100)%float = 0%float
  ∨ ((a - a) / a * 100)%float = (-0)%float
  ∨ ((a - a) / a * 100)%float = nan.
Proof.
  rewrite <- (SF2Prim_Prim2SF ((a - a) / a * 100)%float).
  rewrite mul_spec, div_spec, sub_spec.
  change (Prim2SF 100) with (S754_finite false 7036874417766400 (-46)).
  destruct (Prim2SF a) as [s|s| |s m e].
  - right. right. by destruct s.
  - right. right. by destruct s.
  - right. by right.
  - unfold SF64sub, SFsub. cbv zeta. rewrite cond_Zopp_cancel.
    unfold binary_normalize, SF64div, SFdiv, SF64mul, SFmul.
    destruct s; [right; left | left]; reflexivity.
Qed.

Lemma rate_of_same (a : float) : zero_or_nan (Main.rate a a).
Proof.
  unfold Main.rate, Numpy.nonzero, zero_or_nan.
  destruct (PrimFloat.eqb a 0); simpl; [left; reflexivity|].
  destruct (same_value_change a) as [-> | [-> | ->]];
    [left | left | right]; reflexivity.
Qed.

Lemma round2_of_same (a : float) :
  zero_or_nan (Numpy.round2 ((a - a) / a * 100)%float).
Proof.
  unfold zero_or_nan.
  destruct (same_value_change a) as [-> | [-> | ->]];
    [left | left | right]; vm_compute; reflexivity.
Qed.

(** ** The selected dates and the rows of the result *)

(** X7. The date [Viz.calc_change] selects for a target is a date of
    the series: the target itself when the series has it, the earliest date
    when the target lies before the whole series, the latest when it lies
    after. *)
Theorem nearest_of_a_date (target d : Z) (df : list Viz.row) :
  Viz.nearest target df = Ok d →
  d ∈ map Viz.date df
  ∧ (target ∈ map Viz.date df → d = target)
  ∧ ((∀ x, x ∈ map Viz.date df → target ≤ x) → ∀ x, x ∈ map Viz.date df → d ≤ x)
  ∧ ((∀ x, x ∈ map Viz.date df → x ≤ target) → ∀ x, x ∈ map Viz.date df → x ≤ d).
Proof.
  intros (before & after & Hdates & Hbefore & Hafter)%nearest_first_nearest.
  rewrite Hdates. rewrite Forall_forall in Hbefore, Hafter.
  assert (∀ x, x ∈ before ++ d :: after → Z.abs (d - target) ≤ Z.abs (x - target)) as Hmin.
  { intros x [Hx|[->|Hx]%elem_of_cons]%elem_of_app.
    - apply Hbefore in Hx. lia.
    - lia.
    - by apply Hafter. }
  split; [|split; [|split]].
  - apply elem_of_app. right. by left.
  - intros Hin. apply Hmin in Hin. lia.
  - intros Hlo x Hx. pose proof (Hmin x Hx). pose proof (Hlo x Hx).
    assert (target ≤ d) by (apply Hlo, elem_of_app; right; by left). lia.
  - intros Hhi x Hx. pose proof (Hmin x Hx). pose proof (Hhi x Hx).
    assert (d ≤ target) by (apply Hhi, elem_of_app; right; by left). lia.
Qed.

Lemma nearest_of_a_date_witness :
  Pandas.month_start jan22 ∈ map Viz.date frame_with_gap
  ∧ Viz.nearest (Pandas.month_start jan22 - 40) frame_with_gap = Ok (Pandas.month_start jan22).
Proof.
  assert (Viz.nearest (Pandas.month_start jan22 - 40) frame_with_gap
          = Ok (Pandas.month_start jan22)) as Hn by (vm_compute; reflexivity).
  destruct (nearest_of_a_date _ _ _ Hn) as [Hin _]. by split.
Defined.

Lemma eq_string_code (code : string) (j : json) :
  Pandas.eq j (JStr code) = true ↔ j = JStr code.
Proof.
  destruct j; simpl; try (split; [done|by intros [=]]).
  rewrite String.eqb_eq. split; [by intros -> | by intros [= ->]].
Qed.

Lemma first_occurrences_subset (col : list json) (x : json) :
  x ∈ Pandas.first_occurrences col → x ∈ col.
Proof.
  induction col as [|y col IH]; simpl; [done|].
  intros [->|Hx]%elem_of_cons; [by left|]. right. apply IH.
  apply list_elem_of_In in Hx. apply filter_In in Hx as [Hx _]. by apply list_elem_of_In.
Qed.

Lemma first_occurrences_string (col : list json) (code : string) :
  JStr code ∈ col → JStr code ∈ Pandas.first_occurrences col.
Proof.
  induction col as [|y col IH]; simpl; [done|].
  intros [<-|Hx]%elem_of_cons; [by left|].
  destruct (same_key y (JStr code)) eqn:Hsame.
  - destruct y; simpl in Hsame; try done. apply String.eqb_eq in Hsame as ->. by left.
  - right. apply list_elem_of_In, filter_In. rewrite <- list_elem_of_In.
    split; [by apply IH | by rewrite Hsame].
Qed.

Lemma first_occurrences_nil (col : list json) : Pandas.first_occurrences col = [] → col = [].
Proof. by destruct col. Qed.

Lemma of_region_nil (cls : json) (df : list Viz.row) :
  Viz.of_region cls df = [] ↔ ∀ r, r ∈ df → Pandas.eq (Viz.CLS_ID r) cls = false.
Proof.
  unfold Viz.of_region. induction df as [|r df IH]; simpl.
  - split; [intros _ r Hr; by apply elem_of_nil in Hr | done].
  - destruct (Pandas.eq (Viz.CLS_ID r) cls) eqn:Heq.
    + split; [done|]. intros Hall. specialize (Hall r). rewrite Heq in Hall.
      by discriminate Hall; left.
    + rewrite IH. split.
      * intros Hall r' [->|Hr']%elem_of_cons; [done | by apply Hall].
      * intros Hall r' Hr'. apply Hall. by right.
Qed.

Lemma change_of_ok (df_s df_e : list Viz.row) (cls : json) :
  Viz.of_region cls df_s ≠ [] → Viz.of_region cls df_e ≠ [] →
  ∃ ch, Viz.change_of df_s df_e cls = Ok ch.
Proof.
  unfold Viz.change_of. intros Hs He.
  destruct (Viz.of_region cls df_s) as [|r1 ?]; [done|].
  destruct (Viz.of_region cls df_e) as [|r2 ?]; [done|]. simpl. eauto.
Qed.

Lemma change_of_start_row (df_s df_e : list Viz.row) (cls : json) (ch : Viz.change) :
  Viz.change_of df_s df_e cls = Ok ch →
  Viz.region_code ch = cls
  ∧ ∃ r rest, Viz.of_region cls df_s = r :: rest ∧ Viz.region_name ch = Viz.CLS_NM r.
Proof.
  unfold Viz.change_of.
  destruct (Viz.of_region cls df_s) as [|r1 rest]; [done|].
  destruct (Viz.of_region cls df_e) as [|r2 ?]; [done|]. simpl.
  intros [= <-]. simpl. eauto.
Qed.

(** Whether the loop of [calc_change] comes through. *)
Lemma changes_cases (df_s df_e : list Viz.row) (codes : list json) :
  match Viz.changes df_s df_e codes with
  | Ok out =>
      map Viz.region_code out = codes
      ∧ Forall (fun cls => Viz.of_region cls df_s ≠ [] ∧ Viz.of_region cls df_e ≠ []) codes
  | Raise e =>
      e = IndexError
      ∧ Exists (fun cls => Viz.of_region cls df_s = [] ∨ Viz.of_region cls df_e = []) codes
  end.
Proof.
  induction codes as [|cls codes IH]; simpl; [done|].
  destruct (Viz.change_of df_s df_e cls) as [ch|e] eqn:Hch.
  - assert (Viz.of_region cls df_s ≠ [] ∧ Viz.of_region cls df_e ≠ []) as Hrows.
    { apply change_of_fields in Hch as (a & b & Ha & Hb & _).
      split; intros Hnil; [by rewrite Hnil in Ha | by rewrite Hnil in Hb]. }
    apply change_of_start_row in Hch as [Hcode _].
    destruct (Viz.changes df_s df_e codes) as [out|e].
    + destruct IH as [IH1 IH2]. simpl. split; [by f_equal | by constructor].
    + destruct IH as [-> IH]. split; [done | by apply Exists_cons_tl].
  - split; [by apply change_of_raises in Hch|]. apply Exists_cons_hd.
    destruct (Viz.of_region cls df_s) as [|r1 ?] eqn:Hs; [by left|].
    destruct (Viz.of_region cls df_e) as [|r2 ?] eqn:He; [by right|].
    destruct (change_of_ok df_s df_e cls) as [ch Hok]; [by rewrite Hs | by rewrite He|].
    by rewrite Hok in Hch.
Qed.

Lemma changes_start_rows (df_s df_e : list Viz.row) (codes : list json)
    (out : list Viz.change) :
  Viz.changes df_s df_e codes = Ok out →
  Forall (fun ch => ∃ r, r ∈ df_s ∧ Pandas.eq (Viz.CLS_ID r) (Viz.region_code ch) = true
                         ∧ Viz.region_name ch = Viz.CLS_NM r) out.
Proof.
  revert out. induction codes as [|cls codes IH]; simpl; intros out.
  - intros [= <-]. constructor.
  - destruct (Viz.change_of df_s df_e cls) as [ch|] eqn:Hch; [|done].
    destruct (Viz.changes df_s df_e codes) as [rest|]; [|done].
    intros [= <-]. constructor; [|by apply IH].
    apply change_of_start_row in Hch as (Hcode & r & rest' & Hrows & Hname).
    exists r. rewrite Hcode.
    assert (In r (Viz.of_region cls df_s)) as Hin by (rewrite Hrows; by left).
    apply filter_In in Hin as [Hin Heq]. by rewrite list_elem_of_In.
Qed.

Lemma calc_change_value (df : list Viz.row) (start_date end_date s e : Z) (c : Viz.cache) :
  Viz.nearest start_date df = Ok s → Viz.nearest end_date df = Ok e →
  value_of (Viz.calc_change df start_date end_date c)
  = match Pandas.unique (map Viz.CLS_ID (List.filter (fun r => Viz.date r =? s) df)) with
    | Ok codes =>
        Viz.changes (List.filter (fun r => Viz.date r =? s) df)
          (List.filter (fun r => Viz.date r =? e) df) codes
    | Raise exn => Raise exn
    end.
Proof.
  intros Hs He. unfold Viz.calc_change, Run.bind, Run.lift, Run.emit. rewrite Hs, He. simpl.
  destruct (Pandas.unique _) as [codes|]; simpl; [|done].
  by destruct (Viz.changes _ _ codes).
Qed.

Lemma calc_change_selects (df : list Viz.row) (start_date end_date : Z) (c : Viz.cache)
    (out : list Viz.change) :
  value_of (Viz.calc_change df start_date end_date c) = Ok out →
  ∃ s e, Viz.nearest start_date df = Ok s ∧ Viz.nearest end_date df = Ok e.
Proof.
  unfold Viz.calc_change, Run.bind, Run.lift.
  destruct (Viz.nearest start_date df) as [s|]; [|done].
  destruct (Viz.nearest end_date df) as [e|]; [|done]. eauto.
Qed.

Lemma nearest_is_a_date (target d : Z) (df : list Viz.row) :
  Viz.nearest target df = Ok d → ∃ r, r ∈ df ∧ Viz.date r = d.
Proof.
  intros (before & after & Hdates & _)%nearest_first_nearest.
  assert (d ∈ map Viz.date df) as Hin by (rewrite Hdates, elem_of_app; right; by left).
  apply list_elem_of_fmap in Hin as (r & -> & Hr). eauto.
Qed.

Lemma calc_change_codes (df : list Viz.row) (start_date end_date s : Z) (c : Viz.cache)
    (out : list Viz.change) :
  Viz.nearest start_date df = Ok s →
  value_of (Viz.calc_change df start_date end_date c) = Ok out →
  map Viz.region_code out
  = Pandas.first_occurrences (map Viz.CLS_ID (List.filter (fun r => Viz.date r =? s) df)).
Proof.
  intros Hs Hout. destruct (calc_change_selects _ _ _ _ _ Hout) as (s' & e & Hs' & He).
  rewrite Hs in Hs'. injection Hs' as <-.
  rewrite (calc_change_value _ _ _ s e) in Hout by done.
  unfold Pandas.unique in Hout. destruct (forallb hashable _); [|done].
  pose proof (changes_cases (List.filter (fun r => Viz.date r =? s) df)
                (List.filter (fun r => Viz.date r =? e) df)
                (Pandas.first_occurrences
                   (map Viz.CLS_ID (List.filter (fun r => Viz.date r =? s) df)))) as Hcases.
  rewrite Hout in Hcases. by destruct Hcases as [Hcodes _].
Qed.

(** What [calc_change] returns is never an empty frame. *)
Lemma calc_change_nonempty (df : list Viz.row) (start_date end_date : Z) (c : Viz.cache)
    (out : list Viz.change) :
  value_of (Viz.calc_change df start_date end_date c) = Ok out → out ≠ [].
Proof.
  intros Hout. destruct (calc_change_selects _ _ _ _ _ Hout) as (s & e & Hs & He).
  pose proof (calc_change_codes _ _ _ s _ _ Hs Hout) as Hcodes.
  intros ->. simpl in Hcodes. symmetry in Hcodes.
  apply first_occurrences_nil, map_eq_nil in Hcodes.
  apply nearest_is_a_date in Hs as (r & Hr & Hdate).
  assert (In r (List.filter (fun r => Viz.date r =? s) df)) as Hfl.
  { apply filter_In. rewrite <- list_elem_of_In. split; [done|]. lia. }
  by rewrite Hcodes in Hfl.
Qed.

(** X8. A frame returned by [Viz.calc_change] has one row per
    distinct region code of the selected start date, in the order of first
    appearance, each with the name of a row of that region and date. It is
    never empty, so [merge_geo_data] does not fail on it. *)
Theorem calc_change_rows (df : list Viz.row) (start_date end_date : Z) (c : Viz.cache)
    (out : list Viz.change) :
  value_of (Viz.calc_change df start_date end_date c) = Ok out →
  ∃ s,
    Viz.nearest start_date df = Ok s
    ∧ map Viz.region_code out
      = Pandas.first_occurrences
          (map Viz.CLS_ID (List.filter (fun r => Viz.date r =? s) df))
    ∧ Forall (fun ch => ∃ r, r ∈ df ∧ Viz.date r = s
                             ∧ Pandas.eq (Viz.CLS_ID r) (Viz.region_code ch) = true
                             ∧ Viz.region_name ch = Viz.CLS_NM r) out
    ∧ out ≠ []
    ∧ ∀ geo_df, ∃ merged_gdf, Viz.merge_geo_data geo_df out = Ok merged_gdf.
Proof.
  intros Hout. destruct (calc_change_selects _ _ _ _ _ Hout) as (s & e & Hs & He).
  exists s. split; [done|]. split; [by eapply calc_change_codes|].
  pose proof (calc_change_nonempty _ _ _ _ _ Hout) as Hne.
  rewrite (calc_change_value _ _ _ s e) in Hout by done.
  destruct (Pandas.unique _) as [codes|]; [|done].
  pose proof (changes_start_rows _ _ _ _ Hout) as Hrows.
  repeat split; [|done|].
  - eapply Forall_impl; [exact Hrows|]. simpl.
    intros ch (r & Hr & Heq & Hname). exists r.
    apply list_elem_of_In, filter_In in Hr as [Hr Hdate].
    rewrite <- list_elem_of_In in Hr. repeat split; [done|lia|done..].
  - intros geo_df. unfold Viz.merge_geo_data. destruct out; [done|]. eauto.
Qed.

Lemma unique_string_codes (df : list Viz.row) :
  string_codes df →
  Pandas.unique (map Viz.CLS_ID df) = Ok (Pandas.first_occurrences (map Viz.CLS_ID df)).
Proof.
  unfold string_codes, Pandas.unique. rewrite Forall_forall. intros Hstr.
  assert (forallb hashable (map Viz.CLS_ID df) = true) as ->; [|done].
  apply forallb_forall. intros cls Hcls. apply in_map_iff in Hcls as (r & <- & Hr).
  apply list_elem_of_In in Hr. by destruct (Hstr r Hr) as [code ->].
Qed.

(** A row with a string code is among the rows of its own region. *)
Lemma own_region_nonempty (df : list Viz.row) (r : Viz.row) :
  string_codes df → r ∈ df → Viz.of_region (Viz.CLS_ID r) df ≠ [].
Proof.
  unfold string_codes. rewrite Forall_forall. intros Hstr Hr Hnone.
  rewrite of_region_nil in Hnone. specialize (Hnone r Hr).
  destruct (Hstr r Hr) as [code Hcode]. rewrite Hcode in Hnone. simpl in Hnone.
  by rewrite String.eqb_refl in Hnone.
Qed.

(** With string codes [calc_change] fails in one way only. *)
Lemma calc_change_string_cases (df : list Viz.row) (start_date end_date s e : Z)
    (c : Viz.cache) :
  string_codes df →
  Viz.nearest start_date df = Ok s → Viz.nearest end_date df = Ok e →
  match value_of (Viz.calc_change df start_date end_date c) with
  | Ok _ =>
      ∀ r, r ∈ df → Viz.date r = s →
        ∃ r', r' ∈ df ∧ Viz.date r' = e ∧ Viz.CLS_ID r' = Viz.CLS_ID r
  | Raise exn =>
      exn = IndexError
      ∧ ∃ r, r ∈ df ∧ Viz.date r = s
             ∧ ∀ r', r' ∈ df → Viz.date r' = e → Viz.CLS_ID r' ≠ Viz.CLS_ID r
  end.
Proof.
  intros Hstr Hs He. rewrite (calc_change_value _ _ _ s e) by done.
  unfold string_codes in Hstr. rewrite Forall_forall in Hstr.
  set (df_s := List.filter (fun r => Viz.date r =? s) df).
  set (df_e := List.filter (fun r => Viz.date r =? e) df).
  assert (∀ r, r ∈ df_s ↔ r ∈ df ∧ Viz.date r = s) as Hdf_s.
  { intros r. unfold df_s. rewrite list_elem_of_In, filter_In, <- list_elem_of_In. 
    by rewrite Z.eqb_eq. }
  assert (∀ r, r ∈ df_e ↔ r ∈ df ∧ Viz.date r = e) as Hdf_e.
  { intros r. unfold df_e. rewrite list_elem_of_In, filter_In, <- list_elem_of_In. 
    by rewrite Z.eqb_eq. }
  unfold Pandas.unique.
  assert (forallb hashable (map Viz.CLS_ID df_s) = true) as ->.
  { apply forallb_forall. intros cls Hcls. apply in_map_iff in Hcls as (r & <- & Hr).
    apply list_elem_of_In, Hdf_s in Hr as [Hr _]. by destruct (Hstr r Hr) as [code ->]. }
  pose proof (changes_cases df_s df_e (Pandas.first_occurrences (map Viz.CLS_ID df_s)))
    as Hcases.
  destruct (Viz.changes df_s df_e _) as [out|exn].
  - destruct Hcases as [_ Hall]. rewrite Forall_forall in Hall.
    intros r Hr Hdate. destruct (Hstr r Hr) as [code Hcode].
    destruct (Hall (JStr code)) as [_ Hend].
    { apply first_occurrences_string. rewrite <- Hcode.
      apply list_elem_of_fmap. exists r. split; [done|]. by apply Hdf_s. }
    destruct (Viz.of_region (JStr code) df_e) as [|r' rest] eqn:Hrows; [done|].
    assert (In r' (Viz.of_region (JStr code) df_e)) as Hin by (rewrite Hrows; by left).
    apply filter_In in Hin as [Hin Heq]. apply eq_string_code in Heq.
    apply list_elem_of_In, Hdf_e in Hin as [Hin Hdate']. exists r'. by rewrite Hcode.
  - destruct Hcases as [-> Hex]. split; [done|].
    apply Exists_exists in Hex as (cls & Hcls & Hnone).
    apply first_occurrences_subset, list_elem_of_fmap in Hcls as (r & -> & Hr).
    pose proof Hr as [Hrdf Hdate]%Hdf_s. destruct (Hstr r Hrdf) as [code Hcode].
    exists r. split; [done|]. split; [done|].
    destruct Hnone as [Hnone|Hnone].
    + rewrite of_region_nil in Hnone. specialize (Hnone r Hr).
      rewrite Hcode in Hnone. simpl in Hnone. by rewrite String.eqb_refl in Hnone.
    + rewrite of_region_nil in Hnone. intros r' Hr' Hdate' Hsame.
      assert (r' ∈ df_e) as Hin by by apply Hdf_e.
      specialize (Hnone r' Hin). rewrite Hsame, Hcode in Hnone. simpl in Hnone.
      by rewrite String.eqb_refl in Hnone.
Qed.

(** X9. With string region codes, [Viz.calc_change] returns a
    frame exactly when every region observed on the selected start date is
    observed on the selected end date too; when it returns none, it has
    raised IndexError. *)
Theorem calc_change_succeeds_iff (df : list Viz.row) (start_date end_date s e : Z)
    (c : Viz.cache) :
  string_codes df →
  Viz.nearest start_date df = Ok s → Viz.nearest end_date df = Ok e →
  ((∃ out, value_of (Viz.calc_change df start_date end_date c) = Ok out)
   ↔ ∀ r, r ∈ df → Viz.date r = s →
       ∃ r', r' ∈ df ∧ Viz.date r' = e ∧ Viz.CLS_ID r' = Viz.CLS_ID r)
  ∧ ((∀ out, value_of (Viz.calc_change df start_date end_date c) ≠ Ok out)
     → value_of (Viz.calc_change df start_date end_date c) = Raise IndexError).
Proof.
  intros Hstr Hs He.
  pose proof (calc_change_string_cases df start_date end_date s e c Hstr Hs He) as Hcases.
  destruct (value_of (Viz.calc_change df start_date end_date c)) as [out|exn].
  - split; [|intros Hno; by destruct (Hno out)]. split; [done | eauto].
  - destruct Hcases as (-> & r & Hr & Hdate & Hnone). split; [|done].
    split; [by intros [out [=]]|]. intros Hall.
    destruct (Hall r Hr Hdate) as (r' & Hr' & Hdate' & Hsame).
    by destruct (Hnone r' Hr' Hdate').
Qed.

(** X10. When both targets select the same date, [Viz.calc_change]
    (string region codes) returns a frame, and every row of it has the same
    start and end index and a change that is zero, or NaN for a start index
    of 0, infinity or NaN. *)
Theorem calc_change_same_date (df : list Viz.row) (start_date end_date s : Z)
    (c : Viz.cache) :
  string_codes df →
  Viz.nearest start_date df = Ok s → Viz.nearest end_date df = Ok s →
  ∃ out,
    value_of (Viz.calc_change df start_date end_date c) = Ok out
    ∧ Forall (fun ch => Viz.start_index ch = Viz.end_index ch
                        ∧ zero_or_nan (Viz.change_pct ch)) out.
Proof.
  intros Hstr Hs He. rewrite (calc_change_value _ _ _ s s) by done.
  set (df_s := List.filter (fun r => Viz.date r =? s) df).
  assert (string_codes df_s) as Hstr_s.
  { unfold string_codes in *. rewrite Forall_forall in *. intros r Hr. apply Hstr.
    apply list_elem_of_In, filter_In in Hr as [Hr _]. by apply list_elem_of_In. }
  rewrite (unique_string_codes df_s) by done.
  pose proof (changes_cases df_s df_s (Pandas.first_occurrences (map Viz.CLS_ID df_s)))
    as Hcases.
  destruct (Viz.changes df_s df_s _) as [out|exn] eqn:Hch.
  - exists out. split; [done|]. clear Hcases. revert out Hch.
    induction (Pandas.first_occurrences _) as [|cls codes IH]; simpl; intros out.
    + intros [= <-]. constructor.
    + destruct (Viz.change_of _ _ cls) as [ch|] eqn:Hone; [|done].
      destruct (Viz.changes _ _ codes) as [rest|]; [|done].
      intros [= <-]. constructor; [|by apply IH].
      apply change_of_fields in Hone as (a & b & Ha & Hb & -> & -> & ->).
      rewrite Ha in Hb. injection Hb as <-. split; [done | apply round2_of_same].
  - destruct Hcases as [_ Hex]. apply Exists_exists in Hex as (cls & Hcls & Hnone).
    apply first_occurrences_subset, list_elem_of_fmap in Hcls as (r & -> & Hr).
    destruct (own_region_nonempty df_s r Hstr_s Hr). by destruct Hnone.
Qed.

Lemma frame_with_gap_string_codes : string_codes frame_with_gap.
Proof. repeat (constructor; [by eexists|]). constructor. Qed.

Lemma calc_change_rows_witness :
  ∃ s,
    Viz.nearest (Pandas.month_start jan22) frame_with_gap = Ok s
    ∧ [JStr "11"; JStr "26"]
      = Pandas.first_occurrences
          (map Viz.CLS_ID (List.filter (fun r => Viz.date r =? s) frame_with_gap)).
Proof.
  destruct (calc_change_rows frame_with_gap (Pandas.month_start jan22)
              (Pandas.month_start jan22) []
              [result_of "11" "서울" 100 100 0; result_of "26" "부산" 100 100 0])
    as (s & Hs & Hcodes & _).
  - vm_compute. reflexivity.
  - exists s. by split.
Defined.

Lemma calc_change_succeeds_iff_witness :
  value_of (Viz.calc_change frame_with_gap (Pandas.month_start jan22)
              (Pandas.month_start feb22) []) = Raise IndexError.
Proof.
  apply (calc_change_succeeds_iff frame_with_gap (Pandas.month_start jan22)
           (Pandas.month_start feb22) (Pandas.month_start jan22)
           (Pandas.month_start feb22) [] frame_with_gap_string_codes eq_refl eq_refl).
  intros out. vm_compute. discriminate.
Defined.

Lemma calc_change_same_date_witness :
  ∃ out,
    value_of (Viz.calc_change frame_with_gap (Pandas.month_start jan22)
                (Pandas.month_start jan22 + 3) []) = Ok out
    ∧ Forall (fun ch => Viz.start_index ch = Viz.end_index ch
                        ∧ zero_or_nan (Viz.change_pct ch)) out.
Proof.
  apply (calc_change_same_date frame_with_gap (Pandas.month_start jan22)
           (Pandas.month_start jan22 + 3) (Pandas.month_start jan22) []
           frame_with_gap_string_codes eq_refl eq_refl).
Defined.

(** ** The fills of the map *)

Lemma cmap_table_or_bad (x : float) : cmap x = Bad ∨ ∃ i, cmap x = Entry i.
Proof.
  unfold cmap. destruct (PrimFloat.is_nan _); [by left|]. right.
  destruct (PrimFloat.leb _ _); [eauto|]. destruct (PrimFloat.ltb _ _); eauto.
Qed.

Lemma fill_color_grey (lo hi : float) (m : Viz.merged) (col : color) :
  Viz.fill_color (Viz.create_colormap lo hi) m = Ok col →
  col = Hex "#8c8c8c" ↔ Viz.change_property m = None.
Proof.
  unfold Viz.fill_color, Viz.create_colormap.
  destruct (Viz.change_property m) as [v|]; [|by intros [= <-]].
  destruct (normalize lo hi v) as [x|]; [|done]. intros [= <-].
  split; [|done]. by destruct (cmap_table_or_bad x) as [->|[i ->]].
Qed.

Lemma fills_colors (lo hi : float) (ms : list Viz.merged) (drawn : list (string * color)) :
  Viz.fills (Viz.create_colormap lo hi) ms = Ok drawn →
  Forall2 (fun m fill => fill.1 = Viz.SIG_KOR_NM (Viz.feat m)
                         ∧ (fill.2 = Hex "#8c8c8c" ↔ Viz.change_property m = None))
    ms drawn.
Proof.
  revert drawn. induction ms as [|m ms IH]; simpl; intros drawn.
  - intros [= <-]. constructor.
  - destruct (Viz.fill_color _ m) as [col|] eqn:Hcol; [|done].
    destruct (Viz.fills _ ms) as [rest|]; [|done].
    intros [= <-]. constructor; [|by apply IH].
    split; [done|]. by apply (fill_color_grey lo hi).
Qed.

(** X11. When [plot_colormap_with_geojson] returns, it has drawn
    one fill per row of the merged frame under the feature's name, in order,
    and a fill is the grey [#8c8c8c] exactly when the row has no change
    value; the click is handed back as it came. *)
Theorem plot_colormap_with_geojson_fills (merged_gdf : list Viz.merged)
    (clicked clicked_name : option string) (c : Viz.cache) :
  value_of (Viz.plot_colormap_with_geojson merged_gdf clicked c) = Ok clicked_name →
  clicked_name = clicked
  ∧ ∃ drawn,
      Viz.plot_colormap_with_geojson merged_gdf clicked c
      = (c, [Viz.StFolium drawn], Ok clicked)
      ∧ Forall2 (fun m fill => fill.1 = Viz.SIG_KOR_NM (Viz.feat m)
                               ∧ (fill.2 = Hex "#8c8c8c" ↔ Viz.change_property m = None))
          merged_gdf drawn.
Proof.
  unfold Viz.plot_colormap_with_geojson, Run.bind, Run.lift, Run.emit, Run.ret, value_of.
  destruct (Viz.fills _ merged_gdf) as [drawn|] eqn:Hfills; simpl; [|done].
  intros [= <-]. split; [done|]. exists drawn. split; [done|].
  by apply fills_colors in Hfills.
Qed.

Lemma plot_colormap_with_geojson_fills_witness :
  ∃ drawn,
    Viz.plot_colormap_with_geojson gangnam_joined (Some "강남구") []
    = ([], [Viz.StFolium drawn], Ok (Some "강남구"))
    ∧ Forall2 (fun m fill => fill.1 = Viz.SIG_KOR_NM (Viz.feat m)
                             ∧ (fill.2 = Hex "#8c8c8c" ↔ Viz.change_property m = None))
        gangnam_joined drawn.
Proof.
  apply (plot_colormap_with_geojson_fills gangnam_joined (Some "강남구") (Some "강남구") []).
  vm_compute. reflexivity.
Defined.

(** ** The chart of a clicked region *)

Lemma insert_by_date_perm (r : Viz.row) (df : list Viz.row) :
  Viz.insert_by_date r df ≡ₚ r :: df.
Proof.
  induction df as [|r' df IH]; simpl; [done|].
  destruct (Viz.date r <=? Viz.date r'); [done|].
  rewrite IH. apply Permutation_swap.
Qed.

Lemma insert_by_date_sorted (r : Viz.row) (df : list Viz.row) :
  StronglySorted Z.le (map Viz.date df) →
  StronglySorted Z.le (map Viz.date (Viz.insert_by_date r df)).
Proof.
  induction df as [|r' df IH]; simpl; intros Hs; [repeat constructor|].
  apply StronglySorted_inv in Hs as [Hs Hall].
  destruct (Z.leb_spec (Viz.date r) (Viz.date r')) as [Hle|Hgt]; simpl.
  - constructor; [by constructor|]. constructor; [done|].
    eapply Forall_impl; [exact Hall|]. simpl. intros; lia.
  - constructor; [by apply IH|].
    assert (map Viz.date (Viz.insert_by_date r df) ≡ₚ Viz.date r :: map Viz.date df) as ->.
    { change (Viz.date r :: map Viz.date df) with (map Viz.date (r :: df)).
      apply Permutation_map, insert_by_date_perm. }
    constructor; [lia | done].
Qed.

Lemma sort_by_date_perm (df : list Viz.row) : Viz.sort_by_date df ≡ₚ df.
Proof.
  unfold Viz.sort_by_date. induction df as [|r df IH]; simpl; [done|].
  by rewrite insert_by_date_perm, IH.
Qed.

Lemma sort_by_date_sorted (df : list Viz.row) :
  StronglySorted Z.le (map Viz.date (Viz.sort_by_date df)).
Proof.
  unfold Viz.sort_by_date. induction df as [|r df IH]; simpl; [constructor|].
  by apply insert_by_date_sorted.
Qed.

(** X12. For a click that matches a region code, the drill-down shows
    either the warning that the region has no data, or the subheader and
    the chart; the chart holds exactly the rows of that region, in ascending
    order of date. *)
Theorem drill_down_chart (df_full : list Viz.row) (tbl : dict (option string))
    (name : string) (code : json) (c : Viz.cache) :
  name ≠ "" →
  Viz.matched_code tbl name = Ok (Some code) →
  truthy code = true →
  ∃ rows,
    rows ≡ₚ Viz.of_region code df_full
    ∧ StronglySorted Z.le (map Viz.date rows)
    ∧ Viz.drill_down df_full tbl (Some name) c
      = (c,
         match rows with
         | [] => [Viz.StWarning "❗ 해당 지역 데이터 없음"]
         | _ => [Viz.StSubheader ("📉 " +:+ name +:+ " 지수 추이"); Viz.StChart rows]
         end,
         Ok tt).
Proof.
  intros Hname Hcode Htruthy. exists (Viz.sort_by_date (Viz.of_region code df_full)).
  split; [apply sort_by_date_perm|]. split; [apply sort_by_date_sorted|].
  unfold Viz.drill_down. apply String.eqb_neq in Hname. rewrite Hname. simpl.
  unfold Run.bind, Run.lift. rewrite Hcode, Htruthy.
  by destruct (Viz.sort_by_date _).
Qed.

Lemma drill_down_chart_witness :
  ∃ rows,
    rows ≡ₚ Viz.of_region (JStr "11") frame_with_gap
    ∧ StronglySorted Z.le (map Viz.date rows)
    ∧ Viz.drill_down frame_with_gap two_names (Some "서울") []
      = ([],
         match rows with
         | [] => [Viz.StWarning "❗ 해당 지역 데이터 없음"]
         | _ => [Viz.StSubheader ("📉 " +:+ "서울" +:+ " 지수 추이"); Viz.StChart rows]
         end,
         Ok tt).
Proof.
  apply (drill_down_chart frame_with_gap two_names "서울" (JStr "11") []).
  - discriminate.
  - vm_compute. reflexivity.
  - reflexivity.
Defined.

(** ** [str.endswith] *)

Lemma substring_all (s : string) : String.substring 0 (String.length s) s = s.
Proof. induction s as [|ch s IH]; simpl; [done|]. by rewrite IH. Qed.

Lemma substring_append (p t : string) :
  String.substring (String.length p) (String.length t) (p +:+ t) = t.
Proof. induction p as [|ch p IH]; simpl; [apply substring_all | exact IH]. Qed.

Lemma length_append (p t : string) :
  String.length (p +:+ t) = (String.length p + String.length t)%nat.
Proof. induction p as [|ch p IH]; simpl; [done|]. by rewrite IH. Qed.

Lemma substring_split (s : string) (k : nat) :
  (k ≤ String.length s)%nat →
  s = String.substring 0 k s +:+ String.substring k (String.length s - k) s.
Proof.
  revert k. induction s as [|ch s IH]; intros k Hk; simpl in *.
  - by destruct k.
  - destruct k as [|k]; simpl.
    + by rewrite substring_all.
    + change (String ch s
              = String ch (String.substring 0 k s
                           +:+ String.substring k (String.length s - k) s)).
      f_equal. apply IH. lia.
Qed.

Lemma endswith_suffix (s suffix : string) :
  endswith s suffix = true ↔ ∃ p, s = p +:+ suffix.
Proof.
  unfold endswith. rewrite andb_true_iff, Nat.leb_le, String.eqb_eq. split.
  - intros [Hle Hsub].
    exists (String.substring 0 (String.length s - String.length suffix) s).
    rewrite <- Hsub at 2.
    rewrite (substring_split s (String.length s - String.length suffix)) at 1 by lia.
    do 3 f_equal. lia.
  - intros [p ->]. rewrite length_append. split; [lia|].
    replace (String.length p + String.length suffix - String.length suffix)%nat
      with (String.length p) by lia.
    apply substring_append.
Qed.

(** X13. The click loop ends in one of three ways: with the code of
    the first entry whose name has the stripped clicked name as a suffix,
    every entry before it having a name without that suffix; with no code,
    when every entry has a name and none has the suffix; with
    AttributeError at the first entry without a name, no entry before it
    having matched. *)
Theorem matched_code_outcome (items : dict (option string)) (clicked_name : string) :
  match Viz.matched_code items clicked_name with
  | Ok (Some code) =>
      ∃ before p after,
        items = before ++ (code, Some (p +:+ strip clicked_name)) :: after
        ∧ Forall (passed_over clicked_name) before
  | Ok None => Forall (passed_over clicked_name) items
  | Raise e =>
      e = AttributeError
      ∧ ∃ before code after,
          items = before ++ (code, None) :: after
          ∧ Forall (passed_over clicked_name) before
  end.
Proof.
  induction items as [|[code name] items IH]; simpl; [constructor|].
  destruct name as [nm|].
  - destruct (endswith nm (strip clicked_name)) eqn:Hends.
    + apply endswith_suffix in Hends as [p ->]. by exists [], p, items.
    + assert (passed_over clicked_name (code, Some nm)) as Hpass.
      { exists nm. split; [done|]. intros p ->.
        assert (endswith (p +:+ strip clicked_name) (strip clicked_name) = true) as Hyes
          by (apply endswith_suffix; eauto).
        congruence. }
      destruct (Viz.matched_code items clicked_name) as [[code'|]|e].
      * destruct IH as (before & p & after & -> & Hbefore).
        exists ((code, Some nm) :: before), p, after. split; [done | by constructor].
      * by constructor.
      * destruct IH as (-> & before & code' & after & -> & Hbefore). split; [done|].
        exists ((code, Some nm) :: before), code', after. split; [done | by constructor].
  - split; [done|]. by exists [], code, items.
Qed.

Lemma matched_code_outcome_witness :
  ∃ before p after,
    two_names = before ++ (JStr "26", Some (p +:+ strip " 부산 ")) :: after
    ∧ Forall (passed_over " 부산 ") before.
Proof. exact (matched_code_outcome two_names " 부산 "). Defined.

(** ** From the service to the changes *)

Lemma map_dict_hashable {V} (d : dict V) (col : list json) :
  Forall (fun k => hashable k = true) col → ∃ vs, Pandas.map_dict d col = Ok vs.
Proof.
  induction col as [|k col IH]; simpl; [eauto|].
  intros [Hk Hcol]%Forall_cons. rewrite Hk. destruct (IH Hcol) as [vs ->]. eauto.
Qed.

Section complete_data.
Variable service : string → Z → Viz.reply.
Variable float_of_string : string → option float.
Variable tbl : dict (option string).
Variable cls_ids : list string.
Variables lo hi : Z.
Hypothesis Hcomplete : complete service float_of_string tbl cls_ids lo hi.

Lemma complete_fetched (t : string * Z) (r : Viz.record) :
  t ∈ Viz.tasks cls_ids (Pandas.period_range lo hi) →
  fetched service float_of_string t = Some r →
  Viz.rec_date r = Pandas.month_start t.2 ∧ Viz.rec_cls_id r = JStr t.1
  ∧ ∃ x, named tbl r = Some x.
Proof.
  intros [Hcid Hy]%elem_of_tasks. unfold Pandas.period_range in Hy.
  apply elem_of_seqZ in Hy.
  destruct (Hcomplete t.1 t.2 Hcid) as (v & nm & Hparse & Hname); [lia|].
  unfold fetched. rewrite Hparse. intros [= <-]. simpl. repeat split.
  unfold named. simpl. rewrite Hname. simpl. eauto.
Qed.

Lemma complete_frame (c : Viz.cache) :
  ∃ df,
    value_of (Viz.batch_fetch service float_of_string cls_ids lo hi tbl c) = Ok df
    ∧ (∀ r, r ∈ df →
         ∃ cls_id yyyymm, cls_id ∈ cls_ids ∧ lo ≤ yyyymm ≤ hi
                          ∧ Viz.date r = Pandas.month_start yyyymm
                          ∧ Viz.CLS_ID r = JStr cls_id)
    ∧ (∀ cls_id yyyymm, cls_id ∈ cls_ids → lo ≤ yyyymm ≤ hi →
         ∃ r, r ∈ df ∧ Viz.date r = Pandas.month_start yyyymm
              ∧ Viz.CLS_ID r = JStr cls_id).
Proof.
  assert (∃ df, value_of (Viz.batch_fetch service float_of_string cls_ids lo hi tbl c)
                = Ok df) as [df Hdf].
  { unfold Viz.batch_fetch, Run.bind. rewrite collect_run.
    destruct (omap _ _) as [|r results] eqn:Hres; [by exists []|].
    destruct (map_dict_hashable tbl (map Viz.rec_cls_id (r :: results))) as [vs Hvs].
    - apply Forall_forall. intros k (rec & -> & Hrec)%list_elem_of_fmap.
      rewrite <- Hres in Hrec. apply list_elem_of_omap in Hrec as (t & Ht & Hfetched).
      by destruct (complete_fetched t rec Ht Hfetched) as (_ & -> & _).
    - unfold Run.lift. rewrite Hvs. unfold value_of. simpl. eauto. }
  exists df. split; [done|]. apply batch_fetch_rows in Hdf as ->. split.
  - intros x (rec & Hrec & Hnamed)%list_elem_of_omap.
    apply list_elem_of_omap in Hrec as (t & Ht & Hfetched).
    destruct (complete_fetched t rec Ht Hfetched) as (Hdate & Hcode & _).
    apply named_fields in Hnamed as (-> & -> & _).
    apply elem_of_tasks in Ht as [Hcid Hy]. unfold Pandas.period_range in Hy.
    apply elem_of_seqZ in Hy. exists t.1, t.2. repeat split; [done|lia|lia|done..].
  - intros cls_id yyyymm Hcid Hy.
    assert ((cls_id, yyyymm) ∈ Viz.tasks cls_ids (Pandas.period_range lo hi)) as Ht.
    { apply elem_of_tasks. split; [done|]. unfold Pandas.period_range.
      apply elem_of_seqZ. simpl. lia. }
    destruct (Hcomplete cls_id yyyymm Hcid Hy) as (v & nm & Hparse & Hname).
    destruct (complete_fetched (cls_id, yyyymm) _ Ht Hparse) as (_ & _ & x & Hx).
    exists x. split.
    + apply list_elem_of_omap. eexists. split; [|exact Hx].
      apply list_elem_of_omap. by exists (cls_id, yyyymm).
    + by apply named_fields in Hx as (-> & -> & _).
Qed.

End complete_data.

(** X16. When the service answers every region and month of the
    range with an observation of that region and the table names every
    region, [batch_fetch] returns a frame on which [calc_change] succeeds for
    any two target dates, and the regions of its result are exactly those
    of [cls_ids]. *)
Theorem complete_data_gives_changes (service : string → Z → Viz.reply)
    (float_of_string : string → option float) (tbl : dict (option string))
    (cls_ids : list string) (lo hi start_date end_date : Z) (c c' : Viz.cache) :
  complete service float_of_string tbl cls_ids lo hi →
  cls_ids ≠ [] → lo ≤ hi →
  ∃ df out,
    value_of (Viz.batch_fetch service float_of_string cls_ids lo hi tbl c) = Ok df
    ∧ value_of (Viz.calc_change df start_date end_date c') = Ok out
    ∧ ∀ cls_id, JStr cls_id ∈ map Viz.region_code out ↔ cls_id ∈ cls_ids.
Proof.
  intros Hcomplete Hids Hrange.
  destruct (complete_frame service float_of_string tbl cls_ids lo hi Hcomplete c)
    as (df & Hdf & Hrows & Hall).
  exists df.
  assert (string_codes df) as Hstr.
  { apply Forall_forall. intros r Hr.
    destruct (Hrows r Hr) as (cid & y & _ & _ & _ & Hcode). eauto. }
  assert (df ≠ []) as Hne.
  { destruct cls_ids as [|cid ?]; [done|].
    destruct (Hall cid lo) as (r & Hr & _); [by left | lia |]. intros ->.
    by apply elem_of_nil in Hr. }
  destruct (min_key_nonempty (fun x => Z.abs (x - start_date)) (map Viz.date df))
    as [s Hs]; [by destruct df|].
  destruct (min_key_nonempty (fun x => Z.abs (x - end_date)) (map Viz.date df))
    as [e He]; [by destruct df|].
  pose proof (calc_change_string_cases df start_date end_date s e c' Hstr Hs He) as Hcases.
  destruct (nearest_is_a_date _ _ _ He) as (re & Hre & Hdate_e).
  destruct (Hrows re Hre) as (_ & ye & _ & Hye & Hmonth_e & _).
  destruct (value_of (Viz.calc_change df start_date end_date c')) as [out|exn] eqn:Hout.
  - exists out. split; [done|]. split; [done|].
    rewrite (calc_change_codes df start_date end_date s c' out Hs Hout).
    intros cid. split.
    + intros Hin%first_occurrences_subset.
      apply list_elem_of_fmap in Hin as (r & Hcode & Hr).
      apply list_elem_of_In, filter_In in Hr as [Hr _]. apply list_elem_of_In in Hr.
      destruct (Hrows r Hr) as (cid' & _ & Hcid' & _ & _ & Hcode').
      rewrite Hcode' in Hcode. by injection Hcode as ->.
    + intros Hcid. destruct (nearest_is_a_date _ _ _ Hs) as (rs & Hrs & Hdate_s).
      destruct (Hrows rs Hrs) as (_ & ys & _ & Hys & Hmonth_s & _).
      destruct (Hall cid ys Hcid Hys) as (r & Hr & Hdate & Hcode).
      apply first_occurrences_string. rewrite <- Hcode.
      apply list_elem_of_fmap. exists r. split; [done|].
      apply list_elem_of_In, filter_In. rewrite <- list_elem_of_In. split; [done|].
      rewrite Hdate, <- Hmonth_s, Hdate_s. lia.
  - exfalso. destruct Hcases as (_ & r & Hr & _ & Hnone).
    destruct (Hrows r Hr) as (cid & _ & Hcid & _ & _ & Hcode).
    destruct (Hall cid ye Hcid Hye) as (r' & Hr' & Hdate' & Hcode').
    apply (Hnone r' Hr'); congruence.
Qed.

(** The service of the scenario [rising_and_flat] is complete for the two
    regions over 2022. *)
Lemma complete_data_gives_changes_witness :
  ∃ df out,
    value_of (Viz.batch_fetch rising_and_flat no_float ["11"; "26"] jan22 dec22 two_names [])
    = Ok df
    ∧ value_of (Viz.calc_change df (Pandas.month_start jan22) (Pandas.month_start dec22) [])
      = Ok out
    ∧ ∀ cls_id, JStr cls_id ∈ map Viz.region_code out ↔ cls_id ∈ ["11"; "26"].
Proof.
  apply (complete_data_gives_changes rising_and_flat no_float two_names ["11"; "26"]
           jan22 dec22 (Pandas.month_start jan22) (Pandas.month_start dec22) [] []).
  - intros cls_id yyyymm Hcid _. apply list_elem_of_In in Hcid. simpl in Hcid.
    destruct Hcid as [<-|[<-|[]]]; eexists _, _; split; reflexivity.
  - discriminate.
  - unfold jan22, dec22. lia.
Defined.

(** ** The changes of complete data *)

Lemma month_start_lt (k1 k2 : Z) : k1 < k2 → Pandas.month_start k1 < Pandas.month_start k2.
Proof.
  intros Hlt. pose proof (month_start_next k1).
  pose proof (month_start_mono (k1 + 1) k2). lia.
Qed.

Lemma month_start_inj (k1 k2 : Z) : Pandas.month_start k1 = Pandas.month_start k2 → k1 = k2.
Proof.
  intros Heq. destruct (Z.lt_trichotomy k1 k2) as [Hlt|[->|Hgt]]; [|done|].
  - apply month_start_lt in Hlt. lia.
  - apply month_start_lt in Hgt. lia.
Qed.

Lemma omap_omap_map {A B C} (f : A → option B) (h : B → option C) (g : A → C)
    (l : list A) :
  (∀ x, x ∈ l → ∃ y, f x = Some y ∧ h y = Some (g x)) →
  omap h (omap f l) = map g l.
Proof.
  induction l as [|a l IH]; simpl; [done|]. intros Hall.
  destruct (Hall a) as (y & -> & Hy); [by left|]. simpl. rewrite Hy. f_equal.
  apply IH. intros x Hx. apply Hall. by right.
Qed.

Lemma first_occurrences_NoDup (ids : list string) :
  NoDup ids → Pandas.first_occurrences (map JStr ids) = map JStr ids.
Proof.
  induction 1 as [|x ids Hx Hids IH]; simpl; [done|]. f_equal. rewrite IH.
  clear IH Hids. induction ids as [|y ids IH]; simpl; [done|].
  apply not_elem_of_cons in Hx as [Hxy Hx].
  rewrite (proj2 (String.eqb_neq x y)) by done. simpl. f_equal. by apply IH.
Qed.

Section complete_values.
Variable v : string → Z → float.
Variable nm : string → string.

Lemma rows_of_month (ids : list string) (periods : list Z) (y0 : Z) :
  NoDup periods → y0 ∈ periods →
  List.filter (fun r => Viz.date r =? Pandas.month_start y0)
    (map (row_of v nm) (Viz.tasks ids periods))
  = map (fun cid => row_of v nm (cid, y0)) ids.
Proof.
  assert (∀ y, List.filter (fun r => Viz.date r =? Pandas.month_start y0)
                 (map (row_of v nm) (map (fun cid => (cid, y)) ids))
               = if decide (y = y0) then map (fun cid => row_of v nm (cid, y0)) ids else [])
    as Hmonth.
  { intros y. induction ids as [|cid ids IH]; simpl; [by destruct (decide _)|].
    rewrite IH. destruct (decide (y = y0)) as [->|Hne].
    - by rewrite Z.eqb_refl.
    - destruct (Z.eqb_spec (Pandas.month_start y) (Pandas.month_start y0)) as [Heq|_];
        [by apply month_start_inj in Heq | done]. }
  unfold Viz.tasks. induction periods as [|y periods IH]; simpl.
  - by intros _ ?%elem_of_nil.
  - intros [Hy Hnodup]%NoDup_cons Hin. rewrite map_app, List.filter_app, Hmonth.
    destruct (decide (y = y0)) as [->|Hne].
    + assert (List.filter (fun r => Viz.date r =? Pandas.month_start y0)
                (map (row_of v nm)
                   (flat_map (fun y => map (fun cid => (cid, y)) ids) periods)) = []) as ->;
        [|by rewrite app_nil_r].
      clear IH Hin Hnodup. induction periods as [|y periods IH]; simpl; [done|].
      apply not_elem_of_cons in Hy as [Hne Hy].
      rewrite map_app, List.filter_app, Hmonth, IH by done.
      by destruct (decide (y = y0)).
    + simpl. apply IH; [done|]. by apply elem_of_cons in Hin as [->|Hin].
Qed.

Lemma region_of_month (ids : list string) (y : Z) (cid : string) :
  NoDup ids → cid ∈ ids →
  Viz.of_region (JStr cid) (map (fun cid => row_of v nm (cid, y)) ids)
  = [row_of v nm (cid, y)].
Proof.
  unfold Viz.of_region. induction 1 as [|x ids Hx Hids IH]; simpl.
  - by intros ?%elem_of_nil.
  - intros [->|Hin]%elem_of_cons.
    + rewrite String.eqb_refl. f_equal. clear IH Hids.
      induction ids as [|z ids IH]; simpl; [done|].
      apply not_elem_of_cons in Hx as [Hxz Hx].
      rewrite (proj2 (String.eqb_neq z x)) by done. by apply IH.
    + destruct (String.eqb_spec x cid) as [->|_]; [done|]. by apply IH.
Qed.

Lemma changes_of_months (ids some : list string) (ys ye : Z) :
  NoDup ids → some ⊆ ids →
  Viz.changes (map (fun cid => row_of v nm (cid, ys)) ids)
    (map (fun cid => row_of v nm (cid, ye)) ids) (map JStr some)
  = Ok (map (change_between v nm ys ye) some).
Proof.
  intros Hnodup. induction some as [|cid some IH]; simpl; [done|]. intros Hsub.
  assert (cid ∈ ids) as Hcid by (apply Hsub; by left).
  rewrite IH by (intros x Hx; apply Hsub; by right).
  unfold Viz.change_of. by rewrite !region_of_month by done.
Qed.

End complete_values.

(** X17. On such complete data, with pairwise different region
    codes, the frame is the rows of all regions month by month, and the
    result of [calc_change] is, region by region in the order of [cls_ids],
    the name, the two rounded values of the selected months and
    [round((b - a) / a * 100, 2)] of them. *)
Theorem complete_data_changes (service : string → Z → Viz.reply)
    (float_of_string : string → option float) (tbl : dict (option string))
    (cls_ids : list string) (lo hi : Z) (v : string → Z → float) (nm : string → string)
    (start_date end_date ys ye : Z) (c c' : Viz.cache) (df : list Viz.row) :
  answers service float_of_string tbl cls_ids lo hi v nm →
  NoDup cls_ids →
  value_of (Viz.batch_fetch service float_of_string cls_ids lo hi tbl c) = Ok df →
  lo ≤ ys ≤ hi → lo ≤ ye ≤ hi →
  Viz.nearest start_date df = Ok (Pandas.month_start ys) →
  Viz.nearest end_date df = Ok (Pandas.month_start ye) →
  df = map (row_of v nm) (Viz.tasks cls_ids (Pandas.period_range lo hi))
  ∧ value_of (Viz.calc_change df start_date end_date c')
    = Ok (map (change_between v nm ys ye) cls_ids).
Proof.
  intros Hanswers Hnodup Hdf Hys Hye Hs He.
  assert (df = map (row_of v nm) (Viz.tasks cls_ids (Pandas.period_range lo hi))) as Hrows.
  { apply batch_fetch_rows in Hdf as ->. apply omap_omap_map.
    intros t [Hcid Hy]%elem_of_tasks. unfold Pandas.period_range in Hy.
    apply elem_of_seqZ in Hy.
    destruct (Hanswers t.1 t.2 Hcid) as [Hparse Hname]; [lia|].
    eexists. split; [exact Hparse|]. unfold named. simpl. by rewrite Hname. }
  split; [done|]. rewrite (calc_change_value _ _ _ _ _ _ Hs He). rewrite Hrows.
  assert (∀ y, lo ≤ y ≤ hi → y ∈ Pandas.period_range lo hi) as Hin.
  { intros y Hy. unfold Pandas.period_range. apply elem_of_seqZ. lia. }
  rewrite !rows_of_month by (apply NoDup_seqZ || by apply Hin).
  assert (map Viz.CLS_ID (map (fun cid => row_of v nm (cid, ys)) cls_ids)
          = map JStr cls_ids) as -> by by rewrite map_map.
  unfold Pandas.unique.
  assert (forallb hashable (map JStr cls_ids) = true) as ->.
  { apply forallb_forall. by intros x (cid & <- & _)%in_map_iff. }
  rewrite first_occurrences_NoDup by done. by apply changes_of_months.
Qed.

Lemma complete_data_changes_witness :
  value_of
    (Viz.calc_change
       (map (row_of rising name_of)
          (Viz.tasks ["11"; "26"] (Pandas.period_range jan22 dec22)))
       (Pandas.month_start jan22 + 14) (Pandas.month_start dec22 + 14) [])
  = Ok (map (change_between rising name_of jan22 dec22) ["11"; "26"]).
Proof.
  eapply proj2.
  apply (complete_data_changes rising_and_flat no_float two_names ["11"; "26"] jan22 dec22
           rising name_of (Pandas.month_start jan22 + 14) (Pandas.month_start dec22 + 14)
           jan22 dec22 [] []).
  - intros cls_id yyyymm Hcid _. apply list_elem_of_In in Hcid. simpl in Hcid.
    destruct Hcid as [<-|[<-|[]]]; split; reflexivity.
  - exact two_codes_NoDup.
  - vm_compute. reflexivity.
  - unfold jan22, dec22. lia.
  - unfold jan22, dec22. lia.
  - vm_compute. reflexivity.
  - vm_compute. reflexivity.
Defined.

(** ** A day picked within a month *)

Lemma nearest_minimal (target d : Z) (df : list Viz.row) :
  Viz.nearest target df = Ok d →
  ∀ x, x ∈ map Viz.date df → Z.abs (d - target) ≤ Z.abs (x - target).
Proof.
  intros (before & after & -> & Hbefore & Hafter)%nearest_first_nearest.
  rewrite Forall_forall in Hbefore, Hafter.
  intros x [Hx|[->|Hx]%elem_of_cons]%elem_of_app.
  - apply Hbefore in Hx. lia.
  - lia.
  - by apply Hafter.
Qed.

(** X18. On a date-ordered frame of first-of-month dates that has the
    month of the picked date and the month after it, a date picked in the
    first half of its month (the middle day included) selects the first day
    of that month, and a date picked later selects the first day of the
    month after. *)
Theorem picked_day_selects (df : list Viz.row) (m day : Z) :
  StronglySorted Z.le (map Viz.date df) →
  (∀ r, r ∈ df → ∃ yyyymm, Viz.date r = Pandas.month_start yyyymm) →
  Pandas.month_start m ∈ map Viz.date df →
  Pandas.month_start (m + 1) ∈ map Viz.date df →
  1 ≤ day →
  Viz.to_datetime {| Viz.yyyymm_of := m; Viz.day_of := day |} < Pandas.month_start (m + 1) →
  Viz.nearest (Viz.to_datetime {| Viz.yyyymm_of := m; Viz.day_of := day |}) df
  = Ok (if 2 * (day - 1) <=? Pandas.month_start (m + 1) - Pandas.month_start m
        then Pandas.month_start m
        else Pandas.month_start (m + 1)).
Proof.
  unfold Viz.to_datetime. simpl. intros Hsorted Hmonths Hthis Hnext Hday Hin.
  destruct (min_key_nonempty
              (fun x => Z.abs (x - (Pandas.month_start m + day - 1))) (map Viz.date df))
    as [d Hd]; [by destruct df; [apply elem_of_nil in Hthis|]|].
  fold (Viz.nearest (Pandas.month_start m + day - 1) df) in Hd. rewrite Hd. f_equal.
  pose proof (nearest_minimal _ _ _ Hd) as Hmin.
  pose proof (Hmin _ Hthis) as Hmin_this. pose proof (Hmin _ Hnext) as Hmin_next.
  destruct (nearest_is_a_date _ _ _ Hd) as (r & Hr & Hdate).
  destruct (Hmonths r Hr) as [y Hmonth]. rewrite Hdate in Hmonth. subst d.
  pose proof (month_start_next m) as Hlen.
  assert (y = m ∨ y = m + 1) as Hy.
  { destruct (Z.lt_trichotomy y m) as [Hlt|[->|Hgt]]; [|by left|].
    - apply month_start_lt in Hlt. lia.
    - destruct (Z.eq_dec y (m + 1)) as [->|Hne]; [by right|].
      assert (m + 1 < y) as Hlt by lia. apply month_start_lt in Hlt. lia. }
  destruct (Z.leb_spec (2 * (day - 1)) (Pandas.month_start (m + 1) - Pandas.month_start m))
    as [Hfirst|Hsecond]; destruct Hy as [->| ->]; [done| |lia|done].
  exfalso.
  apply nearest_first_nearest in Hd as (before & after & Hdates & Hbefore & Hafter).
  rewrite Hdates in Hthis, Hsorted.
  apply elem_of_app in Hthis as [Hthis|[Hthis|Hthis]%elem_of_cons].
  - rewrite Forall_forall in Hbefore. apply Hbefore in Hthis. lia.
  - lia.
  - apply StronglySorted_app_1_r, StronglySorted_inv in Hsorted as [_ Hge].
    rewrite Forall_forall in Hge. apply Hge in Hthis. lia.
Qed.

Lemma picked_day_selects_witness :
  Viz.nearest (Viz.to_datetime {| Viz.yyyymm_of := jan22; Viz.day_of := 20 |}) frame_with_gap
  = Ok (if 2 * (20 - 1) <=? Pandas.month_start (jan22 + 1) - Pandas.month_start jan22
        then Pandas.month_start jan22
        else Pandas.month_start (jan22 + 1)).
Proof.
  apply (picked_day_selects frame_with_gap jan22 20).
  - vm_compute. repeat constructor; discriminate.
  - intros r Hr. apply list_elem_of_In in Hr. simpl in Hr.
    destruct Hr as [<-|[<-|[<-|[]]]]; eexists; reflexivity.
  - by left.
  - right. right. by left.
  - lia.
  - vm_compute. reflexivity.
Defined.

(** ** The loader of [main.py] *)

(** X19. [load_and_process_data] never raises, and what it returned
    once it returns ever after: a later run, whatever the service would
    answer then, sends no request and shows the same messages and the same
    frame. A failed load is kept like a successful one. *)
Theorem load_and_process_data_once (service : Main.reply)
    (frame : json → result (list (option Z * json * option float))) (c c' : Main.cache)
    (log : list Main.event) (r : result (list Main.row)) :
  Main.load_and_process_data service frame c = (c', log, r) →
  ∃ df shown,
    r = Ok df
    ∧ c' = Some (df, shown)
    ∧ log = match c with None => [Main.HttpGet Main.url] | Some _ => [] end ++ shown
    ∧ ∀ service' frame',
        Main.load_and_process_data service' frame' c' = (c', shown, Ok df).
Proof.
  destruct (load_and_process_data_run service frame c) as (df & shown & ->).
  intros [= <- <- <-]. exists df, shown. repeat split.
  intros service' frame'.
  destruct (load_and_process_data_run service' frame' (Some (df, shown)))
    as (df' & shown' & Hrun).
  rewrite Hrun. unfold Main.load_and_process_data, Run.bind, Run.get_state in Hrun.
  simpl in Hrun. rewrite emit_all_run in Hrun. unfold Run.ret in Hrun. simpl in Hrun.
  by injection Hrun as <- <-.
Qed.

(** X20. On an empty cache [load_and_process_data] sends one
    request; it then either shows nothing, or shows exactly one error
    message and returns the empty frame; no row of the frame it returns has
    a NaN index. *)
Theorem load_and_process_data_cold (service : Main.reply)
    (frame : json → result (list (option Z * json * option float))) :
  ∃ df shown,
    Main.load_and_process_data service frame None
    = (Some (df, shown), Main.HttpGet Main.url :: shown, Ok df)
    ∧ Forall (fun r => PrimFloat.is_nan (Main.index r) = false) df
    ∧ (shown = [] ∨ df = [] ∧ ∃ msg e, shown = [Main.StError msg (Some e)]).
Proof.
  destruct (load_and_process_data_run service frame None) as (df & shown & Hrun).
  exists df, shown. split; [done|].
  revert Hrun. unfold Main.load_and_process_data, Run.bind, Run.get_state. simpl.
  pose proof (load_uncached_outcome service frame) as Hcases.
  destruct (Main.load_uncached service frame) as [df' shown'].
  rewrite emit_all_run. unfold Run.put_state, Run.ret. simpl. intros [= <- <-].
  destruct (Main.load_body frame service) as [df0|e].
  - destruct Hcases as [[= -> ->] Hall]. split; [done | by left].
  - destruct Hcases as [msg [= -> ->]]. split; [constructor|]. right. eauto.
Qed.

(** ** The change of [main.py] *)

Lemma filter_nil_iff {A} (p : A → bool) (l : list A) :
  List.filter p l = [] ↔ ∀ x, x ∈ l → p x = false.
Proof.
  induction l as [|a l IH]; simpl.
  - split; [intros _ x Hx; by apply elem_of_nil in Hx | done].
  - destruct (p a) eqn:Hpa.
    + split; [done|]. intros Hall. specialize (Hall a). rewrite Hpa in Hall.
      by discriminate Hall; left.
    + rewrite IH. split.
      * intros Hall x [->|Hx]%elem_of_cons; [done | by apply Hall].
      * intros Hall x Hx. apply Hall. by right.
Qed.

Lemma between_same (s : Z) (r : Main.row) :
  Main.between s s r = true ↔ Main.date r = Some s.
Proof.
  unfold Main.between. destruct (Main.date r) as [d|]; [|done].
  rewrite andb_true_iff, !Z.leb_le. split; [intros; f_equal; lia | intros [= ->]; lia].
Qed.

Lemma main_calc_change_regions (df : list Main.row) (s e : Z) (out : list Main.change) :
  s ≤ e → (∃ r, r ∈ df ∧ Main.date r = Some s) →
  Main.calc_change df s e = Ok out →
  map Main.region out = Pandas.first_occurrences (map Main.CLS_ID df) ∧ out ≠ [].
Proof.
  intros Hse (r & Hr & Hdate). unfold Main.calc_change.
  assert (In r (List.filter (Main.between s e) df)) as He.
  { apply filter_In. rewrite <- list_elem_of_In. split; [done|].
    unfold Main.between. rewrite Hdate. lia. }
  assert (In r (List.filter (Main.between s s) df)) as Hs.
  { apply filter_In. rewrite <- list_elem_of_In. split; [done|]. by apply between_same. }
  destruct (List.filter (Main.between s e) df) as [|r1 df_e]; [done|].
  destruct (List.filter (Main.between s s) df) as [|r2 df_s]; [done|].
  unfold Pandas.unique. destruct (forallb hashable _); [|done]. simpl. intros [= <-].
  rewrite map_map. simpl. rewrite map_id. split; [done|].
  destruct df as [|r0 df]; [by apply elem_of_nil in Hr | done].
Qed.

(** X21. [Main.calc_change] returns the empty frame when the end
    date is before the start date or no row is dated the start date itself;
    otherwise a frame it returns has one row for every distinct region code
    of the whole frame, in order of first appearance, and is not empty. *)
Theorem main_calc_change_shape (df : list Main.row) (s e : Z) :
  (e < s ∨ (∀ r, r ∈ df → Main.date r ≠ Some s) → Main.calc_change df s e = Ok [])
  ∧ ∀ out,
      s ≤ e → (∃ r, r ∈ df ∧ Main.date r = Some s) →
      Main.calc_change df s e = Ok out →
      map Main.region out = Pandas.first_occurrences (map Main.CLS_ID df) ∧ out ≠ [].
Proof.
  split; [|intros out; apply main_calc_change_regions].
  intros Hnone. unfold Main.calc_change.
  destruct Hnone as [Hlt|Hnone].
  - assert (List.filter (Main.between s e) df = []) as ->; [|done].
    apply filter_nil_iff. intros r _. unfold Main.between.
    destruct (Main.date r); [lia | done].
  - assert (List.filter (Main.between s s) df = []) as ->.
    { apply filter_nil_iff. intros r Hr. specialize (Hnone r Hr).
      destruct (Main.between s s r) eqn:Hb; [|done]. by apply between_same in Hb. }
    by destruct (List.filter _ df).
Qed.

Lemma filter_comm {A} (p q : A → bool) (l : list A) :
  List.filter p (List.filter q l) = List.filter q (List.filter p l).
Proof.
  induction l as [|a l IH]; simpl; [done|].
  destruct (p a) eqn:Hp, (q a) eqn:Hq; simpl; rewrite ?Hp, ?Hq, IH; done.
Qed.

(** In ascending order the first row of the window from [s] to [e] is a
    row dated [s], if there is one. *)
Lemma first_in_window (l : list Main.row) (s e : Z) :
  s ≤ e → StronglySorted Z.le (Main.dates l) →
  List.filter (Main.between s s) l ≠ [] →
  head (List.filter (Main.between s e) l) = head (List.filter (Main.between s s) l).
Proof.
  intros Hse. induction l as [|r l IH]; [done|].
  intros Hsorted Hstart. cbn [List.filter] in *.
  assert (StronglySorted Z.le (Main.dates l)) as Hl.
  { unfold Main.dates in *. simpl in Hsorted.
    destruct (Main.date r); [by apply StronglySorted_inv in Hsorted as [? _] | done]. }
  destruct (Main.between s s r) eqn:Hss.
  - assert (Main.between s e r = true) as ->; [|done].
    apply between_same in Hss. unfold Main.between. rewrite Hss. lia.
  - destruct (Main.between s e r) eqn:Hwin; [|by apply IH].
    exfalso. unfold Main.between in Hss, Hwin. unfold Main.dates in Hsorted.
    simpl in Hsorted. destruct (Main.date r) as [d|]; [|done].
    apply StronglySorted_inv in Hsorted as [_ Hall].
    destruct (List.filter (Main.between s s) l) as [|r' rest] eqn:Hrows; [done|].
    assert (In r' (List.filter (Main.between s s) l)) as Hr' by (rewrite Hrows; by left).
    apply filter_In in Hr' as [Hr' Hdate]. apply between_same in Hdate.
    rewrite Forall_forall in Hall. specialize (Hall s).
    assert (d ≤ s); [|lia]. apply Hall, list_elem_of_omap. exists r'.
    by rewrite <- list_elem_of_In in Hr'.
Qed.

Lemma first_or_zero_head (df : list Main.row) (cls : json) :
  Main.first_or_zero df cls
  = match head (List.filter (fun r => Pandas.eq (Main.CLS_ID r) cls) df) with
    | Some r => Main.index r
    | None => 0%float
    end.
Proof. unfold Main.first_or_zero. by destruct (List.filter _ df). Qed.

Lemma change_of_ascending (df : list Main.row) (s e : Z) (cls : json) :
  s ≤ e → ascending_by_region df →
  ∃ a,
    Main.change_rate
      (Main.change_of (List.filter (Main.between s s) df)
         (List.filter (Main.between s e) df) cls)
    = Main.rate a a.
Proof.
  intros Hse Hasc. unfold Main.change_of. simpl.
  rewrite !first_or_zero_head, !(filter_comm (fun r => Pandas.eq (Main.CLS_ID r) cls)).
  destruct (List.filter (Main.between s s) (List.filter _ df)) as [|r rest] eqn:Hstart.
  - exists 0%float. reflexivity.
  - rewrite (first_in_window _ s e Hse (Hasc cls)) by by rewrite Hstart.
    rewrite Hstart. simpl. eauto.
Qed.

(** X22. On a frame in which the rows of every region stand in
    ascending order of date, [Main.calc_change] reads the end value of a
    region from the row it reads the start value from: every rate it
    returns is zero (or NaN, for an infinite start value). *)
Theorem main_calc_change_ascending (df : list Main.row) (s e : Z) (out : list Main.change) :
  ascending_by_region df →
  Main.calc_change df s e = Ok out →
  Forall (fun ch => zero_or_nan (Main.change_rate ch)) out.
Proof.
  intros Hasc. unfold Main.calc_change.
  destruct (List.filter (Main.between s e) df) as [|r1 df_e] eqn:He;
    [intros [= <-]; constructor|].
  destruct (List.filter (Main.between s s) df) as [|r2 df_s] eqn:Hs;
    [intros [= <-]; constructor|].
  assert (s ≤ e) as Hse.
  { assert (In r1 (List.filter (Main.between s e) df)) as Hin by (rewrite He; by left).
    apply filter_In in Hin as [_ Hin]. unfold Main.between in Hin.
    destruct (Main.date r1); [lia | done]. }
  destruct (Pandas.unique _) as [codes|]; [|done]. simpl. intros [= <-].
  apply Forall_forall. intros ch (cls & -> & _)%list_elem_of_fmap.
  rewrite <- He, <- Hs.
  destruct (change_of_ascending df s e cls Hse Hasc) as [a ->]. apply rate_of_same.
Qed.

Lemma StronglySorted_omap_sub {A B} (R : relation B) (f : A → option B) (p : A → bool)
    (l : list A) :
  StronglySorted R (omap f l) → StronglySorted R (omap f (List.filter p l)).
Proof.
  induction l as [|a l IH]; simpl; [done|].
  assert (∀ x, Forall (R x) (omap f l) → Forall (R x) (omap f (List.filter p l))) as Hsub.
  { intros x. rewrite !Forall_forall. intros Hall y Hy. apply Hall.
    apply list_elem_of_omap in Hy as (b & Hb & Hfb). apply list_elem_of_omap.
    exists b. split; [|done]. apply list_elem_of_In in Hb. apply filter_In in Hb as [Hb _].
    by apply list_elem_of_In. }
  destruct (f a) as [d|] eqn:Hfa.
  - intros [Hs Hall]%StronglySorted_inv. destruct (p a); simpl; rewrite ?Hfa; [|by apply IH].
    constructor; [by apply IH | by apply Hsub].
  - intros Hs. destruct (p a); simpl; rewrite ?Hfa; by apply IH.
Qed.

(** X23. On a frame in which the rows of every region stand in
    descending order of date, [Main.calc_change] reads the end value of a
    region from its latest row within the window from the start date to the
    end date; a region that has no row there (as a region whose code is
    missing has none anywhere) gets the rate 0. *)
Theorem main_calc_change_descending (df : list Main.row) (s e : Z) (out : list Main.change) :
  descending_by_region df →
  Main.calc_change df s e = Ok out →
  Forall (fun ch =>
            ((∀ r d, r ∈ df → Pandas.eq (Main.CLS_ID r) (Main.region ch) = true →
                     Main.date r = Some d → ¬ s ≤ d ≤ e)
             ∧ Main.change_rate ch = 0%float)
            ∨ ∃ r_end d_end,
                r_end ∈ df ∧ Pandas.eq (Main.CLS_ID r_end) (Main.region ch) = true
                ∧ Main.date r_end = Some d_end ∧ s ≤ d_end ≤ e
                ∧ (∀ r d, r ∈ df → Pandas.eq (Main.CLS_ID r) (Main.region ch) = true →
                          Main.date r = Some d → s ≤ d ≤ e → d ≤ d_end)
                ∧ Main.change_rate ch
                  = Main.rate
                      (Main.first_or_zero (List.filter (Main.between s s) df)
                         (Main.region ch))
                      (Main.index r_end)) out.
Proof.
  intros Hdesc. unfold Main.calc_change.
  destruct (List.filter (Main.between s e) df) as [|r1 df_e] eqn:He;
    [intros [= <-]; constructor|].
  destruct (List.filter (Main.between s s) df) as [|r2 df_s] eqn:Hs;
    [intros [= <-]; constructor|].
  assert (s ≤ e) as Hse.
  { assert (In r1 (List.filter (Main.between s e) df)) as Hin by (rewrite He; by left).
    apply filter_In in Hin as [_ Hin]. unfold Main.between in Hin.
    destruct (Main.date r1); [lia | done]. }
  destruct (Pandas.unique _) as [codes|]; [|done]. simpl. intros [= <-].
  apply Forall_forall. intros ch (cls & -> & _)%list_elem_of_fmap.
  rewrite <- He, <- Hs. simpl.
  pose proof (StronglySorted_omap_sub _ Main.date (Main.between s e) _ (Hdesc cls)) as Hsorted.
  rewrite !first_or_zero_head, !(filter_comm (fun r => Pandas.eq (Main.CLS_ID r) cls)).
  assert (∀ r d, r ∈ df → Pandas.eq (Main.CLS_ID r) cls = true → Main.date r = Some d →
                 s ≤ d ≤ e →
                 In r (List.filter (Main.between s e)
                         (List.filter (fun r => Pandas.eq (Main.CLS_ID r) cls) df))) as Hin.
  { intros r d Hr Hcls Hdate Hwin. apply filter_In.
    split; [apply filter_In; by rewrite <- list_elem_of_In|].
    unfold Main.between. rewrite Hdate. lia. }
  destruct (List.filter (Main.between s e) (List.filter _ df)) as [|rb rest] eqn:Hrows.
  { left. split; [intros r d Hr Hcls Hdate Hwin; by destruct (Hin r d)|].
    destruct (List.filter (Main.between s s) (List.filter _ df)) as [|ra rest] eqn:Hstart;
      [reflexivity|].
    assert (In ra (List.filter (Main.between s s)
                     (List.filter (fun r => Pandas.eq (Main.CLS_ID r) cls) df))) as Hra
      by (rewrite Hstart; by left).
    apply filter_In in Hra as [Hra Hdate]. apply filter_In in Hra as [Hra Hcode].
    apply between_same in Hdate. rewrite <- list_elem_of_In in Hra.
    by destruct (Hin ra s Hra Hcode Hdate ltac:(lia)). }
  right. simpl.
  assert (In rb (List.filter (Main.between s e)
                   (List.filter (fun r => Pandas.eq (Main.CLS_ID r) cls) df))) as Hrb
    by (rewrite Hrows; by left).
  apply filter_In in Hrb as [Hrb Hbetween]. apply filter_In in Hrb as [Hrb Hcode].
  unfold Main.between in Hbetween.
  destruct (Main.date rb) as [db|] eqn:Hdb; [|done].
  apply andb_true_iff in Hbetween as [Hlo%Z.leb_le Hhi%Z.leb_le].
  exists rb, db. rewrite <- list_elem_of_In in Hrb.
  split; [done|]. split; [done|]. split; [done|]. split; [lia|]. split; [|done].
  intros r d Hr Hcls Hdate Hwin. destruct (Hin r d Hr Hcls Hdate Hwin) as [Heq|Hlater].
  { subst rb. rewrite Hdate in Hdb. injection Hdb as ->. lia. }
  simpl in Hsorted. rewrite Hdb in Hsorted.
  apply StronglySorted_inv in Hsorted as [_ Hall]. rewrite Forall_forall in Hall.
  apply Hall, list_elem_of_omap. exists r. by rewrite list_elem_of_In.
Qed.

(** ** When [main.py] draws a map *)

Lemma null_or_not (j : json) : j = JNull ∨ j ≠ JNull.
Proof. destruct j; [by left | by right..]. Qed.

Lemma create_choropleth_map_cases (add_layers : list Main.change → json → result unit)
    (out : list Main.change) (data : json) :
  out ≠ [] → data ≠ JNull →
  Main.create_choropleth_map add_layers out data
  = if PrimFloat.eqb (Pandas.col_min (map Main.change_rate out))
         (Pandas.col_max (map Main.change_rate out))
    then Ok (Some Main.base_map)
    else match add_layers out data with
         | Ok _ =>
             Ok (Some {| Main.tiles := Main.tiles Main.base_map;
                         Main.children :=
                           [Main.Choropleth data out "feature.properties.SIG_KOR_NM" "RdYlGn";
                            Main.Tooltip ["SIG_KOR_NM"];
                            Main.StyledGeoJson data out] |})
         | Raise e => Raise e
         end.
Proof.
  intros Hout Hdata. unfold Main.create_choropleth_map.
  destruct out; [done|]. by destruct data.
Qed.

(** The run of [main.py] up to the call of [create_choropleth_map], when
    the loaded frame has a dated row and the dates are in order. *)
Lemma main_run (service : Main.reply)
    (frame : json → result (list (option Z * json * option float)))
    (add_layers : list Main.change → json → result unit)
    (render_layers : list Main.layer → exn)
    (file : Main.geo_file) (start_date_input end_date_input : Z) (c : Main.cache)
    (df : list Main.row) (shown : list Main.event) :
  Main.load_and_process_data service frame c
  = (Some (df, shown),
     match c with None => [Main.HttpGet Main.url] | Some _ => [] end ++ shown, Ok df) →
  ∃ gshown,
    Forall (fun ev => is_error ev = true) gshown
    ∧ let geojson_data := match file with Main.GeoData data => data | _ => JNull end in
      let pre := match c with None => [Main.HttpGet Main.url] | Some _ => [] end
                 ++ shown ++ gshown in
      Main.main service frame add_layers render_layers file
        start_date_input end_date_input c
      = match df with
        | [] =>
            (Some (df, shown),
             pre ++ [Main.StInfo "데이터 로드에 실패했습니다. API 키 또는 네트워크 연결을 확인해주세요."],
             Ok tt)
        | _ =>
            match Main.min_date df with
            | None =>
                (Some (df, shown),
                 pre ++ [Main.StError "데이터에 유효한 날짜 범위가 없습니다." None], Ok tt)
            | Some _ =>
                if end_date_input <? start_date_input then
                  (Some (df, shown),
                   pre ++ [Main.StError "시작 날짜는 종료 날짜보다 빠르거나 같아야 합니다." None],
                   Ok tt)
                else
                  match Main.calc_change df start_date_input end_date_input with
                  | Raise e => (Some (df, shown), pre, Raise e)
                  | Ok [] =>
                      (Some (df, shown),
                       pre ++ [Main.StInfo
                                 "선택된 기간에 대한 증감률 데이터를 계산할 수 없습니다. 날짜 범위를 다시 확인해주세요."],
                       Ok tt)
                  | Ok out =>
                      match Main.create_choropleth_map add_layers out geojson_data with
                      | Raise e => (Some (df, shown), pre, Raise e)
                      | Ok None =>
                          (Some (df, shown),
                           pre ++ [Main.StInfo
                                     "지도를 생성할 수 없습니다. 데이터 또는 GeoJSON 파일을 확인해주세요."],
                           Ok tt)
                      | Ok (Some m) =>
                          match Main.render render_layers m with
                          | Ok html => (Some (df, shown), pre ++ [Main.StHtml html], Ok tt)
                          | Raise e => (Some (df, shown), pre, Raise e)
                          end
                      end
                  end
            end
        end.
Proof.
  intros Hload.
  destruct (load_geojson_value file (Some (df, shown))) as (gshown & Hgeo & Hgerr).
  exists gshown. split; [done|]. cbv zeta.
  unfold Main.main, Run.bind. rewrite Hload, Hgeo.
  destruct df as [|r df]; [unfold Run.emit; by rewrite <- !app_assoc|].
  destruct (Main.min_date (r :: df)) as [lo|] eqn:Hlo;
    [|unfold Run.emit; by rewrite <- !app_assoc].
  destruct (max_date_of_min_date (r :: df)) as (lo' & hi & _ & ->); [by rewrite Hlo|].
  destruct (end_date_input <? start_date_input);
    [unfold Run.emit; by rewrite <- !app_assoc|].
  unfold Run.lift.
  destruct (Main.calc_change (r :: df) start_date_input end_date_input) as [out|e];
    [|simpl; by rewrite !app_nil_r, <- !app_assoc].
  simpl. destruct out as [|ch out]; [unfold Run.emit; simpl; by rewrite <- !app_assoc|].
  destruct (Main.create_choropleth_map add_layers (ch :: out) _) as [[m|]|e]; simpl;
    [|unfold Run.emit; simpl; by rewrite <- !app_assoc
     |by rewrite !app_nil_r, <- !app_assoc].
  destruct (Main.render render_layers m) as [html|e]; simpl;
    [unfold Run.emit; simpl; by rewrite <- !app_assoc
    |by rewrite !app_nil_r, <- !app_assoc].
Qed.

(** X24. A run of [main.py] draws a map exactly when SIG.geojson was
    read and is not [null], the start date is not after the end date, the
    frame has a dated row, [calc_change] returns a frame that is not empty
    and the test [min_val == max_val] holds of its rates (they are all
    equal); the map is then the base map. When the test fails no map is
    drawn. (The messages kept in the cache are error messages, as the
    loader leaves them.) *)
Theorem main_draws_map_iff (service : Main.reply)
    (frame : json → result (list (option Z * json * option float)))
    (add_layers : list Main.change → json → result unit)
    (render_layers : list Main.layer → exn)
    (file : Main.geo_file)
    (start_date_input end_date_input : Z) (c : Main.cache) (df : list Main.row)
    (m : Main.folium_map) :
  value_of (Main.load_and_process_data service frame c) = Ok df →
  (∀ df0 shown, c = Some (df0, shown) → Forall (fun ev => is_error ev = true) shown) →
  Main.StHtml m
    ∈ log_of (Main.main service frame add_layers render_layers file
                start_date_input end_date_input c)
  ↔ ∃ data out,
      file = Main.GeoData data
      ∧ data ≠ JNull
      ∧ start_date_input ≤ end_date_input
      ∧ Main.min_date df ≠ None
      ∧ Main.calc_change df start_date_input end_date_input = Ok out
      ∧ out ≠ []
      ∧ PrimFloat.eqb (Pandas.col_min (map Main.change_rate out))
          (Pandas.col_max (map Main.change_rate out)) = true
      ∧ m = Main.base_map.
Proof.
  intros Hdf Hcache.
  destruct (load_and_process_data_messages service frame c Hcache)
    as (df' & shown & Hload & Hshown).
  rewrite Hload in Hdf. injection Hdf as ->.
  destruct (main_run service frame add_layers render_layers file
              start_date_input end_date_input c df shown Hload) as (gshown & Hgerr & Hrun).
  cbv zeta in Hrun. rewrite Hrun. clear Hrun.
  set (pre := match c with None => [Main.HttpGet Main.url] | Some _ => [] end
              ++ shown ++ gshown).
  assert (Main.StHtml m ∉ pre) as Hpre.
  { rewrite Forall_forall in Hshown, Hgerr. unfold pre. rewrite !elem_of_app.
    intros [Hin|[Hin|Hin]];
      [destruct c; [by apply elem_of_nil in Hin | by apply list_elem_of_singleton in Hin]
      | by apply Hshown in Hin | by apply Hgerr in Hin]. }
  assert (∀ ev, Main.StHtml m ∈ pre ++ [ev] ↔ Main.StHtml m = ev) as Htail.
  { intros ev. rewrite elem_of_app, list_elem_of_singleton. tauto. }
  destruct df as [|r df].
  { unfold log_of. simpl. rewrite Htail. split; [done|].
    by intros (? & ? & _ & _ & _ & ? & _). }
  destruct (Main.min_date (r :: df)) as [lo|] eqn:Hlo.
  2: { unfold log_of. simpl. rewrite Htail. split; [done|].
       by intros (? & ? & _ & _ & _ & ? & _). }
  destruct (Z.ltb_spec end_date_input start_date_input) as [Hlt|Hle].
  { unfold log_of. simpl. rewrite Htail. split; [done|].
    intros (? & ? & _ & _ & ? & _). lia. }
  destruct (Main.calc_change (r :: df) start_date_input end_date_input) as [out|e] eqn:Hcalc.
  2: { unfold log_of. simpl. split; [done|]. by intros (? & ? & _ & _ & _ & _ & ? & _). }
  destruct out as [|ch out].
  { unfold log_of. simpl. rewrite Htail. split; [done|].
    by intros (? & ? & _ & _ & _ & _ & [= <-] & ? & _). }
  destruct (null_or_not (match file with Main.GeoData data => data | _ => JNull end))
    as [Hnull|Hdata].
  { rewrite Hnull. unfold log_of. simpl. rewrite Htail. split; [done|].
    intros (data & ? & -> & Hd & _). done. }
  rewrite create_choropleth_map_cases by done.
  destruct (PrimFloat.eqb _ _) eqn:Hflat.
  - unfold log_of. simpl. rewrite Htail. split.
    + intros [= ->]. destruct file as [data| |]; [|done..].
      exists data, (ch :: out). by repeat split.
    + by intros (? & ? & _ & _ & _ & _ & _ & _ & _ & ->).
  - destruct (add_layers _ _) as [[]|e]; unfold log_of; simpl.
    + split; [done|]. intros (? & ? & _ & _ & _ & _ & [= <-] & _ & Heq & _). congruence.
    + split; [done|]. intros (? & ? & _ & _ & _ & _ & [= <-] & _ & Heq & _). congruence.
Qed.

(** ** A failed load *)



(** ** The date inputs' defaults *)

Lemma fold_left_min (ds : list Z) (d : Z) :
  fold_left Z.min ds d ∈ d :: ds ∧ ∀ x, x ∈ d :: ds → fold_left Z.min ds d ≤ x.
Proof.
  revert d. induction ds as [|y ds IH]; intros d; simpl.
  - split; [by left|]. intros x ->%list_elem_of_singleton. lia.
  - destruct (IH (Z.min d y)) as [Hin Hle]. split.
    + apply elem_of_cons in Hin as [->|Hin].
      * destruct (Z.min_spec d y) as [[_ ->]|[_ ->]]; [by left | right; by left].
      * right. by right.
    + intros x Hx. assert (fold_left Z.min ds (Z.min d y) ≤ Z.min d y) as Hm
        by (apply Hle; by left).
      apply elem_of_cons in Hx as [->|[->|Hx]%elem_of_cons]; [lia | lia |].
      apply Hle. by right.
Qed.

Lemma fold_left_max (ds : list Z) (d : Z) :
  fold_left Z.max ds d ∈ d :: ds ∧ ∀ x, x ∈ d :: ds → x ≤ fold_left Z.max ds d.
Proof.
  revert d. induction ds as [|y ds IH]; intros d; simpl.
  - split; [by left|]. intros x ->%list_elem_of_singleton. lia.
  - destruct (IH (Z.max d y)) as [Hin Hle]. split.
    + apply elem_of_cons in Hin as [->|Hin].
      * destruct (Z.max_spec d y) as [[_ ->]|[_ ->]]; [right; by left | by left].
      * right. by right.
    + intros x Hx. assert (Z.max d y ≤ fold_left Z.max ds (Z.max d y)) as Hm
        by (apply Hle; by left).
      apply elem_of_cons in Hx as [->|[->|Hx]%elem_of_cons]; [lia | lia |].
      apply Hle. by right.
Qed.

(** X26. The dates the date inputs start with, the smallest and the
    largest date of the frame, are in order and enclose every dated row, and
    [Main.calc_change] between them returns no empty frame: it has one row
    per region code. *)
Theorem default_dates_give_a_result (df : list Main.row) (lo hi : Z) :
  Main.min_date df = Some lo → Main.max_date df = Some hi →
  lo ≤ hi
  ∧ (∀ r d, r ∈ df → Main.date r = Some d → lo ≤ d ≤ hi)
  ∧ ∀ out,
      Main.calc_change df lo hi = Ok out →
      out ≠ [] ∧ map Main.region out = Pandas.first_occurrences (map Main.CLS_ID df).
Proof.
  unfold Main.min_date, Main.max_date.
  destruct (Main.dates df) as [|d ds] eqn:Hdates; [done|].
  intros [= <-] [= <-].
  destruct (fold_left_min ds d) as [Hlo_in Hlo]. destruct (fold_left_max ds d) as [_ Hhi].
  assert (fold_left Z.min ds d ≤ fold_left Z.max ds d) as Hle.
  { assert (d ∈ d :: ds) as Hd by by left.
    pose proof (Hlo d Hd). pose proof (Hhi d Hd). lia. }
  split; [done|]. split.
  - intros r x Hr Hx. assert (x ∈ d :: ds) as Hin.
    { rewrite <- Hdates. apply list_elem_of_omap. eauto. }
    split; [by apply Hlo | by apply Hhi].
  - intros out Hout. rewrite <- Hdates in Hlo_in.
    apply list_elem_of_omap in Hlo_in as (r & Hr & Hdate).
    destruct (main_calc_change_regions df _ _ out Hle) as [Hcodes Hne]; [eauto|done|done].
Qed.

(** ** The scenario of two observations *)

Lemma sorted_ascending_by_region (df : list Main.row) :
  StronglySorted Z.le (Main.dates df) → ascending_by_region df.
Proof. intros Hs cls. by apply StronglySorted_omap_sub. Qed.

Lemma sorted_descending_by_region (df : list Main.row) :
  StronglySorted (fun d1 d2 => d2 ≤ d1) (Main.dates df) → descending_by_region df.
Proof. intros Hs cls. by apply StronglySorted_omap_sub. Qed.

Lemma load_and_process_data_once_witness :
  Main.load_and_process_data (Main.NoReply Timeout) two_observations (Some (survey, []))
  = (Some (survey, []), [], Ok survey).
Proof.
  destruct (load_and_process_data_once open_data two_observations None (Some (survey, []))
              [Main.HttpGet Main.url] (Ok survey))
    as (df & shown & Hr & Hc & _ & Hagain).
  - vm_compute. reflexivity.
  - injection Hr as <-. injection Hc as <-. apply Hagain.
Defined.

Lemma main_calc_change_shape_witness : Main.calc_change survey 5 10 = Ok [].
Proof.
  apply (proj1 (main_calc_change_shape survey 5 10)). right.
  intros r Hr Hdate. apply list_elem_of_In in Hr. simpl in Hr.
  destruct Hr as [<-|[<-|[]]]; discriminate Hdate.
Defined.

Lemma main_calc_change_ascending_witness :
  Forall (fun ch => zero_or_nan (Main.change_rate ch))
    [{| Main.region := JStr "11"; Main.change_rate := 0 |}].
Proof.
  apply (main_calc_change_ascending survey 1 10).
  - apply sorted_ascending_by_region. repeat constructor; lia.
  - vm_compute. reflexivity.
Defined.

Lemma main_calc_change_descending_witness :
  Main.calc_change survey_latest_first 1 10
  = Ok [{| Main.region := JStr "11"; Main.change_rate := 10 |}]
  ∧ Forall (fun ch =>
              ((∀ r d, r ∈ survey_latest_first →
                       Pandas.eq (Main.CLS_ID r) (Main.region ch) = true →
                       Main.date r = Some d → ¬ 1 ≤ d ≤ 10)
               ∧ Main.change_rate ch = 0%float)
              ∨ ∃ r_end d_end,
                  r_end ∈ survey_latest_first
                  ∧ Pandas.eq (Main.CLS_ID r_end) (Main.region ch) = true
                  ∧ Main.date r_end = Some d_end ∧ 1 ≤ d_end ≤ 10
                  ∧ (∀ r d, r ∈ survey_latest_first →
                            Pandas.eq (Main.CLS_ID r) (Main.region ch) = true →
                            Main.date r = Some d → 1 ≤ d ≤ 10 → d ≤ d_end)
                  ∧ Main.change_rate ch
                    = Main.rate
                        (Main.first_or_zero
                           (List.filter (Main.between 1 1) survey_latest_first)
                           (Main.region ch))
                        (Main.index r_end))
      [{| Main.region := JStr "11"; Main.change_rate := 10 |}].
Proof.
  split; [vm_compute; reflexivity|].
  apply (main_calc_change_descending survey_latest_first 1 10).
  - apply sorted_descending_by_region. repeat constructor; lia.
  - vm_compute. reflexivity.
Defined.

Lemma main_draws_map_iff_witness :
  Main.StHtml Main.base_map
    ∈ log_of (Main.main open_data two_observations layers_added get_html_not_json
                (Main.GeoData sig_geojson) 1 10 None).
Proof.
  apply (main_draws_map_iff open_data two_observations layers_added get_html_not_json
           (Main.GeoData sig_geojson) 1 10 None survey Main.base_map).
  - vm_compute. reflexivity.
  - intros df0 shown [=].
  - exists sig_geojson, [{| Main.region := JStr "11"; Main.change_rate := 0 |}].
    split; [reflexivity|]. split; [discriminate|]. split; [lia|]. split; [discriminate|].
    split; [vm_compute; reflexivity|]. split; [discriminate|]. split; reflexivity.
Defined.

Lemma default_dates_give_a_result_witness :
  1 ≤ 10
  ∧ (∀ r d, r ∈ survey → Main.date r = Some d → 1 ≤ d ≤ 10)
  ∧ ∀ out,
      Main.calc_change survey 1 10 = Ok out →
      out ≠ [] ∧ map Main.region out = Pandas.first_occurrences (map Main.CLS_ID survey).
Proof. apply (default_dates_give_a_result survey 1 10); reflexivity. Defined.

(** ** The exceptions of [main.py] *)


